(** * mobile-use: the run orchestrator of [mobile_use/main.py]

    A shallow embedding of [print_ai_response_to_stderr],
    [check_device_screen_api_health_with_retry_logic], [run_servers],
    [get_mobile_use_context], [run_automation] and [main]; the properties
    of the orchestration contract that the specification states about
    them; and further properties that the code itself shows.

    The program talks to many collaborators (the device bridge, the
    screen API, the planning engine, the file system, the recorder).  Their
    answers are gathered in an environment [Env]; what the program does to
    them is a chronological [trace] of [Event]s inside a [World] that also
    carries the live directories and the two record sinks.  Python code
    becomes a computation of the monad [M], whose outcome is a value, a
    raised exception, or [Diverge] when the unbounded status poll has used
    up its fuel.  Logger calls are not part of the model, except the error
    report of the bridge poll, which carries the diagnostic text. *)

From stdpp Require Import base decidable option list gmap strings.
From Stdlib Require Import ZArith Lia.

(* [set_solver] clears hypotheses that may already be gone. *)
#[local] Set Warnings "-clear-no-such-hyp".

Local Open Scope string_scope.
Local Open Scope list_scope.
Local Open Scope stdpp_scope.

(** ** Python truthiness of the values the program tests *)

Definition truthy_str (s : string) : bool :=
  match s with EmptyString => false | String _ _ => true end.

(** [Optional[str]]: [None] and the empty string are falsy. *)
Definition truthy_opt_str (o : option string) : bool :=
  match o with None => false | Some s => truthy_str s end.

Definition truthy_list {A} (l : list A) : bool :=
  match l with [] => false | _ :: _ => true end.

(** A number is falsy exactly when it is zero ([time.time()]). *)
Definition truthy_num (t : Z) : bool := negb (t =? 0)%Z.

(** ** Data model *)

Definition Path := string.

(** [PurePath.joinpath] / the [/] operator on a relative segment. *)
Definition joinpath (p : Path) (seg : string) : Path := p +:+ "/" +:+ seg.

(** Modelled from the spec: the enumeration [BridgeStatus] of
    [mobile_use/servers/device_hardware_bridge.py], which is not part of the
    translated file; section 3 lists its six tags.  A comparison with
    [BridgeStatus.X.value] is a comparison of tags. *)
Inductive BridgeStatus :=
| STARTING | RUNNING | NO_DEVICE | FAILED | PORT_IN_USE | STOPPED.

#[export] Instance BridgeStatus_eq_dec : EqDecision BridgeStatus.
Proof. solve_decision. Defined.

(** The dictionary returned by [bridge_instance.get_status()]. *)
Record StatusInfo := {
  status : BridgeStatus;
  output : option string
}.

(** A started bridge: the answer to its n-th [get_status()] call. *)
Definition Bridge := nat -> StatusInfo.

(** What [start_device_screen_api(use_process=True)] hands back. *)
Inductive ApiHandle :=
| ApiNone            (* None *)
| ApiProcess         (* a multiprocessing.Process *)
| ApiOther.          (* some other handle, e.g. a thread *)

(** [mobile_use.config.settings], as far as [main.py] reads it. *)
Record Settings := {
  DEVICE_HARDWARE_BRIDGE_BASE_URL : option string;
  DEVICE_SCREEN_API_BASE_URL : option string
}.

(** How the local services behave during one call of [run_servers]. *)
Record Host := {
  start_device_hardware_bridge : option Bridge;
  start_device_screen_api : ApiHandle;
  (* client.get_with_retry("/health", timeout=5): true when it returns,
     false when it raises a RequestException *)
  health_ok : bool
}.

Inductive Message :=
| AIMessage (content : string)
| OtherMessage (content : string).

(** [mobile_use.graph.state.State], with the fields [main.py] names. *)
Record State := {
  messages : list Message;
  initial_goal : string;
  subgoal_plan : list string;
  latest_ui_hierarchy : option string;
  latest_screenshot_base64 : option string;
  focused_app_info : option string;
  device_date : option string;
  structured_decisions : option string;
  agents_thoughts : list string;
  remaining_steps : Z;
  executor_retrigger : bool;
  executor_failed : bool;
  executor_messages : list Message;
  cortex_last_thought : option string
}.

(** A chunk of [astream(..., stream_mode=["messages", "custom", "values"])]:
    the pair (stream_mode, content), the content of a "values" chunk being
    the full state. *)
Inductive StreamChunk :=
| Messages (token : string)
| Custom (event : string)
| Values (content : State).

Definition stream_mode (c : StreamChunk) : string :=
  match c with
  | Messages _ => "messages"
  | Custom _ => "custom"
  | Values _ => "values"
  end.

(** The structured output is a dictionary; only its emptiness is tested. *)
Definition Payload := list (string * string).

(** What [run_automation] returns: a dict, a thought, or [None]. *)
Inductive RunResult :=
| Structured (payload : Payload)
| Thought (last_msg : string)
| NoResult.

Record ScreenDataResponse := {
  platform : string;
  width : Z;
  height : Z
}.

Inductive DevicePlatform := ANDROID | IOS.

Record DeviceContext := {
  host_platform : string;
  mobile_platform : DevicePlatform;
  device_id : string;
  device_width : Z;
  device_height : Z
}.

Record ExecutionSetup := { trace_id : string }.

(** [MobileUseContext]; the three clients it also holds are opaque here. *)
Record MobileUseContext := {
  device : DeviceContext;
  execution_setup : option ExecutionSetup
}.

(** What the planning engine is invoked with: [get_graph(context)] and the
    arguments of [astream]. *)
Record GraphCall := {
  call_context : MobileUseContext;
  call_input : State;
  call_recursion_limit : Z
}.

Record OutputConfig := {
  output_description : option string;
  (* the answer of output_config.needs_structured_format() *)
  needs_structured_format : bool
}.

(** The four media helpers of the finalization, in call order. *)
Inductive MediaStep :=
| CreateGif | CreateStepsJson | RemoveImages | RemoveStepsJson.

#[export] Instance MediaStep_eq_dec : EqDecision MediaStep.
Proof. solve_decision. Defined.

(** Exceptions, by the place that raises them. *)
Inductive Exception :=
| ScreenDataFailure (msg : string)          (* get_screen_data *)
| StreamingFailure (msg : string)           (* the planning-engine stream *)
| OutputterFailure (msg : string)           (* the structured-output generator *)
| MediaFailure (step : MediaStep) (msg : string)
| FileNotFoundError (p : Path)              (* Path.rename, no source *)
| FileExistsError (p : Path).               (* Path.rename, target taken *)

(** ** Observable actions *)

Inductive Event :=
| EvGetFirstDeviceId
| EvRunServers (device : string)
| EvStartBridge (device : string)
| EvGetStatus
| EvBridgeFailed (st : BridgeStatus) (out : option string)
| EvSleep (seconds : nat)                          (* time.sleep *)
| EvStartScreenApi
| EvHealthCheck
| EvStopServers (device_screen_api device_hardware_bridge : bool)
| EvTerminateApi
| EvInitLlmConfig
| EvGetScreenData
| EvMkdir (p : Path)
| EvGetGraph (call : GraphCall)                    (* engine invoked *)
| EvLogAgentThoughts (thoughts : list string)
| EvPrintStderr (content : string)
| EvOutputter
| EvMedia (step : MediaStep) (p : Path)
| EvRename (src dst : Path)
| EvAsyncSleep (seconds : nat)                     (* asyncio.sleep *)
| EvRecordResult (r : RunResult).

(** ** The world and the monad *)

Record World := {
  trace : list Event;          (* what happened, oldest first *)
  dirs : gset Path;            (* the directories that exist *)
  events_log : list string;    (* the file at events_output_path *)
  events_mark : nat;           (* recorder: entries already written *)
  results_sink : list RunResult  (* the file at results_output_path *)
}.

Inductive Outcome (A : Type) :=
| Ok (a : A)
| Raise (e : Exception)
| Diverge.
Arguments Ok {A} a.
Arguments Raise {A} e.
Arguments Diverge {A}.

Definition M (A : Type) : Type := World -> Outcome A * World.

Definition ret {A} (a : A) : M A := fun w => (Ok a, w).

Definition bind {A B} (m : M A) (f : A -> M B) : M B := fun w =>
  match m w with
  | (Ok a, w') => f a w'
  | (Raise e, w') => (Raise e, w')
  | (Diverge, w') => (Diverge, w')
  end.

Declare Scope prog_scope.
Delimit Scope prog_scope with prog.
Bind Scope prog_scope with M.

Notation "'let*' x := m 'in' k" := (bind m (fun x => k))
  (at level 10, x name, m at level 100, k at level 200) : prog_scope.
Notation "m ;; k" := (bind m (fun _ => k))
  (at level 100, k at level 200, right associativity) : prog_scope.

Local Open Scope prog_scope.

Definition raise {A} (e : Exception) : M A := fun w => (Raise e, w).
Definition diverge {A} : M A := fun w => (Diverge, w).

Definition add_events (evs : list Event) (w : World) : World :=
  {| trace := trace w ++ evs; dirs := dirs w; events_log := events_log w;
     events_mark := events_mark w; results_sink := results_sink w |}.

Definition emit (e : Event) : M unit := fun w => (Ok tt, add_events [e] w).

(** [try: body finally: fin].  A raise of [fin] replaces the outcome of
    [body]; a diverging [body] never reaches [fin]. *)
Definition try_finally {A} (body : M A) (fin : Outcome A -> M unit) : M A :=
  fun w =>
    match body w with
    | (Diverge, w1) => (Diverge, w1)
    | (o, w1) =>
        match fin o w1 with
        | (Ok _, w2) => (o, w2)
        | (Raise e, w2) => (Raise e, w2)
        | (Diverge, w2) => (Diverge, w2)
        end
    end.

(** [try: body except Exception: handler]. *)
Definition try_except {A} (body : M A) (handler : Exception -> M A) : M A :=
  fun w =>
    match body w with
    | (Raise e, w1) => handler e w1
    | r => r
    end.

(** ** [run_servers] *)

Definition failed_statuses : list BridgeStatus :=
  [NO_DEVICE; FAILED; PORT_IN_USE; STOPPED].

(** The [while True] loop of [run_servers], lines 100-123: [n] counts the
    status reads already made; [true] is the [break], [false] the
    [return False]. *)
Fixpoint bridge_status_poll (fuel : nat) (bridge : Bridge) (n : nat) : M bool :=
  match fuel with
  | O => diverge
  | S fuel' =>
      emit EvGetStatus;;
      let status_info := bridge n in
      if bool_decide (status status_info = RUNNING) then ret true
      else if bool_decide (status status_info ∈ failed_statuses) then
        emit (EvBridgeFailed (status status_info) (output status_info));;
        ret false
      else
        emit (EvSleep 1);;
        bridge_status_poll fuel' bridge (S n)
  end.

Definition check_device_screen_api_health_with_retry_logic
    (settings : Settings) (host : Host) : M bool :=
  let restart_screen_api := negb (truthy_opt_str (DEVICE_SCREEN_API_BASE_URL settings)) in
  let restart_hw_bridge := negb (truthy_opt_str (DEVICE_HARDWARE_BRIDGE_BASE_URL settings)) in
  emit EvHealthCheck;;
  if health_ok host then ret true
  else
    emit (EvStopServers restart_screen_api restart_hw_bridge);;
    ret false.

Definition truthy_handle (h : ApiHandle) : bool :=
  match h with ApiNone => false | _ => true end.

(** [isinstance(api_process, multiprocessing.Process)]. *)
Definition isinstance_Process (h : ApiHandle) : bool :=
  match h with ApiProcess => true | _ => false end.

(** The part of [run_servers] after the bridge is up, lines 125-137;
    [api_process] is [None] unless the screen API is started here. *)
Definition run_servers_screen_api (settings : Settings) (host : Host) : M bool :=
  let start := negb (truthy_opt_str (DEVICE_SCREEN_API_BASE_URL settings)) in
  (if start then emit EvStartScreenApi else ret tt);;
  let api_process := if start then start_device_screen_api host else ApiNone in
  if start && (negb (truthy_handle api_process)
               || negb (isinstance_Process api_process)) then ret false
  else
    let* healthy := check_device_screen_api_health_with_retry_logic settings host in
    if healthy then ret true
    else
      (if truthy_handle api_process then emit EvTerminateApi else ret tt);;
      ret false.

Definition run_servers (fuel : nat) (settings : Settings) (device : string)
    (host : Host) : M bool :=
  emit (EvRunServers device);;
  if negb (truthy_opt_str (DEVICE_HARDWARE_BRIDGE_BASE_URL settings)) then
    emit (EvStartBridge device);;
    match start_device_hardware_bridge host with
    | None => ret false
    | Some bridge_instance =>
        let* running := bridge_status_poll fuel bridge_instance 0 in
        if running then run_servers_screen_api settings host
        else ret false
    end
  else run_servers_screen_api settings host.

(** ** The environment of a run *)

Record Env := {
  settings : Settings;
  get_first_device_id : option string;
  (* servers n: the local services during the n-th call of run_servers *)
  servers : nat -> Host;
  platform_system : string;                          (* platform.system() *)
  (* get_screen_data(screen_api_client): inl msg when it raises *)
  get_screen_data : string + ScreenDataResponse;
  time_time : Z;                                     (* time.time() *)
  RECURSION_LIMIT : Z;                               (* mobile_use.constants *)
  convert_timestamp_to_str : Z -> string;
  resolve : Path -> Path;                            (* Path.resolve() *)
  module_dir : Path;                                 (* Path(__file__).parent *)
  (* the chunks the engine streams, and the exception that ends the
     stream when it does not end normally *)
  graph_chunks : list StreamChunk;
  graph_failure : option string;
  (* outputter(output_config, graph_output): inl msg when it raises *)
  outputter : string + Payload;
  (* media step: Some msg when that helper raises *)
  media : MediaStep -> option string
}.

(** ** [get_mobile_use_context] *)

Definition get_mobile_use_context (env : Env) (device_id : string)
  : M MobileUseContext :=
  let host_platform := platform_system env in
  emit EvGetScreenData;;
  match get_screen_data env with
  | inl msg => raise (ScreenDataFailure msg)
  | inr screen_data =>
      let device_context :=
        {| host_platform :=
             if String.eqb host_platform "Windows" then "WINDOWS" else "LINUX";
           mobile_platform :=
             if String.eqb (platform screen_data) "ANDROID" then ANDROID else IOS;
           device_id := device_id;
           device_width := width screen_data;
           device_height := height screen_data |} in
      ret {| device := device_context; execution_setup := None |}
  end.

(** ** File system and recorder *)

(** [Path.mkdir(parents=True, exist_ok=True)]; only the directory named is
    tracked, not its ancestors. *)
Definition mkdir (p : Path) : M unit := fun w =>
  (Ok tt,
   {| trace := trace w ++ [EvMkdir p]; dirs := {[p]} ∪ dirs w;
      events_log := events_log w; events_mark := events_mark w;
      results_sink := results_sink w |}).

(** [Path.rename(target)]: the source must exist; a target that is already
    there is an error (the strict reading: a target that is not an empty
    directory). *)
Definition rename (src dst : Path) : M unit := fun w =>
  let w1 := add_events [EvRename src dst] w in
  if decide (src ∈ dirs w) then
    if decide (dst ∈ dirs w) then (Raise (FileExistsError dst), w1)
    else
      (Ok tt,
       {| trace := trace w1; dirs := {[dst]} ∪ (dirs w ∖ {[src]});
          events_log := events_log w; events_mark := events_mark w;
          results_sink := results_sink w |})
  else (Raise (FileNotFoundError src), w1).

(** [record_events(output_path=results_output_path, events=...)]. *)
Definition record_result (r : RunResult) : M unit := fun w =>
  (Ok tt,
   {| trace := trace w ++ [EvRecordResult r]; dirs := dirs w;
      events_log := events_log w; events_mark := events_mark w;
      results_sink := results_sink w ++ [r] |}).

(** Modelled from the spec: [log_agent_thoughts] of
    [mobile_use/utils/recorder.py], which is not part of the translated
    file.  Section 4.5: the snapshot carries the cumulative thought
    sequence, and the append to the durable event log tracks a high-water
    mark of the entries written and writes only the entries beyond it. *)
Definition log_agent_thoughts (agents_thoughts : list string) : M unit := fun w =>
  (Ok tt,
   {| trace := trace w ++ [EvLogAgentThoughts agents_thoughts];
      dirs := dirs w;
      events_log := events_log w ++ drop (events_mark w) agents_thoughts;
      events_mark := Nat.max (events_mark w) (length agents_thoughts);
      results_sink := results_sink w |}).

Definition media_step (env : Env) (step : MediaStep) (p : Path) : M unit :=
  emit (EvMedia step p);;
  match media env step with
  | Some msg => raise (MediaFailure step msg)
  | None => ret tt
  end.

(** ** [run_automation] *)

Definition max_restart_attempts : nat := 3.

(** The [while restart_attempt < max_restart_attempts] loop, lines 191-206.
    [remaining] is [max_restart_attempts - restart_attempt], so the loop
    condition is [remaining > 0].  [true]: the loop is left and the run goes
    on; [false]: the [return] of line 206. *)
Fixpoint restart_loop (fuel : nat) (env : Env) (device_id : string)
    (remaining : nat) : M bool :=
  match remaining with
  | O => ret true
  | S remaining' =>
      let restart_attempt := max_restart_attempts - remaining in
      let* success :=
        run_servers fuel (settings env) device_id (servers env restart_attempt) in
      if success then ret true
      else
        let restart_attempt := restart_attempt + 1 in
        if (restart_attempt <? max_restart_attempts)%nat then
          emit (EvSleep 3);;
          restart_loop fuel env device_id remaining'
        else ret false
  end.

Definition is_AIMessage (m : Message) : bool :=
  match m with AIMessage _ => true | OtherMessage _ => false end.

Definition print_ai_response_to_stderr (graph_result : State) : M unit :=
  match find is_AIMessage (rev (messages graph_result)) with
  | Some (AIMessage content) => emit (EvPrintStderr content)
  | _ => ret tt
  end.

(** The [async for] loop, lines 257-271: [last_state] is the loop-carried
    variable.  [stream_mode == "values"] is the test for a [Values] chunk. *)
Fixpoint consume_stream (chunks : list StreamChunk) (last_state : option State)
  : M (option State) :=
  match chunks with
  | [] => ret last_state
  | chunk :: rest =>
      match chunk with
      | Values content =>
          let last_state := Some content in
          log_agent_thoughts (agents_thoughts content);;
          consume_stream rest last_state
      | _ => consume_stream rest last_state
      end
  end.

(** The local variables that outlive the [try] block. *)
Record Locals := {
  success : bool;
  last_state : option State;
  structured_output : option Payload
}.

(** How the [try] block ends when it does not raise. *)
Inductive Flow :=
| Returned              (* the [return] of line 274 *)
| FellThrough (l : Locals).

(** Lines 279-285: the call of the outputter inside its own [try]. *)
Definition call_outputter (env : Env) : M (option Payload) :=
  try_except
    (emit EvOutputter;;
     match outputter env with
     | inl msg => raise (OutputterFailure msg)
     | inr payload => ret (Some payload)
     end)
    (fun e => ret None).

Definition needs_structure (output_config : option OutputConfig) : bool :=
  match output_config with
  | Some c => needs_structured_format c
  | None => false
  end.

(** Lines 257-288: what the [try] block does once [get_graph] is called. *)
Definition graph_body (env : Env) (output_config : option OutputConfig) : M Flow :=
  let* last_state := consume_stream (graph_chunks env) None in
  (match graph_failure env with
   | Some msg => raise (StreamingFailure msg)
   | None => ret tt
   end);;
  match last_state with
  | None => ret Returned
  | Some graph_result =>
      print_ai_response_to_stderr graph_result;;
      let* structured_output :=
        (if needs_structure output_config then call_outputter env
         else ret None) in
      ret (FellThrough {| success := true;
                          last_state := Some graph_result;
                          structured_output := structured_output |})
  end.

(** The [try] block, lines 255-291, with its [except Exception: raise]. *)
Definition run_graph (env : Env) (context : MobileUseContext)
    (graph_input : State) (output_config : option OutputConfig) : M Flow :=
  try_except
    (emit (EvGetGraph {| call_context := context;
                         call_input := graph_input;
                         call_recursion_limit := RECURSION_LIMIT env |});;
     graph_body env output_config)
    (fun e => raise e).

(** [f"{test_name}"] for an optional string. *)
Definition fstr (o : option string) : string :=
  match o with Some s => s | None => "None" end.

Definition status_tag (success : bool) : string :=
  if success then "_PASS" else "_FAIL".

Definition trace_name (env : Env) (test_name : option string) (success : bool)
    (start_time : Z) : string :=
  fstr test_name +:+ status_tag success +:+ "_" +:+
  convert_timestamp_to_str env start_time.

(** The [finally] block, lines 293-310. *)
Definition finalize_trace (env : Env) (test_name : option string)
    (traces_temp_path traces_output_path : option Path) (start_time : Z)
    (success : bool) : M unit :=
  (match traces_temp_path, traces_output_path with
   | Some temp, Some out =>
       if truthy_num start_time then
         let new_name := trace_name env test_name success start_time in
         media_step env CreateGif temp;;
         media_step env CreateStepsJson temp;;
         media_step env RemoveImages temp;;
         media_step env RemoveStepsJson temp;;
         rename temp (joinpath out new_name)
       else ret tt
   | _, _ => ret tt
   end);;
  emit (EvAsyncSleep 1).

(** [success] is still [False] unless the [try] block reached its last
    statement. *)
Definition success_of (o : Outcome Flow) : bool :=
  match o with
  | Ok (FellThrough l) => success l
  | _ => false
  end.

(** Lines 315-320. *)
Definition thought_result (l : Locals) : M RunResult :=
  match last_state l with
  | Some st =>
      match last (agents_thoughts st) with
      | Some last_msg => record_result (Thought last_msg);; ret (Thought last_msg)
      | None => ret NoResult
      end
  | None => ret NoResult
  end.

(** Lines 311-320. *)
Definition resolve_output (l : Locals) : M RunResult :=
  match structured_output l with
  | Some payload =>
      if truthy_list payload then
        record_result (Structured payload);; ret (Structured payload)
      else thought_result l
  | None => thought_result l
  end.

Definition traces_temp_dir (env : Env) (test_name : string) : Path :=
  resolve env (joinpath (module_dir env) ("../traces/" +:+ test_name)).

(** [context.execution_setup = ExecutionSetup(trace_id=trace_id)]. *)
Definition with_trace_id (context : MobileUseContext) (trace_id : string)
  : MobileUseContext :=
  {| device := device context;
     execution_setup := Some {| trace_id := trace_id |} |}.

(** Lines 236-251. *)
Definition initial_state (env : Env) (goal : string) : State :=
  {| messages := [];
     initial_goal := goal;
     subgoal_plan := [];
     latest_ui_hierarchy := None;
     latest_screenshot_base64 := None;
     focused_app_info := None;
     device_date := None;
     structured_decisions := None;
     agents_thoughts := [];
     remaining_steps := RECURSION_LIMIT env;
     executor_retrigger := false;
     executor_failed := false;
     executor_messages := [];
     cortex_last_thought := None |}.

(** Lines 217-320: from [start_time = time.time()] to the end. *)
Definition run_traced (env : Env) (context : MobileUseContext) (goal : string)
    (test_name : option string) (traces_output_path_str : string)
    (output_config : option OutputConfig) : M RunResult :=
  let start_time := time_time env in
  let* setup :=
    (if truthy_opt_str test_name then
       let traces_output_path := resolve env traces_output_path_str in
       let traces_temp_path := traces_temp_dir env (fstr test_name) in
       mkdir traces_output_path;;
       mkdir traces_temp_path;;
       let trace_id := fstr test_name in
       ret (Some traces_temp_path, Some traces_output_path,
            with_trace_id context trace_id)
     else ret (None, None, context)) in
  let traces_temp_path := fst (fst setup) in
  let traces_output_path := snd (fst setup) in
  let context := snd setup in
  let graph_input := initial_state env goal in
  let* flow :=
    try_finally (run_graph env context graph_input output_config)
      (fun o => finalize_trace env test_name traces_temp_path traces_output_path
                  start_time (success_of o)) in
  match flow with
  | Returned => ret NoResult
  | FellThrough l => resolve_output l
  end.

Definition run_automation (fuel : nat) (env : Env) (goal : string)
    (test_name : option string) (traces_output_path_str : string)
    (output_config : option OutputConfig) : M RunResult :=
  emit EvGetFirstDeviceId;;
  match get_first_device_id env with
  | None => ret NoResult
  | Some device_id =>
      if negb (truthy_str device_id) then ret NoResult
      else
        let* started := restart_loop fuel env device_id max_restart_attempts in
        if started then
          emit EvInitLlmConfig;;
          let* context := get_mobile_use_context env device_id in
          run_traced env context goal test_name traces_output_path_str
            output_config
        else ret NoResult
  end.

(** ** [main] *)

(** Lines 324-376.  [needs_format] is what [needs_structured_format()]
    answers for the configuration built here.  The console table of
    [display_device_status] is output like the logger's, and the ADB client
    is one of the opaque clients of the context. *)
Definition main (fuel : nat) (env : Env) (needs_format : bool) (goal : string)
    (test_name : option string) (traces_path : string)
    (output_description : option string) : M unit :=
  let output_config :=
    if truthy_opt_str output_description then
      Some {| output_description := output_description;
              needs_structured_format := needs_format |}
    else None in
  run_automation fuel env goal test_name traces_path output_config;;
  ret tt.

(** ** Reading a trace *)

(** The events a run added to the trace of the world it started in. *)
Definition events_since (w w' : World) : list Event :=
  drop (length (trace w)) (trace w').

Fixpoint count_ev (P : Event -> bool) (l : list Event) : nat :=
  match l with
  | [] => 0
  | e :: l' => (if P e then 1 else 0) + count_ev P l'
  end.

Definition is_get_status (e : Event) : bool :=
  match e with EvGetStatus => true | _ => false end.

Definition is_run_servers (e : Event) : bool :=
  match e with EvRunServers _ => true | _ => false end.

(** The pause between two bootstrap attempts, [time.sleep(3)]. *)
Definition is_backoff (e : Event) : bool :=
  match e with EvSleep n => (n =? 3)%nat | _ => false end.

Definition is_engine (e : Event) : bool :=
  match e with EvGetGraph _ => true | _ => false end.

Definition is_screen_query (e : Event) : bool :=
  match e with EvGetScreenData => true | _ => false end.

Definition is_record_result (e : Event) : bool :=
  match e with EvRecordResult _ => true | _ => false end.

Definition is_mkdir (e : Event) : bool :=
  match e with EvMkdir _ => true | _ => false end.

(** What happens inside one call of [run_servers], after the call itself. *)
Definition service_event (e : Event) : bool :=
  match e with
  | EvStartBridge _ | EvGetStatus | EvBridgeFailed _ _ | EvStartScreenApi
  | EvHealthCheck | EvStopServers _ _ | EvTerminateApi => true
  | EvSleep n => (n =? 1)%nat
  | _ => false
  end.

(** What happens before the trace directories are set up (lines 177-215). *)
Definition setup_event (e : Event) : bool :=
  match e with
  | EvGetFirstDeviceId | EvRunServers _ | EvSleep _ | EvInitLlmConfig
  | EvGetScreenData => true
  | _ => service_event e
  end.

(** What happens from line 217 on. *)
Definition traced_event (e : Event) : bool :=
  match e with
  | EvMkdir _ | EvGetGraph _ | EvLogAgentThoughts _ | EvPrintStderr _
  | EvOutputter | EvMedia _ _ | EvRename _ _ | EvAsyncSleep _
  | EvRecordResult _ => true
  | _ => false
  end.

(** What happens inside the [try] block after the engine is invoked. *)
Definition stream_event (e : Event) : bool :=
  match e with
  | EvLogAgentThoughts _ | EvPrintStderr _ | EvOutputter => true
  | _ => false
  end.

(** What happens inside the [finally] block. *)
Definition final_event (e : Event) : bool :=
  match e with
  | EvMedia _ _ | EvRename _ _ | EvAsyncSleep _ => true
  | _ => false
  end.

(** What can happen once the engine has been invoked. *)
Definition after_engine_event (e : Event) : bool :=
  match e with
  | EvRecordResult _ => true
  | _ => stream_event e || final_event e
  end.


(** The planning engine was invoked. *)
Definition engine_invoked (evs : list Event) : Prop :=
  exists call, EvGetGraph call ∈ evs.

(** Some event of [evs] is not an event of [phase]: with [setup_event],
    the run went past its setup. *)
Definition past (phase : Event -> bool) (evs : list Event) : Prop :=
  exists e, e ∈ evs /\ phase e = false.

(** ** Relations between the world before and after *)

(** A computation [steps] along a relation on worlds when every run of it
    leads to a related world. *)
Definition steps (R : relation World) {A} (m : M A) : Prop :=
  forall w, R w (snd (m w)).

(** [w'] is [w] with events of kind [P] appended, nothing else changed. *)
Definition appended (P : Event -> bool) (w w' : World) : Prop :=
  exists evs, w' = add_events evs w /\ Forall (fun e => P e = true) evs.

(** The trace of [w'] is that of [w] with events of kind [P] appended. *)
Definition trace_grown (P : Event -> bool) (w w' : World) : Prop :=
  exists evs, trace w' = trace w ++ evs /\ Forall (fun e => P e = true) evs.

Definition same_dirs (w w' : World) : Prop := dirs w' = dirs w.
Definition same_results (w w' : World) : Prop := results_sink w' = results_sink w.

(** ** The phases of a run *)

(** [k] rounds of the poll that saw a non-terminal status: a status read
    followed by a one-second sleep. *)
Fixpoint poll_rounds (k : nat) : list Event :=
  match k with
  | O => []
  | S k' => EvGetStatus :: EvSleep 1 :: poll_rounds k'
  end.

(** The bootstrap attempt number [i] of a run fails / succeeds: the call of
    [run_servers] made for it returns [False] / [True]. *)
Definition attempt_is (b : bool) (fuel : nat) (env : Env) (device : string)
    (i : nat) : Prop :=
  forall w, fst (run_servers fuel (settings env) device (servers env i) w) = Ok b.

(** The claim about [N] failed bootstrap attempts followed by a success:
    the run makes [N + 1] attempts and [N] pauses of three seconds; all of
    them lie before any invocation of the planning engine; and the engine
    is invoked when the device context can be built. *)
Definition retry_then_stream (N : nat) : Prop :=
  forall fuel env goal test_name out output_config w device,
    get_first_device_id env = Some device ->
    truthy_str device = true ->
    (forall i, i < N -> attempt_is false fuel env device i) ->
    attempt_is true fuel env device N ->
    let evs := events_since w
                 (snd (run_automation fuel env goal test_name out output_config w)) in
    count_ev is_run_servers evs = N + 1 /\
    count_ev is_backoff evs = N /\
    (forall pre call post,
       evs = pre ++ EvGetGraph call :: post ->
       count_ev is_run_servers pre = N + 1 /\ count_ev is_backoff pre = N) /\
    ((exists screen_data, get_screen_data env = inr screen_data) ->
     engine_invoked evs).

(** The world once the trace directories are set up (lines 223-231), and
    the events of the setup. *)
Definition setup_world (env : Env) (test_name : option string)
    (traces_output_path_str : string) (w : World) : World :=
  if truthy_opt_str test_name then
    snd (mkdir (traces_temp_dir env (fstr test_name))
           (snd (mkdir (resolve env traces_output_path_str) w)))
  else w.

Definition setup_events (env : Env) (test_name : option string)
    (traces_output_path_str : string) : list Event :=
  if truthy_opt_str test_name then
    [EvMkdir (resolve env traces_output_path_str);
     EvMkdir (traces_temp_dir env (fstr test_name))]
  else [].

(** [traces_temp_path] and [traces_output_path] after the setup. *)
Definition temp_path (env : Env) (test_name : option string) : option Path :=
  if truthy_opt_str test_name then Some (traces_temp_dir env (fstr test_name))
  else None.

Definition output_path (env : Env) (test_name : option string)
    (traces_output_path_str : string) : option Path :=
  if truthy_opt_str test_name then Some (resolve env traces_output_path_str)
  else None.

(** What the engine is invoked with. *)
Definition engine_call (env : Env) (context : MobileUseContext) (goal : string)
    (test_name : option string) : GraphCall :=
  {| call_context :=
       if truthy_opt_str test_name then with_trace_id context (fstr test_name)
       else context;
     call_input := initial_state env goal;
     call_recursion_limit := RECURSION_LIMIT env |}.

(** The payload of a full-snapshot chunk, and of the last one of a stream. *)
Definition snapshot_of (c : StreamChunk) : option State :=
  match c with Values content => Some content | _ => None end.

Definition last_snapshot (chunks : list StreamChunk) : option State :=
  last (omap snapshot_of chunks).

Definition not_values (c : StreamChunk) : Prop := stream_mode c <> "values".

(** The thought lists of the snapshots of a stream, in order. *)
Definition thought_lists (chunks : list StreamChunk) : list (list string) :=
  agents_thoughts <$> omap snapshot_of chunks.

(** Every snapshot carries the thoughts recorded so far and possibly more:
    each list extends the one before it, starting from [written]. *)
Fixpoint cumulative (written : list string) (lists : list (list string)) : Prop :=
  match lists with
  | [] => True
  | l :: rest => written `prefix_of` l /\ cumulative l rest
  end.

(** The thought list of the last snapshot, or [written] when there is none. *)
Definition last_thoughts (written : list string) (chunks : list StreamChunk)
  : list string :=
  match last_snapshot chunks with
  | Some s => agents_thoughts s
  | None => written
  end.

(** What the outputter leaves in [structured_output]. *)
Definition produced_output (env : Env) (output_config : option OutputConfig)
  : option Payload :=
  if needs_structure output_config then
    match outputter env with inr payload => Some payload | inl _ => None end
  else None.

(** How the [try] block ends, read off the environment. *)
Definition graph_outcome (env : Env) (output_config : option OutputConfig)
  : Outcome Flow :=
  match graph_failure env with
  | Some msg => Raise (StreamingFailure msg)
  | None =>
      match last_snapshot (graph_chunks env) with
      | None => Ok Returned
      | Some s =>
          Ok (FellThrough {| success := true; last_state := Some s;
                             structured_output := produced_output env output_config |})
      end
  end.

(** The directory the trace is renamed to. *)
Definition final_dir (env : Env) (test_name : option string) (out : Path)
    (success : bool) : Path :=
  joinpath out (trace_name env test_name success (time_time env)).

(** The exceptions the [finally] block can raise. *)
Definition finalization_failure (e : Exception) : Prop :=
  match e with
  | MediaFailure _ _ | FileNotFoundError _ | FileExistsError _ => True
  | _ => False
  end.

(** The events of a finalization that runs to completion. *)
Definition finalization_events (temp final : Path) : list Event :=
  [EvMedia CreateGif temp; EvMedia CreateStepsJson temp;
   EvMedia RemoveImages temp; EvMedia RemoveStepsJson temp;
   EvRename temp final; EvAsyncSleep 1].


(** How the run ends, from the outcome of the [try] block and the world
    the [finally] block left. *)
Definition conclude (o : Outcome Flow) (f : Outcome unit * World)
  : Outcome RunResult * World :=
  match fst f with
  | Ok _ =>
      match o with
      | Ok Returned => (Ok NoResult, snd f)
      | Ok (FellThrough l) => resolve_output l (snd f)
      | Raise e => (Raise e, snd f)
      | Diverge => (Diverge, snd f)
      end
  | Raise e => (Raise e, snd f)
  | Diverge => (Diverge, snd f)
  end.


(** What a result adds to the results sink. *)
Definition recorded (res : RunResult) : list RunResult :=
  match res with NoResult => [] | _ => [res] end.

(** ** Concrete worlds and environments *)

Definition empty_world : World :=
  {| trace := []; dirs := ∅; events_log := []; events_mark := 0;
     results_sink := [] |}.

(** A bridge that is RUNNING at its third status read. *)
Definition bridge_up_after_two : Bridge := fun n =>
  {| status := if (n <? 2)%nat then STARTING else RUNNING; output := None |}.

Definition no_urls : Settings :=
  {| DEVICE_HARDWARE_BRIDGE_BASE_URL := None; DEVICE_SCREEN_API_BASE_URL := None |}.

(** The bridge does not start. *)
Definition host_down : Host :=
  {| start_device_hardware_bridge := None;
     start_device_screen_api := ApiProcess; health_ok := true |}.

(** The bridge comes up; the screen API is healthy. *)
Definition host_up : Host :=
  {| start_device_hardware_bridge := Some bridge_up_after_two;
     start_device_screen_api := ApiProcess; health_ok := true |}.

Definition snapshot (thoughts : list string) : State :=
  {| messages := [AIMessage "done"]; initial_goal := "open settings";
     subgoal_plan := []; latest_ui_hierarchy := None;
     latest_screenshot_base64 := None; focused_app_info := None;
     device_date := None; structured_decisions := None;
     agents_thoughts := thoughts; remaining_steps := 10;
     executor_retrigger := false; executor_failed := false;
     executor_messages := []; cortex_last_thought := None |}.

(** A run whose first [failures] bootstrap attempts fail, on an Android
    device, with the given stream. *)
Definition sample_env (failures : nat) (chunks : list StreamChunk)
    (failure : option string) (out : string + Payload) : Env :=
  {| settings := no_urls;
     get_first_device_id := Some "emulator-5554";
     servers := fun i => if (i <? failures)%nat then host_down else host_up;
     platform_system := "Linux";
     get_screen_data := inr {| platform := "ANDROID"; width := 1080; height := 2400 |};
     time_time := 1700000000;
     RECURSION_LIMIT := 400;
     convert_timestamp_to_str := fun _ => "2023-11-14T22-13-20";
     resolve := fun p => p;
     module_dir := "/app/mobile_use";
     graph_chunks := chunks;
     graph_failure := failure;
     outputter := out;
     media := fun _ => None |}.


(** The second bootstrap attempt succeeds, the stream ends normally, and
    the outputter raises. *)
Definition successful_run : Env :=
  sample_env 1 [Values (snapshot ["tap Settings"]); Messages "tok";
                Values (snapshot ["tap Settings"; "scroll down"])]
    None (inl "schema mismatch").

Definition wants_structure : option OutputConfig :=
  Some {| output_description := Some "a JSON object with keys type and price";
          needs_structured_format := true |}.

(** A host that is not Windows, and a screen API that reports its platform
    in lower case. *)
Definition lower_case_platform : Env :=
  {| settings := no_urls;
     get_first_device_id := Some "emulator-5554";
     servers := fun _ => host_down;
     platform_system := "Darwin";
     get_screen_data :=
       inr {| platform := "android"; width := 1080; height := 2400 |};
     time_time := 1700000000;
     RECURSION_LIMIT := 400;
     convert_timestamp_to_str := fun _ => "2023-11-14T22-13-20";
     resolve := fun p => p;
     module_dir := "/app/mobile_use";
     graph_chunks := [];
     graph_failure := None;
     outputter := inr [];
     media := fun _ => None |}.

(** ** Services and bootstrap events *)

(** [run_servers] manages a service itself when no base URL is configured
    for it. *)
Definition manages_screen_api (settings : Settings) : bool :=
  negb (truthy_opt_str (DEVICE_SCREEN_API_BASE_URL settings)).

Definition manages_bridge (settings : Settings) : bool :=
  negb (truthy_opt_str (DEVICE_HARDWARE_BRIDGE_BASE_URL settings)).

(** What one call of [run_servers] for [device] can do after the call
    itself, under [settings]. *)
Definition service_of (settings : Settings) (device : string) (e : Event) : bool :=
  match e with
  | EvStartBridge d => bool_decide (d = device) && manages_bridge settings
  | EvGetStatus => manages_bridge settings
  | EvBridgeFailed st _ =>
      manages_bridge settings && bool_decide (st ∈ failed_statuses)
  | EvSleep n => (n =? 1)%nat && manages_bridge settings
  | EvStartScreenApi => manages_screen_api settings
  | EvHealthCheck => true
  | EvStopServers device_screen_api device_hardware_bridge =>
      bool_decide (device_screen_api = manages_screen_api settings) &&
      bool_decide (device_hardware_bridge = manages_bridge settings)
  | EvTerminateApi => manages_screen_api settings
  | _ => false
  end.

(** What the restart loop can do. *)
Definition bootstrap_event (settings : Settings) (device : string) (e : Event)
  : bool :=
  match e with
  | EvRunServers d => bool_decide (d = device)
  | EvSleep n => (n =? 3)%nat || service_of settings device e
  | _ => service_of settings device e
  end.

(** What a run can do after the restart loop. *)
Definition after_bootstrap (e : Event) : bool :=
  match e with
  | EvInitLlmConfig | EvGetScreenData => true
  | _ => traced_event e
  end.

(** What a run may do to the services, given the settings: it stops,
    starts, polls and terminates only what it manages. *)
Definition respects_settings (settings : Settings) (e : Event) : bool :=
  match e with
  | EvStopServers device_screen_api device_hardware_bridge =>
      bool_decide (device_screen_api = manages_screen_api settings) &&
      bool_decide (device_hardware_bridge = manages_bridge settings)
  | EvStartScreenApi | EvTerminateApi => manages_screen_api settings
  | EvStartBridge _ | EvGetStatus | EvBridgeFailed _ _ => manages_bridge settings
  | _ => true
  end.


(** Every pause of the restart loop stands between two attempts. *)
Definition paused_between (evs : list Event) : Prop :=
  forall pre post,
    evs = pre ++ EvSleep 3 :: post ->
    0 < count_ev is_run_servers pre /\ 0 < count_ev is_run_servers post.

(** The bridge answers STARTING [k] times and then [st]. *)
Definition settles (bridge : Bridge) (k : nat) (st : BridgeStatus) : Prop :=
  (forall i, i < k -> status (bridge i) = STARTING) /\ status (bridge k) = st.

(** The bridge is up when [run_servers] turns to the screen API: it is
    external, or it was started and reports RUNNING at its read number
    [k], within the fuel. *)
Definition bridge_up (fuel : nat) (settings : Settings) (host : Host) (k : nat)
  : Prop :=
  if manages_bridge settings then
    exists bridge, start_device_hardware_bridge host = Some bridge /\
                   settles bridge k RUNNING /\ k < fuel
  else True.

(** The events of [run_servers] up to there. *)
Definition bridge_events (settings : Settings) (device : string) (k : nat)
  : list Event :=
  EvRunServers device ::
  (if manages_bridge settings then
     EvStartBridge device :: poll_rounds k ++ [EvGetStatus]
   else []).

(** The screen API is there to be probed: it is external, or it was
    started as a process. *)
Definition screen_api_up (settings : Settings) (host : Host) : Prop :=
  manages_screen_api settings = true -> start_device_screen_api host = ApiProcess.


Definition is_outputter (e : Event) : bool :=
  match e with EvOutputter => true | _ => false end.

Definition is_stderr (e : Event) : bool :=
  match e with EvPrintStderr _ => true | _ => false end.

(** The media helpers and the rename of the finalization. *)
Definition is_compile (e : Event) : bool :=
  match e with EvMedia _ _ | EvRename _ _ => true | _ => false end.

Definition is_media (e : Event) : bool :=
  match e with EvMedia _ _ => true | _ => false end.

Definition is_closing_sleep (e : Event) : bool :=
  match e with EvAsyncSleep _ => true | _ => false end.

(** The thought list handed to the recorder, for a recorder event. *)
Definition logged (e : Event) : option (list string) :=
  match e with EvLogAgentThoughts thoughts => Some thoughts | _ => None end.

(** ** The anatomy of a run *)

(** The context [get_mobile_use_context] builds from an answer of the
    screen API. *)
Definition context_of (env : Env) (device_id : string)
    (screen_data : ScreenDataResponse) : MobileUseContext :=
  {| device :=
       {| host_platform :=
            if String.eqb (platform_system env) "Windows" then "WINDOWS" else "LINUX";
          mobile_platform :=
            if String.eqb (platform screen_data) "ANDROID" then ANDROID else IOS;
          device_id := device_id;
          device_width := width screen_data;
          device_height := height screen_data |};
     execution_setup := None |}.

(** What the [try] block adds to the trace after the engine is invoked:
    one recorder call per snapshot and, when the stream ends normally with
    a snapshot, the answer on stderr and the call of the outputter. *)
Definition stderr_events (graph_result : State) : list Event :=
  match find is_AIMessage (rev (messages graph_result)) with
  | Some (AIMessage content) => [EvPrintStderr content]
  | _ => []
  end.

Definition stream_events (env : Env) (output_config : option OutputConfig)
  : list Event :=
  (EvLogAgentThoughts <$> thought_lists (graph_chunks env)) ++
  match graph_failure env, last_snapshot (graph_chunks env) with
  | None, Some graph_result =>
      stderr_events graph_result ++
      (if needs_structure output_config then [EvOutputter] else [])
  | _, _ => []
  end.

(** The events of a run up to the trace setup. *)
Definition prelude (boot : list Event) : list Event :=
  EvGetFirstDeviceId :: boot ++ [EvInitLlmConfig; EvGetScreenData].

(** The media helpers of the finalization in call order, and the first
    of them that raises, with its message. *)
Definition media_steps : list MediaStep :=
  [CreateGif; CreateStepsJson; RemoveImages; RemoveStepsJson].

Fixpoint first_failure (env : Env) (steps : list MediaStep)
  : option (MediaStep * string) :=
  match steps with
  | [] => None
  | step :: rest =>
      match media env step with
      | Some msg => Some (step, msg)
      | None => first_failure env rest
      end
  end.

(** ** More concrete hosts, states and environments *)

(** The bridge comes up and the screen API starts, but the health probe
    fails. *)
Definition host_unhealthy : Host :=
  {| start_device_hardware_bridge := Some bridge_up_after_two;
     start_device_screen_api := ApiProcess; health_ok := false |}.

(** The screen API comes back as a handle that is not a process. *)
Definition host_thread : Host :=
  {| start_device_hardware_bridge := Some bridge_up_after_two;
     start_device_screen_api := ApiOther; health_ok := true |}.

(** A bridge that finds its port taken at its second status read. *)
Definition bridge_port_taken : Bridge := fun n =>
  {| status := if (n <? 1)%nat then STARTING else PORT_IN_USE;
     output := Some "address already in use" |}.

Definition host_port_taken : Host :=
  {| start_device_hardware_bridge := Some bridge_port_taken;
     start_device_screen_api := ApiProcess; health_ok := true |}.

(** A bridge that never leaves STARTING. *)
Definition bridge_stuck : Bridge := fun _ =>
  {| status := STARTING; output := None |}.

Definition host_stuck : Host :=
  {| start_device_hardware_bridge := Some bridge_stuck;
     start_device_screen_api := ApiProcess; health_ok := true |}.

(** The bridge is an external service; the screen API is managed. *)
Definition external_bridge : Settings :=
  {| DEVICE_HARDWARE_BRIDGE_BASE_URL := Some "http://bridge.local:9999";
     DEVICE_SCREEN_API_BASE_URL := None |}.

(** A final state whose conversation ends with a tool message. *)
Definition conversation : State :=
  {| messages := [AIMessage "opening settings"; OtherMessage "tapped";
                  AIMessage "wifi is on"; OtherMessage "screenshot taken"];
     initial_goal := "is wifi on?";
     subgoal_plan := []; latest_ui_hierarchy := None;
     latest_screenshot_base64 := None; focused_app_info := None;
     device_date := None; structured_decisions := None;
     agents_thoughts := ["open settings"; "read the wifi toggle"];
     remaining_steps := 7;
     executor_retrigger := false; executor_failed := false;
     executor_messages := []; cortex_last_thought := None |}.

(** An environment put together from its parts; the clock, the paths and
    the recursion limit are those of [sample_env]. *)
Definition custom_env (s : Settings) (device : option string)
    (hosts : nat -> Host) (screen : string + ScreenDataResponse) (now : Z)
    (chunks : list StreamChunk) (failure : option string)
    (out : string + Payload) (helpers : MediaStep -> option string) : Env :=
  {| settings := s;
     get_first_device_id := device;
     servers := hosts;
     platform_system := "Linux";
     get_screen_data := screen;
     time_time := now;
     RECURSION_LIMIT := 400;
     convert_timestamp_to_str := fun _ => "2023-11-14T22-13-20";
     resolve := fun p => p;
     module_dir := "/app/mobile_use";
     graph_chunks := chunks;
     graph_failure := failure;
     outputter := out;
     media := helpers |}.

Definition pixel : ScreenDataResponse :=
  {| platform := "ANDROID"; width := 1080; height := 2400 |}.

(** [get_first_device_id] finds a device with an empty id. *)
Definition unnamed_device_env : Env :=
  custom_env no_urls (Some "") (fun _ => host_up) (inr pixel) 1700000000
    [] None (inr []) (fun _ => None).

(** The bridge of the first attempt never leaves STARTING. *)
Definition stuck_env : Env :=
  custom_env no_urls (Some "emulator-5554") (fun _ => host_stuck) (inr pixel)
    1700000000 [] None (inr []) (fun _ => None).

(** The services come up, but the screen data query raises. *)
Definition no_screen_data_env : Env :=
  custom_env no_urls (Some "emulator-5554") (fun _ => host_up)
    (inl "connection refused") 1700000000 [] None (inr []) (fun _ => None).

(** An external bridge; the first health probe fails, the second answers. *)
Definition flaky_health_env : Env :=
  custom_env external_bridge (Some "emulator-5554")
    (fun i => if (i <? 1)%nat then host_unhealthy else host_up) (inr pixel)
    1700000000 [Values conversation] None (inr []) (fun _ => None).

(** The stream succeeds; the third media helper of the finalization finds
    the disk full. *)
Definition disk_full_env : Env :=
  custom_env no_urls (Some "emulator-5554") (fun _ => host_up) (inr pixel)
    1700000000 [Values conversation] None (inr [])
    (fun step => if decide (step = RemoveImages) then Some "disk full" else None).

(** The clock reads zero when the run starts. *)
Definition epoch_env : Env :=
  custom_env no_urls (Some "emulator-5554") (fun _ => host_up) (inr pixel)
    0 [Values conversation] None (inr []) (fun _ => None).

(** ** Stepping through a computation *)

Lemma bind_emit {B} (e : Event) (k : unit -> M B) w :
  bind (emit e) k w = k tt (add_events [e] w).
Proof. reflexivity. Qed.

Lemma bind_ret {A B} (a : A) (k : A -> M B) w : bind (ret a) k w = k a w.
Proof. reflexivity. Qed.

Lemma bind_assoc {A B C} (m : M A) (f : A -> M B) (g : B -> M C) w :
  bind (bind m f) g w = bind m (fun x => bind (f x) g) w.
Proof. unfold bind. by destruct (m w) as [[a|e|] w1]. Qed.

Lemma bind_raise {A B} e (k : A -> M B) w : bind (raise e) k w = (Raise e, w).
Proof. reflexivity. Qed.

Lemma bind_Ok {A B} (m : M A) (k : A -> M B) w a w' :
  m w = (Ok a, w') -> bind m k w = k a w'.
Proof. unfold bind. by intros ->. Qed.

Lemma bind_Raise {A B} (m : M A) (k : A -> M B) w e w' :
  m w = (Raise e, w') -> bind m k w = (Raise e, w').
Proof. unfold bind. by intros ->. Qed.

Lemma bind_Diverge {A B} (m : M A) (k : A -> M B) w w' :
  m w = (Diverge, w') -> bind m k w = (Diverge, w').
Proof. unfold bind. by intros ->. Qed.

Lemma add_events_app evs1 evs2 w :
  add_events evs2 (add_events evs1 w) = add_events (evs1 ++ evs2) w.
Proof. unfold add_events; simpl. by rewrite app_assoc. Qed.

Lemma add_events_nil w : add_events [] w = w.
Proof. destruct w; unfold add_events; simpl. by rewrite app_nil_r. Qed.

Ltac list_norm := repeat (rewrite <- ?app_assoc; simpl).

Ltac mstep :=
  repeat first
    [ rewrite bind_emit
    | rewrite bind_ret
    | rewrite add_events_app ];
  cbn [app].

(** ** Worlds related by a run *)

Lemma events_since_add evs w : events_since w (add_events evs w) = evs.
Proof. unfold events_since, add_events; simpl. by rewrite drop_app_length. Qed.

Lemma events_since_trace w w' evs :
  trace w' = trace w ++ evs -> events_since w w' = evs.
Proof. unfold events_since. intros ->. by rewrite drop_app_length. Qed.

Lemma count_ev_app P l1 l2 : count_ev P (l1 ++ l2) = count_ev P l1 + count_ev P l2.
Proof. induction l1 as [|e l1 IH]; simpl; [done|]. rewrite IH. lia. Qed.

Lemma count_ev_none P l :
  Forall (fun e => P e = false) l -> count_ev P l = 0.
Proof. induction 1 as [|e l He _ IH]; simpl; [done|]. by rewrite He, IH. Qed.

Lemma Forall_bool_impl (P Q : Event -> bool) l :
  (forall e, P e = true -> Q e = true) ->
  Forall (fun e => P e = true) l -> Forall (fun e => Q e = true) l.
Proof. intros HPQ H. eapply Forall_impl; [exact H|exact HPQ]. Qed.

Lemma Forall_bool_excl (P Q : Event -> bool) l :
  (forall e, P e = true -> Q e = false) ->
  Forall (fun e => P e = true) l -> Forall (fun e => Q e = false) l.
Proof. intros HPQ H. eapply Forall_impl; [exact H|exact HPQ]. Qed.

(** No event of a list is of kind [Q], from a hypothesis that all of them
    are of a kind that excludes [Q]. *)
Ltac count_none :=
  try apply count_ev_none;
  match goal with
  | H : Forall _ ?l |- Forall _ ?l =>
      revert H; apply Forall_bool_excl; by intros []
  end.

Section Steps.
Context (R : relation World) `{!PreOrder R}.

Lemma steps_ret {A} (a : A) : steps R (ret a).
Proof. intros w. simpl. reflexivity. Qed.

Lemma steps_raise {A} e : steps R (@raise A e).
Proof. intros w. simpl. reflexivity. Qed.

Lemma steps_diverge {A} : steps R (@diverge A).
Proof. intros w. simpl. reflexivity. Qed.

Lemma steps_bind {A B} (m : M A) (k : A -> M B) :
  steps R m -> (forall a, steps R (k a)) -> steps R (bind m k).
Proof.
  intros Hm Hk w. unfold bind. specialize (Hm w).
  destruct (m w) as [[a|e|] w1]; simpl in *; [|done..].
  etrans; [exact Hm|apply Hk].
Qed.

Lemma steps_try_except {A} (m : M A) (h : Exception -> M A) :
  steps R m -> (forall e, steps R (h e)) -> steps R (try_except m h).
Proof.
  intros Hm Hh w. unfold try_except. specialize (Hm w).
  destruct (m w) as [[a|e|] w1]; simpl in *; [done| |done].
  etrans; [exact Hm|apply Hh].
Qed.

Lemma steps_try_finally {A} (m : M A) (fin : Outcome A -> M unit) :
  steps R m -> (forall o, steps R (fin o)) -> steps R (try_finally m fin).
Proof.
  intros Hm Hf w. unfold try_finally. specialize (Hm w).
  destruct (m w) as [[a|e|] w1]; simpl in *; [| |done].
  - specialize (Hf (Ok a) w1).
    destruct (fin (Ok a) w1) as [[[]|e'|] w2]; simpl in *; by etrans.
  - specialize (Hf (Raise e) w1).
    destruct (fin (Raise e) w1) as [[[]|e'|] w2]; simpl in *; by etrans.
Qed.
End Steps.

#[export] Instance appended_preorder P : PreOrder (appended P).
Proof.
  split.
  - intros w. exists []. by rewrite add_events_nil.
  - intros w1 w2 w3 (e1 & -> & H1) (e2 & -> & H2).
    exists (e1 ++ e2). rewrite add_events_app. split; [done|].
    by apply Forall_app.
Qed.

#[export] Instance trace_grown_preorder P : PreOrder (trace_grown P).
Proof.
  split.
  - intros w. exists []. by rewrite app_nil_r.
  - intros w1 w2 w3 (e1 & E1 & H1) (e2 & E2 & H2).
    exists (e1 ++ e2). rewrite E2, E1, app_assoc. split; [done|].
    by apply Forall_app.
Qed.

Lemma appended_trace_grown P w w' : appended P w w' -> trace_grown P w w'.
Proof. intros (evs & -> & H). by exists evs. Qed.

Lemma appended_emit P e : P e = true -> steps (appended P) (emit e).
Proof. intros He w. exists [e]. split; [done|]. by constructor. Qed.

Lemma trace_grown_emit P e : P e = true -> steps (trace_grown P) (emit e).
Proof. intros He w. apply appended_trace_grown. by apply appended_emit. Qed.

#[export] Instance same_dirs_preorder : PreOrder same_dirs.
Proof. split; unfold same_dirs; [done|]. intros w1 w2 w3 H1 H2. congruence. Qed.

#[export] Instance same_results_preorder : PreOrder same_results.
Proof. split; unfold same_results; [done|]. intros w1 w2 w3 H1 H2. congruence. Qed.

Lemma same_dirs_emit e : steps same_dirs (emit e).
Proof. done. Qed.

Lemma same_results_emit e : steps same_results (emit e).
Proof. done. Qed.

Lemma same_dirs_log l : steps same_dirs (log_agent_thoughts l).
Proof. done. Qed.

Lemma same_results_log l : steps same_results (log_agent_thoughts l).
Proof. done. Qed.

Lemma same_dirs_record r : steps same_dirs (record_result r).
Proof. done. Qed.

Lemma same_results_mkdir p : steps same_results (mkdir p).
Proof. done. Qed.

Lemma same_results_rename src dst : steps same_results (rename src dst).
Proof. intros w. unfold rename. by repeat case_decide. Qed.

Lemma trace_grown_log P l :
  P (EvLogAgentThoughts l) = true -> steps (trace_grown P) (log_agent_thoughts l).
Proof. intros HP w. exists [EvLogAgentThoughts l]. split; [done|]. by constructor. Qed.

Lemma trace_grown_mkdir P p :
  P (EvMkdir p) = true -> steps (trace_grown P) (mkdir p).
Proof. intros HP w. exists [EvMkdir p]. split; [done|]. by constructor. Qed.

Lemma trace_grown_rename P src dst :
  P (EvRename src dst) = true -> steps (trace_grown P) (rename src dst).
Proof.
  intros HP w. exists [EvRename src dst]. split; [|by constructor].
  unfold rename. by repeat case_decide.
Qed.

Lemma trace_grown_record P r :
  P (EvRecordResult r) = true -> steps (trace_grown P) (record_result r).
Proof. intros HP w. exists [EvRecordResult r]. split; [done|]. by constructor. Qed.

Ltac steps_go :=
  repeat match goal with
  | |- PreOrder _ => apply _
  | |- steps _ (ret _) => apply steps_ret
  | |- steps _ (raise _) => apply steps_raise
  | |- steps _ diverge => apply steps_diverge
  | |- steps _ (bind _ _) => apply steps_bind
  | |- steps _ (try_except _ _) => apply steps_try_except
  | |- steps _ (try_finally _ _) => apply steps_try_finally
  | |- steps (appended _) (emit _) => apply appended_emit; reflexivity
  | |- steps (trace_grown _) (emit _) => apply trace_grown_emit; reflexivity
  | |- steps (trace_grown _) (log_agent_thoughts _) => apply trace_grown_log; reflexivity
  | |- steps (trace_grown _) (mkdir _) => apply trace_grown_mkdir; reflexivity
  | |- steps (trace_grown _) (rename _ _) => apply trace_grown_rename; reflexivity
  | |- steps (trace_grown _) (record_result _) => apply trace_grown_record; reflexivity
  | |- steps same_dirs (emit _) => apply same_dirs_emit
  | |- steps same_dirs (log_agent_thoughts _) => apply same_dirs_log
  | |- steps same_dirs (record_result _) => apply same_dirs_record
  | |- steps same_results (emit _) => apply same_results_emit
  | |- steps same_results (log_agent_thoughts _) => apply same_results_log
  | |- steps same_results (mkdir _) => apply same_results_mkdir
  | |- steps same_results (rename _ _) => apply same_results_rename
  | |- forall _, _ => intro
  | |- steps _ (if ?b then _ else _) => destruct b
  | |- steps _ (match ?x with _ => _ end) => destruct x
  end.

(** ** The bridge status poll *)

Lemma status_cases (st : BridgeStatus) :
  st = STARTING \/ st = RUNNING \/ st ∈ failed_statuses.
Proof. destruct st; [by left|by right; left|right; right; compute_done..]. Qed.

Lemma failed_not_running (st : BridgeStatus) :
  st ∈ failed_statuses -> st <> RUNNING.
Proof. intros HF ->. revert HF. compute_done. Qed.

Lemma starting_not_failed : STARTING ∉ failed_statuses.
Proof. compute_done. Qed.

Lemma poll_from_terminal fuel bridge n k w :
  (forall i, i < k -> status (bridge (n + i)) = STARTING) ->
  status (bridge (n + k)) <> STARTING ->
  k < fuel ->
  bridge_status_poll fuel bridge n w =
    (Ok (bool_decide (status (bridge (n + k)) = RUNNING)),
     add_events
       (poll_rounds k ++ EvGetStatus ::
          (if bool_decide (status (bridge (n + k)) = RUNNING) then []
           else [EvBridgeFailed (status (bridge (n + k))) (output (bridge (n + k)))]))
       w).
Proof.
  revert n k w. induction fuel as [|fuel IH]; intros n k w Hs Ht Hk; [lia|].
  destruct k as [|k].
  - rewrite Nat.add_0_r in *. cbn [bridge_status_poll poll_rounds app].
    destruct (status_cases (status (bridge n))) as [?|[HR|HF]]; [done| |].
    + rewrite !bool_decide_eq_true_2 by done. by mstep.
    + rewrite (bool_decide_eq_false_2 _ (failed_not_running _ HF)),
        (bool_decide_eq_true_2 _ HF).
      by mstep.
  - cbn [bridge_status_poll poll_rounds].
    pose proof (Hs 0 ltac:(lia)) as H0. rewrite Nat.add_0_r in H0.
    rewrite H0, bool_decide_eq_false_2 by done.
    rewrite (bool_decide_eq_false_2 _ starting_not_failed).
    mstep.
    assert (Hshift : forall i, S n + i = n + S i) by (intros; lia).
    rewrite (IH (S n) k); [| |by rewrite Hshift|lia].
    + rewrite Hshift. by mstep.
    + intros i Hi. rewrite Hshift. apply Hs. lia.
Qed.

Lemma poll_starting_forever fuel bridge n w :
  (forall i, status (bridge i) = STARTING) ->
  bridge_status_poll fuel bridge n w = (Diverge, add_events (poll_rounds fuel) w).
Proof.
  intros Hs. revert n w. induction fuel as [|fuel IH]; intros n w.
  - cbn. by rewrite add_events_nil.
  - cbn [bridge_status_poll poll_rounds].
    rewrite Hs, bool_decide_eq_false_2 by done.
    rewrite (bool_decide_eq_false_2 _ starting_not_failed).
    mstep. rewrite IH. by mstep.
Qed.

Lemma bridge_status_poll_appended fuel bridge n :
  steps (appended service_event) (bridge_status_poll fuel bridge n).
Proof.
  revert n. induction fuel as [|fuel IH]; intros n; simpl; [steps_go|].
  repeat case_bool_decide; steps_go. apply IH.
Qed.

(** C8.  The bridge status poll reads the status, sleeps one second after
    every non-terminal answer, and stops at the first terminal one: with
    [k] answers STARTING before it, it makes exactly [k + 1] reads and [k]
    sleeps, succeeds on RUNNING and fails, reporting the diagnostic output,
    on NO_DEVICE, FAILED, PORT_IN_USE or STOPPED.  A bridge that answers
    STARTING forever is polled forever: whatever the fuel, the poll uses it
    all up, one read and one sleep per unit, and never returns. *)
Theorem bridge_status_poll_contract (bridge : Bridge) (w : World) :
  (forall k fuel,
     (forall i, i < k -> status (bridge i) = STARTING) ->
     status (bridge k) <> STARTING ->
     k < fuel ->
     (status (bridge k) = RUNNING \/ status (bridge k) ∈ failed_statuses) /\
     bridge_status_poll fuel bridge 0 w =
       (Ok (bool_decide (status (bridge k) = RUNNING)),
        add_events
          (poll_rounds k ++ EvGetStatus ::
             (if bool_decide (status (bridge k) = RUNNING) then []
              else [EvBridgeFailed (status (bridge k)) (output (bridge k))]))
          w)) /\
  ((forall i, status (bridge i) = STARTING) ->
   forall fuel,
     bridge_status_poll fuel bridge 0 w = (Diverge, add_events (poll_rounds fuel) w) /\
     count_ev is_get_status (poll_rounds fuel) = fuel).
Proof.
  split.
  - intros k fuel Hs Ht Hk. split.
    + destruct (status_cases (status (bridge k))) as [?|[?|?]]; [done|by left|by right].
    + by apply (poll_from_terminal fuel bridge 0 k w).
  - intros Hs fuel. split; [by apply poll_starting_forever|].
    induction fuel as [|fuel IH]; simpl; [done|]. by rewrite IH.
Qed.

Lemma bridge_status_poll_contract_witness :
  bridge_status_poll 5 bridge_up_after_two 0 empty_world =
    (Ok true,
     add_events [EvGetStatus; EvSleep 1; EvGetStatus; EvSleep 1; EvGetStatus]
       empty_world).
Proof.
  destruct (bridge_status_poll_contract bridge_up_after_two empty_world) as [H _].
  destruct (H 2 5) as [_ E].
  - intros [|[|i]] Hi; [reflexivity|reflexivity|lia].
  - discriminate.
  - lia.
  - exact E.
Defined.

(** ** Device-context construction *)

(** C9.  [get_mobile_use_context] queries the screen data exactly once,
    whether the query answers or raises; the mobile platform is ANDROID
    exactly when the reported platform is the string "ANDROID" and IOS for
    any other value, and the host platform is "WINDOWS" exactly when
    [platform.system()] is the string "Windows" and "LINUX" otherwise. *)
Theorem device_context_construction (env : Env) (device_id : string) (w : World) :
  count_ev is_screen_query
    (events_since w (snd (get_mobile_use_context env device_id w))) = 1 /\
  forall screen_data, get_screen_data env = inr screen_data ->
    exists context,
      fst (get_mobile_use_context env device_id w) = Ok context /\
      (mobile_platform (device context) = ANDROID <-> platform screen_data = "ANDROID") /\
      (mobile_platform (device context) = IOS <-> platform screen_data <> "ANDROID") /\
      (host_platform (device context) = "WINDOWS" <-> platform_system env = "Windows") /\
      (host_platform (device context) = "LINUX" <-> platform_system env <> "Windows").
Proof.
  unfold get_mobile_use_context. rewrite bind_emit. split.
  - destruct (get_screen_data env); simpl; by rewrite events_since_add.
  - intros sd ->. eexists. split; [reflexivity|]. simpl.
    destruct (String.eqb_spec (platform sd) "ANDROID") as [->|Hp];
      destruct (String.eqb_spec (platform_system env) "Windows") as [->|Hh];
      repeat split; intros; try done.
Qed.

Lemma device_context_construction_witness :
  exists context,
    fst (get_mobile_use_context lower_case_platform "emulator-5554" empty_world)
      = Ok context /\
    mobile_platform (device context) = IOS /\
    host_platform (device context) = "LINUX".
Proof.
  destruct (proj2 (device_context_construction lower_case_platform
                     "emulator-5554" empty_world)
              {| platform := "android"; width := 1080; height := 2400 |} eq_refl)
    as (context & Hctx & _ & Hios & _ & Hlinux).
  exists context. split; [exact Hctx|]. split.
  - apply Hios. discriminate.
  - apply Hlinux. discriminate.
Defined.

(** ** Bootstrap *)

Lemma service_event_setup e : service_event e = true -> setup_event e = true.
Proof. by destruct e. Qed.

Lemma service_event_not_run_servers e :
  service_event e = true -> is_run_servers e = false.
Proof. by destruct e. Qed.

Lemma service_event_not_backoff e :
  service_event e = true -> is_backoff e = false.
Proof. destruct e as [| | | | |[|[|[|[|n]]]]| | | | | | | | | | | | | | |]; done. Qed.

Lemma setup_event_not_engine e : setup_event e = true -> is_engine e = false.
Proof. by destruct e. Qed.

Lemma traced_event_not_run_servers e :
  traced_event e = true -> is_run_servers e = false.
Proof. by destruct e. Qed.

Lemma traced_event_not_backoff e : traced_event e = true -> is_backoff e = false.
Proof. by destruct e. Qed.

Lemma health_check_appended settings host :
  steps (appended service_event)
    (check_device_screen_api_health_with_retry_logic settings host).
Proof. unfold check_device_screen_api_health_with_retry_logic. steps_go. Qed.

Lemma run_servers_screen_api_appended settings host :
  steps (appended service_event) (run_servers_screen_api settings host).
Proof.
  unfold run_servers_screen_api. steps_go;
    try apply health_check_appended; steps_go.
Qed.

(** One call of [run_servers] adds its call event and then service events
    only; nothing else in the world changes. *)
Lemma run_servers_appended fuel settings device host w :
  exists evs,
    snd (run_servers fuel settings device host w) =
      add_events (EvRunServers device :: evs) w /\
    Forall (fun e => service_event e = true) evs.
Proof.
  unfold run_servers. rewrite bind_emit.
  match goal with
  | |- context [snd (?m (add_events _ w))] =>
      assert (steps (appended service_event) m) as Hm
  end.
  { steps_go; first [apply run_servers_screen_api_appended
                     |apply bridge_status_poll_appended]. }
  destruct (Hm (add_events [EvRunServers device] w)) as (evs & E & HF).
  exists evs. by rewrite E, add_events_app.
Qed.

Lemma run_servers_result fuel settings device host w b :
  fst (run_servers fuel settings device host w) = Ok b ->
  exists evs,
    run_servers fuel settings device host w =
      (Ok b, add_events (EvRunServers device :: evs) w) /\
    Forall (fun e => service_event e = true) evs.
Proof.
  intros Hb. destruct (run_servers_appended fuel settings device host w)
    as (evs & E & HF).
  exists evs. split; [|done].
  rewrite (surjective_pairing (run_servers _ _ _ _ _)). by rewrite Hb, E.
Qed.

Lemma count_service_events evs :
  Forall (fun e => service_event e = true) evs ->
  count_ev is_run_servers evs = 0 /\ count_ev is_backoff evs = 0 /\
  Forall (fun e => setup_event e = true) evs.
Proof.
  intros H. repeat split.
  - apply count_ev_none. revert H. apply Forall_bool_excl, service_event_not_run_servers.
  - apply count_ev_none. revert H. apply Forall_bool_excl, service_event_not_backoff.
  - revert H. apply Forall_bool_impl, service_event_setup.
Qed.

(** Any run of the loop makes at most [remaining] calls of [run_servers]. *)
Lemma restart_loop_bounded fuel env device remaining w :
  exists evs,
    snd (restart_loop fuel env device remaining w) = add_events evs w /\
    Forall (fun e => setup_event e = true) evs /\
    count_ev is_run_servers evs <= remaining.
Proof.
  revert w. induction remaining as [|r IH]; intros w.
  - exists []. simpl. rewrite add_events_nil. repeat split; [constructor|lia].
  - cbn [restart_loop].
    destruct (run_servers_appended fuel (settings env) device
                (servers env (max_restart_attempts - S r)) w) as (evs & E & HF).
    destruct (count_service_events _ HF) as (Hrs & _ & Hsetup).
    unfold bind at 1.
    destruct (run_servers _ _ _ _ w) as [[[|]|e|] w1]; simpl in E; subst w1;
      try (exists (EvRunServers device :: evs); simpl; rewrite Hrs;
           repeat split; [by constructor|lia]).
    destruct (_ <? _)%nat.
    + rewrite bind_emit, add_events_app.
      destruct (IH (add_events ((EvRunServers device :: evs) ++ [EvSleep 3]) w))
        as (evs' & E' & HF' & Hc').
      exists (((EvRunServers device :: evs) ++ [EvSleep 3]) ++ evs').
      rewrite E', add_events_app. repeat split.
      * apply Forall_app. split; [|done]. apply Forall_app. split; by repeat constructor.
      * rewrite !count_ev_app. simpl. rewrite Hrs. lia.
    + exists (EvRunServers device :: evs); simpl; rewrite Hrs.
      repeat split; [by constructor|lia].
Qed.

(** [N] failed attempts and then a success, inside the loop. *)
Lemma restart_loop_retry fuel env device N :
  forall remaining w,
    N < remaining -> remaining <= max_restart_attempts ->
    (forall i, i < N ->
       attempt_is false fuel env device (max_restart_attempts - remaining + i)) ->
    attempt_is true fuel env device (max_restart_attempts - remaining + N) ->
    exists evs,
      restart_loop fuel env device remaining w = (Ok true, add_events evs w) /\
      Forall (fun e => setup_event e = true) evs /\
      count_ev is_run_servers evs = N + 1 /\
      count_ev is_backoff evs = N.
Proof.
  induction N as [|N IH]; intros [|r] w Hlt Hle Hfail Hok; try lia.
  - cbn [restart_loop].
    specialize (Hok w). rewrite Nat.add_0_r in Hok.
    apply run_servers_result in Hok as (evs & E & HF).
    destruct (count_service_events _ HF) as (Hrs & Hbo & Hsetup).
    rewrite (bind_Ok _ _ _ _ _ E).
    exists (EvRunServers device :: evs). simpl. rewrite Hrs, Hbo.
    repeat split. by constructor.
  - cbn [restart_loop].
    pose proof (Hfail 0 ltac:(lia) w) as H0. rewrite Nat.add_0_r in H0.
    apply run_servers_result in H0 as (evs & E & HF).
    destruct (count_service_events _ HF) as (Hrs & Hbo & Hsetup).
    rewrite (bind_Ok _ _ _ _ _ E).
    assert ((max_restart_attempts - S r + 1 <? max_restart_attempts)%nat = true)
      as -> by (apply Nat.ltb_lt; unfold max_restart_attempts in *; lia).
    rewrite bind_emit, add_events_app.
    destruct (IH r (add_events ((EvRunServers device :: evs) ++ [EvSleep 3]) w))
      as (evs' & E' & HF' & Hrs' & Hbo'); [lia|lia| | |].
    + intros i Hi.
      replace (max_restart_attempts - r + i)
        with (max_restart_attempts - S r + S i)
        by (unfold max_restart_attempts in *; lia).
      apply Hfail. lia.
    + replace (max_restart_attempts - r + N)
        with (max_restart_attempts - S r + S N)
        by (unfold max_restart_attempts in *; lia).
      done.
    + exists (((EvRunServers device :: evs) ++ [EvSleep 3]) ++ evs').
      rewrite E', add_events_app. repeat split.
      * apply Forall_app. split; [|done].
        apply Forall_app. split; by repeat constructor.
      * rewrite !count_ev_app. simpl. rewrite Hrs, Hrs'. lia.
      * rewrite !count_ev_app. simpl. rewrite Hbo, Hbo'. lia.
Qed.

(** Every remaining attempt fails: the loop ends in the [return]. *)
Lemma restart_loop_exhausted fuel env device :
  forall remaining w,
    0 < remaining -> remaining <= max_restart_attempts ->
    (forall i, i < remaining ->
       attempt_is false fuel env device (max_restart_attempts - remaining + i)) ->
    exists evs,
      restart_loop fuel env device remaining w = (Ok false, add_events evs w) /\
      Forall (fun e => setup_event e = true) evs /\
      count_ev is_run_servers evs = remaining /\
      count_ev is_backoff evs = remaining - 1.
Proof.
  induction remaining as [|r IH]; intros w Hpos Hle Hfail; [lia|].
  cbn [restart_loop].
  pose proof (Hfail 0 ltac:(lia) w) as H0. rewrite Nat.add_0_r in H0.
  apply run_servers_result in H0 as (evs & E & HF).
  destruct (count_service_events _ HF) as (Hrs & Hbo & Hsetup).
  rewrite (bind_Ok _ _ _ _ _ E).
  destruct (decide (r = 0)) as [->|Hr].
  - simpl. exists (EvRunServers device :: evs). simpl. rewrite Hrs, Hbo.
    repeat split. by constructor.
  - assert ((max_restart_attempts - S r + 1 <? max_restart_attempts)%nat = true)
      as -> by (apply Nat.ltb_lt; unfold max_restart_attempts in *; lia).
    rewrite bind_emit, add_events_app.
    destruct (IH (add_events ((EvRunServers device :: evs) ++ [EvSleep 3]) w))
      as (evs' & E' & HF' & Hrs' & Hbo'); [lia|lia| |].
    + intros i Hi.
      replace (max_restart_attempts - r + i)
        with (max_restart_attempts - S r + S i)
        by (unfold max_restart_attempts in *; lia).
      apply Hfail. lia.
    + exists (((EvRunServers device :: evs) ++ [EvSleep 3]) ++ evs').
      rewrite E', add_events_app. repeat split.
      * apply Forall_app. split; [|done].
        apply Forall_app. split; by repeat constructor.
      * rewrite !count_ev_app. simpl. rewrite Hrs, Hrs'. lia.
      * rewrite !count_ev_app. simpl. rewrite Hbo, Hbo'. lia.
Qed.

(** ** The traced part of the run *)

Section TracedPhase.
Context (P : relation World) `{!PreOrder P}.

Lemma consume_stream_steps chunks last_state :
  (forall l, steps P (log_agent_thoughts l)) ->
  steps P (consume_stream chunks last_state).
Proof.
  intros Hlog. revert last_state. induction chunks as [|[]]; intros ls; simpl;
    [apply steps_ret; apply _|done|done|].
  apply steps_bind; [apply _|apply Hlog|intros _; done].
Qed.

Lemma graph_body_steps env output_config :
  (forall e, stream_event e = true -> steps P (emit e)) ->
  (forall l, steps P (log_agent_thoughts l)) ->
  steps P (graph_body env output_config).
Proof.
  intros Hemit Hlog.
  unfold graph_body, print_ai_response_to_stderr, call_outputter.
  apply steps_bind; [apply _|by apply consume_stream_steps|intros ls].
  repeat match goal with
  | |- steps _ (emit _) => apply Hemit; reflexivity
  | _ => progress steps_go
  end.
Qed.

Lemma finalize_trace_steps env test_name temp out start_time success :
  (forall e, final_event e = true -> steps P (emit e)) ->
  (forall src dst, steps P (rename src dst)) ->
  steps P (finalize_trace env test_name temp out start_time success).
Proof.
  intros Hemit Hrename. unfold finalize_trace, media_step.
  repeat match goal with
  | |- steps _ (emit _) => apply Hemit; reflexivity
  | |- steps _ (rename _ _) => apply Hrename
  | _ => progress steps_go
  end.
Qed.

Lemma resolve_output_steps l :
  (forall r, steps P (record_result r)) -> steps P (resolve_output l).
Proof.
  intros Hrecord. unfold resolve_output, thought_result.
  repeat match goal with
  | |- steps _ (record_result _) => apply Hrecord
  | _ => progress steps_go
  end.
Qed.
End TracedPhase.

Lemma last_snapshot_cons c chunks :
  last_snapshot (c :: chunks) =
    match last_snapshot chunks with
    | Some s => Some s
    | None => snapshot_of c
    end.
Proof.
  unfold last_snapshot. simpl. destruct (snapshot_of c) as [s|]; simpl.
  - rewrite last_cons. by destruct (last _).
  - by destruct (last _).
Qed.

Lemma consume_stream_fst chunks ls w :
  fst (consume_stream chunks ls w) =
    Ok (match last_snapshot chunks with Some s => Some s | None => ls end).
Proof.
  revert ls w. induction chunks as [|c chunks IH]; intros ls w; [done|].
  rewrite last_snapshot_cons. destruct c as [t|ev|s]; simpl.
  - rewrite IH. by destruct (last_snapshot chunks).
  - rewrite IH. by destruct (last_snapshot chunks).
  - unfold bind, log_agent_thoughts. rewrite IH. by destruct (last_snapshot chunks).
Qed.

Lemma print_ai_response_fst s w : fst (print_ai_response_to_stderr s w) = Ok tt.
Proof.
  unfold print_ai_response_to_stderr. by destruct (find _ _) as [[]|].
Qed.

Lemma call_outputter_fst env w :
  fst (call_outputter env w) =
    Ok (match outputter env with inr payload => Some payload | inl _ => None end).
Proof.
  unfold call_outputter, try_except. rewrite bind_emit. by destruct (outputter env).
Qed.

Lemma fst_bind_Ok {A B} (m : M A) (k : A -> M B) w a :
  fst (m w) = Ok a -> bind m k w = k a (snd (m w)).
Proof. unfold bind. destruct (m w) as [o w1]. simpl. by intros ->. Qed.

Lemma graph_body_fst env output_config w :
  fst (graph_body env output_config w) = graph_outcome env output_config.
Proof.
  unfold graph_body, graph_outcome, produced_output.
  rewrite (fst_bind_Ok _ _ _ _ (consume_stream_fst _ _ _)).
  destruct (graph_failure env) as [msg|]; [done|]. rewrite bind_ret.
  destruct (last_snapshot (graph_chunks env)) as [s|]; [|done].
  rewrite (fst_bind_Ok _ _ _ _ (print_ai_response_fst _ _)).
  destruct (needs_structure output_config).
  - rewrite (fst_bind_Ok _ _ _ _ (call_outputter_fst _ _)). done.
  - by rewrite bind_ret.
Qed.

Lemma try_except_reraise {A} (m : M A) w :
  try_except m (fun e => raise e) w = m w.
Proof. unfold try_except. by destruct (m w) as [[| |] ?]. Qed.

(** ** Finalization *)

(** The finalization either runs to completion, and then every media step
    succeeded and the rename consumed the temp directory, or raises one of
    its own exceptions and leaves the directories as they were. *)
Lemma finalize_trace_cases env test_name temp out success w :
  truthy_num (time_time env) = true ->
  let final := final_dir env test_name out success in
  let r := finalize_trace env test_name (Some temp) (Some out) (time_time env)
             success w in
  (fst r = Ok tt /\ (forall step, media env step = None) /\
   temp ∈ dirs w /\ (final ∉ dirs w) /\
   trace (snd r) = trace w ++ finalization_events temp final /\
   dirs (snd r) = {[final]} ∪ (dirs w ∖ {[temp]}) /\
   results_sink (snd r) = results_sink w) \/
  (exists e, fst r = Raise e /\ finalization_failure e /\
     ((exists step, media env step <> None) \/ temp ∉ dirs w \/ final ∈ dirs w) /\
     dirs (snd r) = dirs w /\ results_sink (snd r) = results_sink w /\
     trace_grown final_event w (snd r)).
Proof.
  intros Hst final r. subst r. unfold finalize_trace. rewrite Hst.
  fold (final_dir env test_name out success). fold final.
  unfold media_step, rename, bind, emit, raise, ret.
  assert (forall evs, Forall (fun e => final_event e = true) evs ->
            trace_grown final_event w (add_events evs w)) as Hgrown
    by (intros evs HF; by exists evs).
  destruct (media env CreateGif) eqn:E1; simpl;
    [|destruct (media env CreateStepsJson) eqn:E2; simpl;
      [|destruct (media env RemoveImages) eqn:E3; simpl;
        [|destruct (media env RemoveStepsJson) eqn:E4; simpl;
          [|repeat case_decide; simpl]]]];
    rewrite ?add_events_app; simpl.
  - right. eexists. repeat split; try done; [|by apply Hgrown; repeat constructor].
    left. exists CreateGif. by rewrite E1.
  - right. eexists. repeat split; try done; [|by apply Hgrown; repeat constructor].
    left. exists CreateStepsJson. by rewrite E2.
  - right. eexists. repeat split; try done; [|by apply Hgrown; repeat constructor].
    left. exists RemoveImages. by rewrite E3.
  - right. eexists. repeat split; try done; [|by apply Hgrown; repeat constructor].
    left. exists RemoveStepsJson. by rewrite E4.
  - right. eexists. repeat split; try done; [|by apply Hgrown; repeat constructor].
    by right; right.
  - left. repeat split; try done; [by intros []|].
    by rewrite <- !app_assoc.
  - right. eexists. repeat split; try done; [|by apply Hgrown; repeat constructor].
    by right; left.
Qed.

(** ** The traced part, phase by phase *)


Lemma graph_outcome_converges env output_config :
  graph_outcome env output_config <> Diverge.
Proof.
  unfold graph_outcome.
  by destruct (graph_failure env), (last_snapshot (graph_chunks env)).
Qed.

Lemma run_traced_eq env context goal test_name traces_output_path_str
    output_config w :
  let w1 := add_events [EvGetGraph (engine_call env context goal test_name)]
              (setup_world env test_name traces_output_path_str w) in
  let o := graph_outcome env output_config in
  run_traced env context goal test_name traces_output_path_str output_config w =
    conclude o
      (finalize_trace env test_name (temp_path env test_name)
         (output_path env test_name traces_output_path_str) (time_time env)
         (success_of o) (snd (graph_body env output_config w1))).
Proof.
  intros w1 o. unfold run_traced.
  assert (forall temp out ctx w0,
    bind (try_finally (run_graph env ctx (initial_state env goal) output_config)
            (fun o => finalize_trace env test_name temp out
                        (time_time env) (success_of o)))
         (fun flow => match flow with
                      | Returned => ret NoResult
                      | FellThrough l => resolve_output l
                      end) w0 =
    conclude o
      (finalize_trace env test_name temp out (time_time env)
         (success_of o)
         (snd (graph_body env output_config
                 (add_events
                    [EvGetGraph {| call_context := ctx;
                                   call_input := initial_state env goal;
                                   call_recursion_limit := RECURSION_LIMIT env |}]
                    w0)))))
    as Hmain.
  { intros temp out ctx w0. unfold bind at 1, try_finally, run_graph.
    rewrite try_except_reraise, bind_emit.
    pose proof (graph_body_fst env output_config
                  (add_events
                     [EvGetGraph {| call_context := ctx;
                                    call_input := initial_state env goal;
                                    call_recursion_limit := RECURSION_LIMIT env |}]
                     w0)) as Hfst.
    pose proof (graph_outcome_converges env output_config) as Hconv.
    fold o in Hfst, Hconv.
    destruct (graph_body env output_config (add_events [EvGetGraph _] w0))
      as [o' w2]. simpl in Hfst. subst o'. simpl.
    unfold conclude.
    destruct o as [[|l]|e|]; [| | |done];
      by destruct (finalize_trace _ _ _ _ _ _ w2) as [[[]|e'|] w3]. }
  subst w1. unfold setup_world, temp_path, output_path, engine_call.
  destruct (truthy_opt_str test_name).
  - unfold bind at 1. simpl. apply Hmain.
  - rewrite bind_ret. apply Hmain.
Qed.

Lemma setup_world_trace env test_name traces_output_path_str w :
  trace (setup_world env test_name traces_output_path_str w) =
    trace w ++ setup_events env test_name traces_output_path_str.
Proof.
  unfold setup_world, setup_events. destruct (truthy_opt_str test_name); simpl.
  - by rewrite <- app_assoc.
  - by rewrite app_nil_r.
Qed.

Lemma conclude_steps (P : relation World) `{!PreOrder P} o f :
  (forall r, steps P (record_result r)) -> P (snd f) (snd (conclude o f)).
Proof.
  intros Hrecord. unfold conclude.
  destruct (fst f) as [[]|e|]; [|done..].
  destruct o as [[|l]|e|]; [done| |done..].
  by apply resolve_output_steps.
Qed.

(** The traced part sets up the directories, invokes the engine, and from
    then on only streams, finalizes and records. *)
Lemma run_traced_trace env context goal test_name traces_output_path_str
    output_config w :
  exists post,
    trace (snd (run_traced env context goal test_name traces_output_path_str
                  output_config w)) =
      trace w ++ setup_events env test_name traces_output_path_str ++
      EvGetGraph (engine_call env context goal test_name) :: post /\
    Forall (fun e => after_engine_event e = true) post.
Proof.
  rewrite run_traced_eq.
  set (w1 := add_events [EvGetGraph _] (setup_world _ _ _ w)).
  set (o := graph_outcome env output_config).
  set (w2 := snd (graph_body env output_config w1)).
  set (f := finalize_trace _ _ _ _ _ _ w2).
  assert (trace_grown after_engine_event w1 w2) as H1.
  { apply (graph_body_steps (trace_grown after_engine_event)).
    - intros e He. apply trace_grown_emit. by destruct e.
    - intros l. by apply trace_grown_log. }
  assert (trace_grown after_engine_event w2 (snd f)) as H2.
  { apply (finalize_trace_steps (trace_grown after_engine_event)).
    - intros e He. apply trace_grown_emit. by destruct e.
    - intros src dst. by apply trace_grown_rename. }
  assert (trace_grown after_engine_event (snd f) (snd (conclude o f))) as H3.
  { apply conclude_steps; [apply _|]. intros r. by apply trace_grown_record. }
  destruct (transitivity H1 (transitivity H2 H3)) as (post & E & HF).
  exists post. split; [|done].
  rewrite E. subst w1. simpl. rewrite setup_world_trace.
  by rewrite <- !app_assoc.
Qed.

Lemma after_engine_event_traced e :
  after_engine_event e = true -> traced_event e = true.
Proof. by destruct e. Qed.

Lemma setup_events_mkdir env test_name out :
  Forall (fun e => is_mkdir e = true) (setup_events env test_name out).
Proof. unfold setup_events. destruct (truthy_opt_str _); by repeat constructor. Qed.

Lemma setup_events_traced env test_name out :
  Forall (fun e => traced_event e = true) (setup_events env test_name out).
Proof. unfold setup_events. destruct (truthy_opt_str _); by repeat constructor. Qed.

(** ** The run as a whole *)

(** A run either stops during setup, having done only setup events, or goes
    through setup and continues with the traced part. *)
Lemma run_automation_cases fuel env goal test_name out output_config w :
  let r := run_automation fuel env goal test_name out output_config w in
  (exists evs,
     snd r = add_events evs w /\
     Forall (fun e => setup_event e = true) evs /\
     count_ev is_run_servers evs <= max_restart_attempts) \/
  (exists evs context,
     r = run_traced env context goal test_name out output_config
           (add_events evs w) /\
     Forall (fun e => setup_event e = true) evs /\
     count_ev is_run_servers evs <= max_restart_attempts).
Proof.
  intros r. subst r. unfold run_automation. rewrite bind_emit.
  destruct (get_first_device_id env) as [device|];
    [|left; exists [EvGetFirstDeviceId]; simpl; repeat split;
      [by repeat constructor|lia]].
  destruct (truthy_str device); cbn [negb];
    [|left; exists [EvGetFirstDeviceId]; simpl; repeat split;
      [by repeat constructor|lia]].
  destruct (restart_loop_bounded fuel env device max_restart_attempts
              (add_events [EvGetFirstDeviceId] w)) as (evs & E & HF & Hc).
  rewrite add_events_app in E.
  assert (Forall (fun e => setup_event e = true) ([EvGetFirstDeviceId] ++ evs))
    as HF1 by (apply Forall_app; split; [by repeat constructor|done]).
  destruct (restart_loop _ _ _ _ _) as [[[|]|e|] w1] eqn:ER; simpl in E; subst w1.
  - rewrite !(bind_Ok _ _ _ _ _ ER). cbv beta iota.
    rewrite !bind_emit, !add_events_app.
    unfold get_mobile_use_context.
    rewrite !bind_assoc, !bind_emit, !add_events_app.
    assert (Forall (fun e => setup_event e = true)
              ((([EvGetFirstDeviceId] ++ evs) ++ [EvInitLlmConfig]) ++ [EvGetScreenData]))
      as HF2 by (repeat (apply Forall_app; split); by repeat constructor).
    assert (count_ev is_run_servers
              ((([EvGetFirstDeviceId] ++ evs) ++ [EvInitLlmConfig]) ++ [EvGetScreenData])
            <= max_restart_attempts) as Hc2
      by (rewrite !count_ev_app; simpl; lia).
    destruct (get_screen_data env) as [msg|sd].
    + left. eexists. rewrite bind_raise. repeat split; [exact HF2|exact Hc2].
    + right. eexists. eexists. rewrite bind_ret.
      repeat split; [exact HF2|exact Hc2].
  - rewrite !(bind_Ok _ _ _ _ _ ER). cbv beta iota.
    left; eexists; repeat split; [exact HF1|by simpl].
  - rewrite !(bind_Raise _ _ _ _ _ ER).
    left; eexists; repeat split; [exact HF1|by simpl].
  - rewrite !(bind_Diverge _ _ _ _ ER).
    left; eexists; repeat split; [exact HF1|by simpl].
Qed.

Lemma run_automation_run_servers_count fuel env goal test_name out output_config w :
  count_ev is_run_servers
    (events_since w (snd (run_automation fuel env goal test_name out output_config w)))
  <= max_restart_attempts.
Proof.
  destruct (run_automation_cases fuel env goal test_name out output_config w)
    as [(evs & E & HF & Hc)|(evs & ctx & E & HF & Hc)]; rewrite E.
  - by rewrite events_since_add.
  - destruct (run_traced_trace env ctx goal test_name out output_config
                (add_events evs w)) as (post & Et & Hpost).
    rewrite (events_since_trace _ _ (evs ++ setup_events env test_name out ++
                                      EvGetGraph (engine_call env ctx goal test_name)
                                      :: post))
      by (rewrite Et; simpl; by rewrite <- !app_assoc).
    rewrite !count_ev_app. simpl.
    rewrite (count_ev_none is_run_servers (setup_events _ _ _)), (count_ev_none _ post);
      [lia| |].
    + revert Hpost. apply Forall_bool_excl. intros e He.
      by apply traced_event_not_run_servers, after_engine_event_traced.
    + generalize (setup_events_traced env test_name out).
      apply Forall_bool_excl, traced_event_not_run_servers.
Qed.

(** C2.  A run calls [run_servers] at most three times.  When a device is
    found and the first three attempts fail, the run makes exactly three
    attempts with two pauses between them, returns no result, and never
    invokes the planning engine. *)
Theorem bootstrap_attempts_bounded fuel env goal test_name out output_config w :
  let r := run_automation fuel env goal test_name out output_config w in
  count_ev is_run_servers (events_since w (snd r)) <= 3 /\
  forall device,
    get_first_device_id env = Some device ->
    truthy_str device = true ->
    (forall i, i < 3 -> attempt_is false fuel env device i) ->
    fst r = Ok NoResult /\
    count_ev is_run_servers (events_since w (snd r)) = 3 /\
    count_ev is_backoff (events_since w (snd r)) = 2 /\
    count_ev is_engine (events_since w (snd r)) = 0.
Proof.
  intros r. split; [apply run_automation_run_servers_count|].
  intros device Hdev Htruthy Hfail. subst r.
  unfold run_automation. rewrite bind_emit, Hdev, Htruthy. cbn [negb].
  destruct (restart_loop_exhausted fuel env device max_restart_attempts
              (add_events [EvGetFirstDeviceId] w))
    as (evs & E & HF & Hrs & Hbo); [unfold max_restart_attempts; lia|lia|done|].
  rewrite (bind_Ok _ _ _ _ _ E). cbv beta iota.
  rewrite add_events_app. unfold ret. cbn [fst snd].
  rewrite events_since_add, !count_ev_app, Hrs, Hbo. repeat split.
  simpl. apply count_ev_none. revert HF.
  apply Forall_bool_excl, setup_event_not_engine.
Qed.

Lemma bootstrap_attempts_bounded_witness :
  fst (run_automation 5 (sample_env 3 [] None (inr [])) "open settings" None
         "traces" None empty_world) = Ok NoResult.
Proof.
  refine (proj1 (proj2 (bootstrap_attempts_bounded 5 (sample_env 3 [] None (inr []))
                          "open settings" None "traces" None empty_world)
                   "emulator-5554" eq_refl eq_refl _)).
  intros [|[|[|i]]] Hi w; [reflexivity..|lia].
Defined.

(** *** Retries *)

(** Two ways to cut a list at an engine event: the cut whose left part has
    no engine event is the leftmost. *)
Lemma first_engine_split pre0 x0 post0 pre x post :
  pre0 ++ x0 :: post0 = pre ++ x :: post ->
  Forall (fun e => is_engine e = false) pre0 ->
  is_engine x = true ->
  exists k, pre = pre0 ++ k.
Proof.
  revert pre. induction pre0 as [|a pre0 IH]; intros pre E HF Hx.
  - by exists pre.
  - apply Forall_cons in HF as [Ha HF]. destruct pre as [|b pre].
    + injection E as -> _. congruence.
    + injection E as -> E. destruct (IH pre E HF Hx) as [k ->]. by exists k.
Qed.

Lemma count_ev_split_bounds P pre0 x0 post0 pre x post n :
  pre0 ++ x0 :: post0 = pre ++ x :: post ->
  Forall (fun e => is_engine e = false) pre0 ->
  is_engine x = true ->
  count_ev P pre0 = n ->
  count_ev P (pre0 ++ x0 :: post0) = n ->
  count_ev P pre = n.
Proof.
  intros E HF Hx Hpre Hall.
  destruct (first_engine_split _ _ _ _ _ _ E HF Hx) as [k ->].
  rewrite E, !count_ev_app in Hall. rewrite count_ev_app. lia.
Qed.

(** C3, amended.  For N = 1 and N = 2 failed bootstrap attempts followed by
    a success, the run makes exactly N pauses of three seconds and invokes
    the planning engine only after the successful attempt. *)
Theorem retry_then_stream_below_limit (N : nat) :
  N = 1 \/ N = 2 -> retry_then_stream N.
Proof.
  intros HN fuel env goal test_name out output_config w device
    Hdev Htruthy Hfail Hok.
  unfold run_automation. rewrite bind_emit, Hdev, Htruthy. cbn [negb].
  destruct (restart_loop_retry fuel env device N max_restart_attempts
              (add_events [EvGetFirstDeviceId] w))
    as (evs & E & HF & Hrs & Hbo);
    [unfold max_restart_attempts; lia|lia|by rewrite Nat.sub_diag..|].
  rewrite (bind_Ok _ _ _ _ _ E). cbv beta iota.
  unfold get_mobile_use_context.
  rewrite add_events_app, !bind_emit, !bind_assoc, !bind_emit, !add_events_app.
  set (base := ([EvGetFirstDeviceId] ++ evs) ++ [EvInitLlmConfig] ++ [EvGetScreenData]).
  assert (Hbase : count_ev is_run_servers base = N + 1 /\
                  count_ev is_backoff base = N /\
                  Forall (fun e => is_engine e = false) base).
  { subst base. split; [|split].
    - rewrite !count_ev_app, Hrs. simpl. lia.
    - rewrite !count_ev_app, Hbo. simpl. lia.
    - repeat (apply Forall_app; split); try by repeat constructor.
      revert HF. apply Forall_bool_excl, setup_event_not_engine. }
  destruct Hbase as (Hbrs & Hbbo & Hbeng).
  destruct (get_screen_data env) as [msg|sd].
  - rewrite bind_raise. cbn [snd]. rewrite events_since_add.
    split; [done|]. split; [done|]. split.
    + intros pre ctx post Ecut. exfalso.
      apply count_ev_none in Hbeng. rewrite Ecut, count_ev_app in Hbeng.
      simpl in Hbeng. lia.
    + by intros [? [=]].
  - rewrite bind_ret.
    match goal with
    | |- context [run_traced env ?c goal test_name out output_config ?ws] =>
        destruct (run_traced_trace env c goal test_name out output_config ws)
          as (post0 & Et & Hpost);
        set (ctx0 := engine_call env c goal test_name) in *
    end.
    pose proof (setup_events_mkdir env test_name out) as Hmk.
    erewrite events_since_trace;
      [|rewrite Et; cbn [trace add_events]; rewrite <- app_assoc,
          (app_assoc base); reflexivity].
    assert (count_ev is_run_servers (base ++ setup_events env test_name out) = N + 1)
      as Hprs by (rewrite count_ev_app, Hbrs, (count_ev_none _ (setup_events _ _ _));
                  [lia|count_none]).
    assert (count_ev is_backoff (base ++ setup_events env test_name out) = N)
      as Hpbo by (rewrite count_ev_app, Hbbo, (count_ev_none _ (setup_events _ _ _));
                  [lia|count_none]).
    assert (Forall (fun e => is_engine e = false)
              (base ++ setup_events env test_name out)) as Hpeng.
    { apply Forall_app. split; [done|]. revert Hmk. apply Forall_bool_excl.
      by intros []. }
    assert (count_ev is_run_servers
              ((base ++ setup_events env test_name out) ++ EvGetGraph ctx0 :: post0)
            = N + 1) as Hars.
    { rewrite count_ev_app, Hprs. simpl.
      rewrite (count_ev_none _ post0); [lia|].
      revert Hpost. apply Forall_bool_excl. intros e He.
      by apply traced_event_not_run_servers, after_engine_event_traced. }
    assert (count_ev is_backoff
              ((base ++ setup_events env test_name out) ++ EvGetGraph ctx0 :: post0)
            = N) as Habo.
    { rewrite count_ev_app, Hpbo. simpl.
      rewrite (count_ev_none _ post0); [lia|].
      revert Hpost. apply Forall_bool_excl. intros e He.
      by apply traced_event_not_backoff, after_engine_event_traced. }
    split; [done|]. split; [done|]. split.
    + intros pre ctx post Ecut. split.
      * by apply (count_ev_split_bounds _ _ _ _ _ _ _ _ Ecut Hpeng eq_refl Hprs).
      * by apply (count_ev_split_bounds _ _ _ _ _ _ _ _ Ecut Hpeng eq_refl Hpbo).
    + intros _. exists ctx0. set_solver.
Qed.

Lemma retry_then_stream_below_limit_witness :
  let evs :=
    events_since empty_world
      (snd (run_automation 5
              (sample_env 1 [Values (snapshot ["tap Settings"])] None (inr []))
              "open settings" None "traces" None empty_world)) in
  count_ev is_run_servers evs = 2 /\ count_ev is_backoff evs = 1 /\
  engine_invoked evs.
Proof.
  intros evs.
  destruct (retry_then_stream_below_limit 1 (or_introl eq_refl) 5
              (sample_env 1 [Values (snapshot ["tap Settings"])] None (inr []))
              "open settings" None "traces" None empty_world "emulator-5554")
    as (Hrs & Hbo & _ & Hengine).
  - reflexivity.
  - reflexivity.
  - intros [|i] Hi w; [reflexivity|lia].
  - intros w. reflexivity.
  - split; [exact Hrs|]. split; [exact Hbo|].
    apply Hengine. eexists. reflexivity.
Defined.

(** C3 as stated fails for N = 3: when the first three attempts fail, the
    run has used up its attempts.  It pauses twice, not three times, never
    makes the fourth attempt that would succeed, and returns no result
    without invoking the engine. *)
Lemma retry_three_counterexample :
  let env := sample_env 3 [Values (snapshot ["tap Settings"])] None (inr []) in
  let r := run_automation 5 env "open settings" None "traces" None empty_world in
  (forall i, i < 3 -> attempt_is false 5 env "emulator-5554" i) /\
  attempt_is true 5 env "emulator-5554" 3 /\
  fst r = Ok NoResult /\
  count_ev is_run_servers (events_since empty_world (snd r)) = 3 /\
  count_ev is_backoff (events_since empty_world (snd r)) = 2 /\
  count_ev is_engine (events_since empty_world (snd r)) = 0 /\
  ~ retry_then_stream 3.
Proof.
  intros env r.
  assert (Hfail : forall i, i < 3 -> attempt_is false 5 env "emulator-5554" i)
    by (intros [|[|[|i]]] Hi w; [reflexivity..|lia]).
  assert (Hok : attempt_is true 5 env "emulator-5554" 3)
    by (intros w; reflexivity).
  assert (Hpauses : count_ev is_backoff (events_since empty_world (snd r)) = 2)
    by reflexivity.
  repeat split; try done.
  intros Hclaim.
  destruct (Hclaim 5 env "open settings" None "traces" None empty_world
              "emulator-5554" eq_refl eq_refl Hfail Hok)
    as (_ & Hthree & _).
  fold r in Hthree. rewrite Hpauses in Hthree. discriminate.
Qed.

(** ** The run state and the event log during streaming *)

Lemma consume_stream_side_channel chunks ls w :
  Forall not_values chunks -> consume_stream chunks ls w = (Ok ls, w).
Proof.
  induction 1 as [|c chunks Hc _ IH]; [done|].
  destruct c; simpl; [exact IH|exact IH|by destruct Hc].
Qed.

(** C5.  After any stream that contains a full-snapshot chunk, the run
    state is exactly the payload of the last such chunk, whatever the
    state was before and whatever the earlier snapshots held: a snapshot
    replaces the state wholesale.  A stream of tokens and custom events
    only leaves the run state, and the world, as they were. *)
Theorem run_state_is_last_snapshot :
  (forall pre content post ls w,
     Forall not_values post ->
     fst (consume_stream (pre ++ Values content :: post) ls w) = Ok (Some content)) /\
  (forall chunks ls w,
     Forall not_values chunks ->
     consume_stream chunks ls w = (Ok ls, w)).
Proof.
  split; [|apply consume_stream_side_channel].
  intros pre content post ls w Hpost. revert ls w.
  induction pre as [|c pre IH]; intros ls w.
  - simpl. unfold bind, log_agent_thoughts.
    by rewrite consume_stream_side_channel.
  - destruct c; simpl; [apply IH|apply IH|].
    unfold bind, log_agent_thoughts. apply IH.
Qed.

Lemma run_state_is_last_snapshot_witness :
  fst (consume_stream
         [Values (snapshot ["tap Settings"]); Messages "tok";
          Values (snapshot ["tap Settings"; "scroll down"]); Custom "progress"]
         None empty_world)
  = Ok (Some (snapshot ["tap Settings"; "scroll down"])).
Proof.
  apply (proj1 run_state_is_last_snapshot
           [Values (snapshot ["tap Settings"]); Messages "tok"]
           (snapshot ["tap Settings"; "scroll down"]) [Custom "progress"]
           None empty_world).
  repeat constructor. discriminate.
Defined.

Lemma last_thoughts_cons_values written s chunks :
  last_thoughts written (Values s :: chunks) = last_thoughts (agents_thoughts s) chunks.
Proof.
  unfold last_thoughts. rewrite last_snapshot_cons.
  by destruct (last_snapshot chunks).
Qed.

Lemma last_thoughts_cons_other written c chunks :
  snapshot_of c = None ->
  last_thoughts written (c :: chunks) = last_thoughts written chunks.
Proof.
  intros Hc. unfold last_thoughts. rewrite last_snapshot_cons, Hc.
  by destruct (last_snapshot chunks).
Qed.

Lemma cumulative_prefix written chunks :
  cumulative written (thought_lists chunks) ->
  written `prefix_of` last_thoughts written chunks.
Proof.
  revert written. induction chunks as [|c chunks IH]; intros written Hc; [done|].
  destruct c as [t|ev|s].
  - rewrite last_thoughts_cons_other by done. by apply IH.
  - rewrite last_thoughts_cons_other by done. by apply IH.
  - rewrite last_thoughts_cons_values. destruct Hc as [Hp Hc].
    etrans; [exact Hp|by apply IH].
Qed.

Lemma consume_stream_values s chunks ls w :
  consume_stream (Values s :: chunks) ls w =
    consume_stream chunks (Some s) (snd (log_agent_thoughts (agents_thoughts s) w)).
Proof. reflexivity. Qed.

Lemma consume_stream_log chunks :
  forall written ls w,
    events_mark w = length written ->
    cumulative written (thought_lists chunks) ->
    events_log (snd (consume_stream chunks ls w)) =
      events_log w ++ drop (length written) (last_thoughts written chunks) /\
    events_mark (snd (consume_stream chunks ls w)) =
      length (last_thoughts written chunks).
Proof.
  induction chunks as [|c chunks IH]; intros written ls w Hmark Hcum.
  - simpl. unfold last_thoughts. simpl.
    by rewrite drop_all, app_nil_r.
  - destruct c as [t|ev|s].
    + rewrite last_thoughts_cons_other by done. by apply IH.
    + rewrite last_thoughts_cons_other by done. by apply IH.
    + rewrite last_thoughts_cons_values. destruct Hcum as [Hp Hcum].
      rewrite consume_stream_values.
      set (w1 := snd (log_agent_thoughts (agents_thoughts s) w)).
      pose proof (prefix_length _ _ Hp) as Hlen.
      destruct (cumulative_prefix _ _ Hcum) as [k Hk].
      destruct (IH (agents_thoughts s) (Some s) w1) as [Elog Emark];
        [subst w1; simpl; lia|exact Hcum|].
      rewrite Elog, Emark. split; [|done].
      subst w1. simpl. rewrite Hmark, Hk, <- app_assoc. f_equal.
      rewrite drop_app_length, drop_app_le by lia. done.
Qed.

(** C4.  When every snapshot of the stream carries the cumulative thought
    list and nothing has been written yet, the event log gains, over the
    whole stream, exactly the thought list of the last snapshot: every entry
    once, although each snapshot hands the recorder the whole list again.
    The high-water mark ends at the number of entries written. *)
Theorem thoughts_logged_once chunks ls w :
  events_mark w = 0 ->
  cumulative [] (thought_lists chunks) ->
  events_log (snd (consume_stream chunks ls w)) =
    events_log w ++ last_thoughts [] chunks /\
  events_mark (snd (consume_stream chunks ls w)) = length (last_thoughts [] chunks).
Proof.
  intros Hmark Hcum.
  destruct (consume_stream_log chunks [] ls w Hmark Hcum) as [Elog Emark].
  by rewrite Elog, Emark.
Qed.

Lemma thoughts_logged_once_witness :
  events_log
    (snd (consume_stream
            [Values (snapshot ["tap Settings"]);
             Values (snapshot ["tap Settings"]);
             Values (snapshot ["tap Settings"; "scroll down"])]
            None empty_world))
  = ["tap Settings"; "scroll down"].
Proof.
  refine (proj1 (thoughts_logged_once
                   [Values (snapshot ["tap Settings"]);
                    Values (snapshot ["tap Settings"]);
                    Values (snapshot ["tap Settings"; "scroll down"])]
                   None empty_world eq_refl _)).
  simpl. repeat split.
  - by exists ["tap Settings"].
  - by exists [].
  - by exists ["scroll down"].
Defined.

(** ** From the engine to the result *)

Lemma setup_world_dirs env test_name out w :
  dirs (setup_world env test_name out w) =
    if truthy_opt_str test_name then
      {[traces_temp_dir env (fstr test_name)]} ∪ ({[resolve env out]} ∪ dirs w)
    else dirs w.
Proof. unfold setup_world. by destruct (truthy_opt_str test_name). Qed.

Lemma setup_world_results env test_name out w :
  results_sink (setup_world env test_name out w) = results_sink w.
Proof. unfold setup_world. by destruct (truthy_opt_str test_name). Qed.

Lemma graph_body_world env output_config w :
  dirs (snd (graph_body env output_config w)) = dirs w /\
  results_sink (snd (graph_body env output_config w)) = results_sink w /\
  trace_grown stream_event w (snd (graph_body env output_config w)).
Proof.
  repeat split.
  - apply (graph_body_steps same_dirs); intros; [apply same_dirs_emit|apply same_dirs_log].
  - apply (graph_body_steps same_results); intros;
      [apply same_results_emit|apply same_results_log].
  - apply (graph_body_steps (trace_grown stream_event)); intros;
      [by apply trace_grown_emit|by apply trace_grown_log].
Qed.

Lemma finalize_trace_skipped env test_name temp out start_time success w :
  temp = None \/ out = None \/ truthy_num start_time = false ->
  finalize_trace env test_name temp out start_time success w =
    (Ok tt, add_events [EvAsyncSleep 1] w).
Proof.
  intros H. unfold finalize_trace.
  destruct temp as [temp|], out as [out|], (truthy_num start_time) eqn:E;
    try reflexivity.
  by destruct H as [|[|]].
Qed.

(** The [finally] block always ends: normally, or with one of its own
    exceptions; it writes no result. *)
Lemma finalize_trace_outcome env test_name temp out success w :
  let r := finalize_trace env test_name temp out (time_time env) success w in
  (fst r = Ok tt \/ exists e, fst r = Raise e /\ finalization_failure e) /\
  results_sink (snd r) = results_sink w /\
  trace_grown final_event w (snd r).
Proof.
  intros r. subst r.
  destruct temp as [temp|], out as [out|], (truthy_num (time_time env)) eqn:E;
    try (rewrite finalize_trace_skipped by (by auto); simpl; repeat split;
         [by left|eexists; split; [done|by repeat constructor]]).
  destruct (finalize_trace_cases env test_name temp out success w E)
    as [(Ef & _ & _ & _ & Et & _ & Er)|(e & Ef & He & _ & _ & Er & Et)].
  - repeat split; [by left|done|].
    eexists. split; [exact Et|]. by repeat constructor.
  - repeat split; [right; by exists e|done..].
Qed.

(** A run that invoked the engine, cut at the end of its [try] block: the
    events up to there, the world [w2] the [finally] block starts in, and
    how the run ends from there. *)
Lemma engine_invoked_past_setup evs : engine_invoked evs -> past setup_event evs.
Proof. intros [call Hin]. by exists (EvGetGraph call). Qed.

Lemma run_automation_phases fuel env goal test_name out output_config w :
  let r := run_automation fuel env goal test_name out output_config w in
  let o := graph_outcome env output_config in
  past setup_event (events_since w (snd r)) ->
  exists w2 evs call sevs,
    trace w2 = trace w ++ evs ++ setup_events env test_name out ++
               EvGetGraph call :: sevs /\
    Forall (fun e => setup_event e = true) evs /\
    Forall (fun e => stream_event e = true) sevs /\
    dirs w2 = dirs (setup_world env test_name out w) /\
    results_sink w2 = results_sink w /\
    r = conclude o
          (finalize_trace env test_name (temp_path env test_name)
             (output_path env test_name out) (time_time env) (success_of o) w2).
Proof.
  intros r o (e0 & Hin & Hpast). subst r.
  destruct (run_automation_cases fuel env goal test_name out output_config w)
    as [(evs & E & HF & _)|(evs & ctx & E & HF & _)].
  - exfalso. rewrite E, events_since_add in Hin.
    rewrite Forall_forall in HF. specialize (HF _ Hin). congruence.
  - rewrite E, run_traced_eq. fold o.
    set (w1 := add_events [EvGetGraph (engine_call env ctx goal test_name)]
                 (setup_world env test_name out (add_events evs w))).
    destruct (graph_body_world env output_config w1) as (Hd & Hr & (sevs & Et & Hs)).
    exists (snd (graph_body env output_config w1)), evs,
      (engine_call env ctx goal test_name), sevs.
    repeat split; try done.
    + rewrite Et. subst w1. simpl. rewrite setup_world_trace. simpl. by list_norm.
    + rewrite Hd. subst w1. simpl. by rewrite !setup_world_dirs.
    + rewrite Hr. subst w1. simpl. by rewrite setup_world_results.
Qed.

(** C10.  When the stream of the planning engine raises, the run ends in
    an exception, not in a result, and nothing is written to the results
    sink, whatever thoughts the snapshots before the failure carried. *)
Theorem streaming_failure_yields_nothing
    fuel env goal test_name out output_config w msg :
  let r := run_automation fuel env goal test_name out output_config w in
  graph_failure env = Some msg ->
  engine_invoked (events_since w (snd r)) ->
  (exists e, fst r = Raise e) /\
  results_sink (snd r) = results_sink w /\
  count_ev is_record_result (events_since w (snd r)) = 0.
Proof.
  intros r Hfail Hengine.
  destruct (run_automation_phases fuel env goal test_name out output_config w
              (engine_invoked_past_setup _ Hengine))
    as (w2 & evs & ctx & sevs & Et & HFe & HFs & Hd & Hr & E).
  fold r in E. rewrite E. clear E Hengine r.
  unfold graph_outcome. rewrite Hfail. cbn [success_of].
  destruct (finalize_trace_outcome env test_name (temp_path env test_name)
              (output_path env test_name out) false w2)
    as (Hout & Hres & (fevs & Etf & HFf)).
  assert (Hcount : count_ev is_record_result
            ((evs ++ setup_events env test_name out ++ EvGetGraph ctx :: sevs) ++ fevs)
          = 0).
  { pose proof (setup_events_mkdir env test_name out) as HFm.
    rewrite !count_ev_app. cbn [count_ev is_record_result].
    rewrite (count_ev_none _ evs), (count_ev_none _ (setup_events _ _ _)),
      (count_ev_none _ sevs), (count_ev_none _ fevs); [done|..].
    all: count_none. }
  unfold conclude.
  destruct Hout as [Hok|(e & He & _)]; rewrite ?Hok, ?He; cbn [fst snd].
  - repeat split; [by eexists|congruence|].
    erewrite events_since_trace; [exact Hcount|]. rewrite Etf, Et. by list_norm.
  - repeat split; [by eexists|congruence|].
    erewrite events_since_trace; [exact Hcount|]. rewrite Etf, Et. by list_norm.
Qed.

Lemma streaming_failure_yields_nothing_witness :
  let r := run_automation 5
             (sample_env 0 [Values (snapshot ["tap Settings"])]
                (Some "recursion limit reached") (inr []))
             "open settings" (Some "smoke") "traces" None empty_world in
  (exists e, fst r = Raise e) /\
  results_sink (snd r) = [] /\
  count_ev is_record_result (events_since empty_world (snd r)) = 0.
Proof.
  apply (streaming_failure_yields_nothing 5
           (sample_env 0 [Values (snapshot ["tap Settings"])]
              (Some "recursion limit reached") (inr []))
           "open settings" (Some "smoke") "traces" None empty_world
           "recursion limit reached").
  - reflexivity.
  - eexists. vm_compute.
    repeat (first [apply list_elem_of_here | apply list_elem_of_further]).
Defined.


Lemma truthy_num_ne t : t <> 0%Z -> truthy_num t = true.
Proof. intros H. unfold truthy_num. by apply negb_true_iff, Z.eqb_neq. Qed.







(** ** The trace directories *)

Lemma conclude_world o f :
  dirs (snd (conclude o f)) = dirs (snd f) /\
  trace_grown is_record_result (snd f) (snd (conclude o f)).
Proof.
  split.
  - apply (conclude_steps same_dirs). intros r. apply same_dirs_record.
  - apply (conclude_steps (trace_grown is_record_result)).
    intros r. by apply trace_grown_record.
Qed.




(** ** The result of a run *)




Lemma Forall_bool_elem (P : Event -> bool) l e :
  Forall (fun e => P e = true) l -> e ∈ l -> P e = true.
Proof. intros HF He. rewrite Forall_forall in HF. by apply HF. Qed.




(** ** One call of [run_servers], service by service *)

Lemma service_of_service_event settings device e :
  service_of settings device e = true -> service_event e = true.
Proof.
  destruct e; simpl; try done.
  rewrite andb_true_iff. by intros [-> _].
Qed.

Lemma bridge_status_poll_service settings device fuel bridge n :
  manages_bridge settings = true ->
  steps (appended (service_of settings device)) (bridge_status_poll fuel bridge n).
Proof.
  intros Hm. revert n. induction fuel as [|fuel IH]; intros n; simpl; [steps_go|].
  apply steps_bind; [apply _|by apply appended_emit|intros _].
  repeat case_bool_decide; steps_go; try apply IH; apply appended_emit; simpl;
    rewrite ?Hm; try done.
  by rewrite bool_decide_eq_true_2.
Qed.

Lemma run_servers_screen_api_eq settings host w :
  run_servers_screen_api settings host w =
    if manages_screen_api settings then
      match start_device_screen_api host with
      | ApiProcess =>
          if health_ok host then
            (Ok true, add_events [EvStartScreenApi; EvHealthCheck] w)
          else
            (Ok false,
             add_events [EvStartScreenApi; EvHealthCheck;
                         EvStopServers true (manages_bridge settings);
                         EvTerminateApi] w)
      | _ => (Ok false, add_events [EvStartScreenApi] w)
      end
    else if health_ok host then (Ok true, add_events [EvHealthCheck] w)
    else (Ok false,
          add_events [EvHealthCheck; EvStopServers false (manages_bridge settings)] w).
Proof.
  unfold run_servers_screen_api, check_device_screen_api_health_with_retry_logic,
    manages_screen_api, manages_bridge.
  destruct (truthy_opt_str (DEVICE_SCREEN_API_BASE_URL settings)); cbn [negb].
  - rewrite bind_ret. cbn [andb]. rewrite bind_assoc, bind_emit.
    destruct (health_ok host); [by mstep|].
    rewrite bind_assoc, bind_emit. by mstep.
  - rewrite bind_emit. destruct (start_device_screen_api host); cbn; try done.
    rewrite bind_assoc, bind_emit.
    destruct (health_ok host); [by mstep|].
    rewrite bind_assoc, bind_emit. by mstep.
Qed.

Lemma run_servers_screen_api_service settings device host :
  steps (appended (service_of settings device)) (run_servers_screen_api settings host).
Proof.
  intros w. rewrite run_servers_screen_api_eq.
  destruct (manages_screen_api settings) eqn:Ha;
    [destruct (start_device_screen_api host)|]; try destruct (health_ok host);
    cbn [snd]; eexists; (split; [reflexivity|]);
    repeat constructor; simpl; rewrite ?Ha; try done;
    by rewrite !bool_decide_eq_true_2.
Qed.

(** How the poll can end. *)
Lemma poll_outcome fuel bridge n w :
  match fst (bridge_status_poll fuel bridge n w) with
  | Ok b =>
      exists k, k < fuel /\
        (forall i, i < k -> status (bridge (n + i)) = STARTING) /\
        if b then status (bridge (n + k)) = RUNNING
        else status (bridge (n + k)) ∈ failed_statuses
  | Raise _ => False
  | Diverge => forall i, i < fuel -> status (bridge (n + i)) = STARTING
  end.
Proof.
  revert n w. induction fuel as [|fuel IH]; intros n w; [simpl; intros; lia|].
  cbn [bridge_status_poll]. rewrite bind_emit.
  destruct (status_cases (status (bridge n))) as [HS|[HR|HF]].
  - rewrite HS, bool_decide_eq_false_2 by done.
    rewrite (bool_decide_eq_false_2 _ starting_not_failed), bind_emit.
    specialize (IH (S n) (add_events [EvSleep 1] (add_events [EvGetStatus] w))).
    assert (Hshift : forall i, S n + i = n + S i) by (intros; lia).
    destruct (fst (bridge_status_poll fuel bridge (S n) _)) as [b|e|]; [|done|].
    + destruct IH as (k & Hk & Hs & Hb). exists (S k). split; [lia|].
      rewrite <- Hshift. split; [|done].
      intros [|i] Hi; [by rewrite Nat.add_0_r|]. rewrite <- Hshift. apply Hs. lia.
    + intros [|i] Hi; [by rewrite Nat.add_0_r|]. rewrite <- Hshift. apply IH. lia.
  - rewrite bool_decide_eq_true_2 by done. cbn.
    exists 0. rewrite Nat.add_0_r. split; [lia|]. split; [intros; lia|done].
  - rewrite (bool_decide_eq_false_2 _ (failed_not_running _ HF)),
      (bool_decide_eq_true_2 _ HF), bind_emit. cbn.
    exists 0. rewrite Nat.add_0_r. split; [lia|]. split; [intros; lia|done].
Qed.

Lemma run_servers_service fuel settings device host w :
  exists evs,
    snd (run_servers fuel settings device host w) =
      add_events (EvRunServers device :: evs) w /\
    Forall (fun e => service_of settings device e = true) evs.
Proof.
  unfold run_servers. rewrite bind_emit.
  match goal with
  | |- context [snd (?m (add_events _ w))] =>
      assert (steps (appended (service_of settings device)) m) as Hm
  end.
  { fold (manages_bridge settings).
    destruct (manages_bridge settings) eqn:Hb;
      [|apply run_servers_screen_api_service].
    apply steps_bind; [apply _| |intros _].
    { apply appended_emit. simpl. by rewrite Hb, bool_decide_eq_true_2. }
    destruct (start_device_hardware_bridge host); [|steps_go].
    apply steps_bind; [apply _|by apply bridge_status_poll_service|].
    intros [|]; [apply run_servers_screen_api_service|steps_go]. }
  destruct (Hm (add_events [EvRunServers device] w)) as (evs & E & HF).
  exists evs. by rewrite E, add_events_app.
Qed.

(** With the bridge up, [run_servers] goes on to the screen API. *)
Lemma run_servers_bridge_up fuel settings device host k w :
  bridge_up fuel settings host k ->
  run_servers fuel settings device host w =
    run_servers_screen_api settings host
      (add_events (bridge_events settings device k) w).
Proof.
  unfold bridge_up, bridge_events, run_servers. fold (manages_bridge settings).
  rewrite bind_emit. destruct (manages_bridge settings); [|done].
  intros (bridge & -> & [Hs Hr] & Hk). rewrite bind_emit.
  rewrite (bind_Ok _ _ _ true
             (add_events (poll_rounds k ++ [EvGetStatus])
                (add_events [EvStartBridge device] (add_events [EvRunServers device] w)))).
  - by rewrite !add_events_app.
  - rewrite (poll_from_terminal fuel bridge 0 k);
      [|done|by cbn; rewrite Hr|done].
    cbn [Nat.add]. rewrite Hr. by rewrite bool_decide_eq_true_2.
Qed.

Lemma run_servers_outcome fuel settings device host w :
  fst (run_servers fuel settings device host w) = Ok true \/
  fst (run_servers fuel settings device host w) = Ok false \/
  fst (run_servers fuel settings device host w) = Diverge.
Proof.
  assert (forall w', fst (run_servers_screen_api settings host w') = Ok true \/
                     fst (run_servers_screen_api settings host w') = Ok false) as Hapi.
  { intros w'. rewrite run_servers_screen_api_eq.
    destruct (manages_screen_api settings);
      [destruct (start_device_screen_api host)|]; try destruct (health_ok host);
      auto. }
  unfold run_servers. rewrite bind_emit.
  destruct (negb _); [|destruct (Hapi (add_events [EvRunServers device] w)); auto].
  rewrite bind_emit.
  destruct (start_device_hardware_bridge host) as [bridge|]; [|cbn; auto].
  pose proof (poll_outcome fuel bridge 0
                (add_events [EvStartBridge device]
                   (add_events [EvRunServers device] w))) as Hp.
  destruct (bridge_status_poll fuel bridge 0 _) as [[[|]|e|] w1] eqn:E;
    simpl in Hp; [| |done|].
  - rewrite !(bind_Ok _ _ _ _ _ E). destruct (Hapi w1); auto.
  - rewrite !(bind_Ok _ _ _ _ _ E). cbn. auto.
  - rewrite !(bind_Diverge _ _ _ _ E). cbn. auto.
Qed.

Lemma run_servers_screen_api_true settings host w :
  fst (run_servers_screen_api settings host w) = Ok true ->
  screen_api_up settings host /\ health_ok host = true.
Proof.
  rewrite run_servers_screen_api_eq. unfold screen_api_up.
  destruct (manages_screen_api settings);
    [destruct (start_device_screen_api host)|]; try destruct (health_ok host);
    simpl; try done.
Qed.

Lemma host_up_bridge_up : bridge_up 5 no_urls host_up 2.
Proof.
  exists bridge_up_after_two. split; [reflexivity|]. split; [|lia].
  split; [|reflexivity]. intros [|[|i]] Hi; [reflexivity|reflexivity|lia].
Qed.

(** X1.  [run_servers] returns [True] exactly when every service it needs
    is up: the bridge is external or was started and reached RUNNING, the
    screen API is external or was started as a process, and the health
    probe answered.  It has then started what it manages, polled the bridge
    up to the RUNNING answer and probed the health once, in this order, and
    has stopped nothing. *)
Theorem run_servers_succeeds fuel settings device host w :
  let r := run_servers fuel settings device host w in
  (forall k,
     bridge_up fuel settings host k -> screen_api_up settings host ->
     health_ok host = true ->
     r = (Ok true,
          add_events
            (bridge_events settings device k ++
             (if manages_screen_api settings then [EvStartScreenApi] else []) ++
             [EvHealthCheck]) w)) /\
  (fst r = Ok true ->
   (exists k, bridge_up fuel settings host k) /\
   screen_api_up settings host /\ health_ok host = true).
Proof.
  intros r. subst r. split.
  - intros k Hb Ha Hh. rewrite (run_servers_bridge_up _ _ _ _ k) by done.
    rewrite run_servers_screen_api_eq, Hh. unfold screen_api_up in Ha.
    destruct (manages_screen_api settings); [rewrite Ha by done|];
      by rewrite add_events_app.
  - unfold run_servers, bridge_up. fold (manages_bridge settings).
    rewrite bind_emit. destruct (manages_bridge settings).
    + rewrite bind_emit.
      destruct (start_device_hardware_bridge host) as [bridge|]; [|done].
      pose proof (poll_outcome fuel bridge 0
                    (add_events [EvStartBridge device]
                       (add_events [EvRunServers device] w))) as Hp.
      destruct (bridge_status_poll fuel bridge 0 _) as [[[|]|e|] w1] eqn:E;
        simpl in Hp; [| |done|].
      * rewrite (bind_Ok _ _ _ _ _ E). intros Hr.
        apply run_servers_screen_api_true in Hr as [Ha Hh].
        destruct Hp as (k & Hk & Hs & Hrun).
        split; [|done]. exists k, bridge. by repeat split.
      * by rewrite (bind_Ok _ _ _ _ _ E).
      * by rewrite (bind_Diverge _ _ _ _ E).
    + intros Hr. apply run_servers_screen_api_true in Hr as [Ha Hh].
      split; [by exists 0|done].
Qed.

Lemma run_servers_succeeds_witness :
  run_servers 5 no_urls "emulator-5554" host_up empty_world =
    (Ok true,
     add_events
       [EvRunServers "emulator-5554"; EvStartBridge "emulator-5554";
        EvGetStatus; EvSleep 1; EvGetStatus; EvSleep 1; EvGetStatus;
        EvStartScreenApi; EvHealthCheck] empty_world).
Proof.
  apply (proj1 (run_servers_succeeds 5 no_urls "emulator-5554" host_up empty_world) 2).
  - exact host_up_bridge_up.
  - intros _. reflexivity.
  - reflexivity.
Defined.

(** X2.  When the bridge it manages does not come up, [run_servers] returns
    [False] at once: after a failed start, or after the poll read one of
    the four failed statuses, which it reports with the bridge's output.
    The screen API is not started, the health is not probed, and nothing is
    stopped. *)
Theorem run_servers_bridge_down fuel settings device host w :
  manages_bridge settings = true ->
  (start_device_hardware_bridge host = None ->
   run_servers fuel settings device host w =
     (Ok false, add_events [EvRunServers device; EvStartBridge device] w)) /\
  (forall bridge k st,
     start_device_hardware_bridge host = Some bridge ->
     settles bridge k st -> st ∈ failed_statuses -> k < fuel ->
     run_servers fuel settings device host w =
       (Ok false,
        add_events
          (EvRunServers device :: EvStartBridge device ::
           poll_rounds k ++ [EvGetStatus; EvBridgeFailed st (output (bridge k))])
          w)).
Proof.
  intros Hm. unfold run_servers. fold (manages_bridge settings).
  rewrite Hm, !bind_emit. split.
  - intros ->. by rewrite add_events_app.
  - intros bridge k st -> [Hs Hst] Hf Hk.
    pose proof (failed_not_running _ Hf) as Hnr.
    rewrite (bind_Ok _ _ _ false
               (add_events
                  (poll_rounds k ++ [EvGetStatus; EvBridgeFailed st (output (bridge k))])
                  (add_events [EvStartBridge device]
                     (add_events [EvRunServers device] w)))).
    + by rewrite !add_events_app.
    + rewrite (poll_from_terminal fuel bridge 0 k); [|done| |done].
      * cbn [Nat.add]. rewrite Hst. by rewrite bool_decide_eq_false_2.
      * cbn [Nat.add]. rewrite Hst. intros ->. revert Hf. compute_done.
Qed.

Lemma run_servers_bridge_down_witness :
  run_servers 5 no_urls "emulator-5554" host_port_taken empty_world =
    (Ok false,
     add_events
       [EvRunServers "emulator-5554"; EvStartBridge "emulator-5554";
        EvGetStatus; EvSleep 1; EvGetStatus;
        EvBridgeFailed PORT_IN_USE (Some "address already in use")] empty_world).
Proof.
  apply (proj2 (run_servers_bridge_down 5 no_urls "emulator-5554" host_port_taken
                  empty_world eq_refl) bridge_port_taken 1 PORT_IN_USE).
  - reflexivity.
  - split; [|reflexivity]. intros [|i] Hi; [reflexivity|lia].
  - compute_done.
  - lia.
Defined.

(** X3.  When the screen API it manages does not come back as a process
    (nothing, or a handle of another kind), [run_servers] returns [False]
    right after the start: the health is not probed, and neither the handle
    nor the bridge that is up is stopped. *)
Theorem run_servers_api_not_a_process fuel settings device host k w :
  bridge_up fuel settings host k ->
  manages_screen_api settings = true ->
  start_device_screen_api host <> ApiProcess ->
  run_servers fuel settings device host w =
    (Ok false,
     add_events (bridge_events settings device k ++ [EvStartScreenApi]) w).
Proof.
  intros Hb Ha Hp. rewrite (run_servers_bridge_up _ _ _ _ k) by done.
  rewrite run_servers_screen_api_eq, Ha.
  destruct (start_device_screen_api host); [|done|]; by rewrite add_events_app.
Qed.

Lemma run_servers_api_not_a_process_witness :
  run_servers 5 no_urls "emulator-5554" host_thread empty_world =
    (Ok false,
     add_events
       [EvRunServers "emulator-5554"; EvStartBridge "emulator-5554";
        EvGetStatus; EvSleep 1; EvGetStatus; EvSleep 1; EvGetStatus;
        EvStartScreenApi] empty_world).
Proof.
  apply (run_servers_api_not_a_process 5 no_urls "emulator-5554" host_thread 2
           empty_world).
  - exact host_up_bridge_up.
  - reflexivity.
  - discriminate.
Defined.

(** X4.  When the services are up and the health probe fails,
    [run_servers] returns [False] after one cleanup: one [stop_servers]
    request that names exactly the services [run_servers] manages, and
    then, only if it started the screen API process itself, the
    termination of that process. *)
Theorem run_servers_unhealthy fuel settings device host k w :
  bridge_up fuel settings host k -> screen_api_up settings host ->
  health_ok host = false ->
  run_servers fuel settings device host w =
    (Ok false,
     add_events
       (bridge_events settings device k ++
        (if manages_screen_api settings then [EvStartScreenApi] else []) ++
        [EvHealthCheck;
         EvStopServers (manages_screen_api settings) (manages_bridge settings)] ++
        (if manages_screen_api settings then [EvTerminateApi] else [])) w).
Proof.
  intros Hb Ha Hh. rewrite (run_servers_bridge_up _ _ _ _ k) by done.
  rewrite run_servers_screen_api_eq, Hh. unfold screen_api_up in Ha.
  destruct (manages_screen_api settings); [rewrite Ha by done|];
    by rewrite add_events_app.
Qed.

Lemma run_servers_unhealthy_witness :
  run_servers 5 external_bridge "emulator-5554" host_unhealthy empty_world =
    (Ok false,
     add_events
       [EvRunServers "emulator-5554"; EvStartScreenApi; EvHealthCheck;
        EvStopServers true false; EvTerminateApi] empty_world).
Proof.
  apply (run_servers_unhealthy 5 external_bridge "emulator-5554" host_unhealthy 0
           empty_world).
  - exact I.
  - intros _. reflexivity.
  - reflexivity.
Defined.

(** ** [print_ai_response_to_stderr] *)

Lemma find_skip {A} (P : A -> bool) l l' :
  Forall (fun x => P x = false) l -> find P (l ++ l') = find P l'.
Proof. induction 1 as [|x l Hx _ IH]; simpl; [done|]. by rewrite Hx. Qed.

Lemma find_none {A} (P : A -> bool) l :
  find P l = None <-> Forall (fun x => P x = false) l.
Proof.
  induction l as [|x l IH]; simpl; [by split|].
  destruct (P x) eqn:Hx.
  - split; [done|]. intros HF. apply Forall_cons in HF as [HF _]. congruence.
  - rewrite IH. split; [by constructor|]. by intros [_ ?]%Forall_cons.
Qed.

Lemma find_holds {A} (P : A -> bool) l x : find P l = Some x -> P x = true.
Proof.
  induction l as [|y l IH]; simpl; [done|].
  destruct (P y) eqn:Hy; [by intros [= <-]|done].
Qed.

Lemma stderr_events_spec graph_result w :
  print_ai_response_to_stderr graph_result w =
    (Ok tt, add_events (stderr_events graph_result) w).
Proof.
  unfold print_ai_response_to_stderr, stderr_events.
  destruct (find _ _) as [[]|]; by rewrite ?add_events_nil.
Qed.

(** X5.  [print_ai_response_to_stderr] prints the content of the most
    recent AI message of the state, and only that: the messages before it,
    AI messages included, and the messages of other kinds after it are not
    printed. *)
Theorem print_ai_response_latest graph_result pre content post w :
  messages graph_result = pre ++ AIMessage content :: post ->
  Forall (fun m => is_AIMessage m = false) post ->
  print_ai_response_to_stderr graph_result w =
    (Ok tt, add_events [EvPrintStderr content] w).
Proof.
  intros Hm Hpost. unfold print_ai_response_to_stderr.
  rewrite Hm, rev_app_distr. cbn [rev]. rewrite <- app_assoc.
  rewrite find_skip; [done|]. by apply Forall_rev.
Qed.

Lemma print_ai_response_latest_witness :
  print_ai_response_to_stderr conversation empty_world =
    (Ok tt, add_events [EvPrintStderr "wifi is on"] empty_world).
Proof.
  apply (print_ai_response_latest conversation
           [AIMessage "opening settings"; OtherMessage "tapped"] "wifi is on"
           [OtherMessage "screenshot taken"] empty_world).
  - reflexivity.
  - repeat constructor.
Defined.

(** X6.  [print_ai_response_to_stderr] prints nothing, and changes
    nothing, exactly when the state holds no AI message; an empty
    conversation is such a state. *)
Theorem print_ai_response_silent graph_result w :
  print_ai_response_to_stderr graph_result w = (Ok tt, w) <->
  Forall (fun m => is_AIMessage m = false) (messages graph_result).
Proof.
  unfold print_ai_response_to_stderr.
  destruct (find is_AIMessage (rev (messages graph_result))) as [m|] eqn:E.
  - pose proof (find_holds _ _ _ E) as Hm. destruct m as [content|]; [|done].
    split.
    + intros [= Hw]. apply (f_equal (fun w' => length (trace w'))) in Hw.
      simpl in Hw. rewrite length_app in Hw. simpl in Hw. lia.
    + intros HF. apply Forall_rev, find_none in HF. congruence.
  - split; [|done]. intros _. apply find_none in E.
    apply Forall_rev in E. by rewrite rev_involutive in E.
Qed.

Lemma print_ai_response_silent_witness :
  print_ai_response_to_stderr (initial_state successful_run "open settings")
    empty_world = (Ok tt, empty_world).
Proof.
  apply (proj2 (print_ai_response_silent
                  (initial_state successful_run "open settings") empty_world)).
  constructor.
Defined.

(** ** The anatomy of a run *)

Lemma service_of_bootstrap settings device e :
  service_of settings device e = true -> bootstrap_event settings device e = true.
Proof.
  destruct e; simpl; try done. intros ->. by rewrite orb_true_r.
Qed.

(** One call of [run_servers], read both ways. *)
Lemma run_servers_anatomy fuel settings device host w :
  exists evs,
    snd (run_servers fuel settings device host w) = add_events evs w /\
    Forall (fun e => bootstrap_event settings device e = true) evs /\
    count_ev is_run_servers evs = 1 /\ count_ev is_backoff evs = 0.
Proof.
  destruct (run_servers_service fuel settings device host w) as (evs & E & HF).
  exists (EvRunServers device :: evs). split; [done|].
  assert (Forall (fun e => service_event e = true) evs) as HS
    by (eapply Forall_impl; [exact HF|apply service_of_service_event]).
  destruct (count_service_events _ HS) as (Hrs & Hbo & _).
  simpl. rewrite Hrs, Hbo. repeat split.
  constructor; [simpl; by rewrite bool_decide_eq_true_2|].
  eapply Forall_impl; [exact HF|apply service_of_bootstrap].
Qed.

(** Two ways to cut a list at an element of kind [P], the first of them
    at the first such element. *)
Lemma split_first {A} (P : A -> bool) l1 x l2 pre y post :
  l1 ++ x :: l2 = pre ++ y :: post ->
  Forall (fun a => P a = false) l1 -> P y = true ->
  (pre = l1 /\ y = x /\ post = l2) \/
  exists k, pre = l1 ++ x :: k /\ l2 = k ++ y :: post.
Proof.
  revert pre. induction l1 as [|a l1 IH]; intros pre E HF Hy.
  - destruct pre as [|b pre]; simpl in E.
    + injection E as -> ->. by left.
    + injection E as -> ->. right. by exists pre.
  - apply Forall_cons in HF as [Ha HF]. destruct pre as [|b pre]; simpl in E.
    + injection E as -> _. congruence.
    + injection E as -> E. destruct (IH pre E HF Hy) as [(-> & -> & ->)|(k & -> & ->)].
      * by left.
      * right. by exists k.
Qed.

Lemma count_ev_pos (P : Event -> bool) l x :
  P x = true -> x ∈ l -> 0 < count_ev P l.
Proof.
  intros Hx Hin. induction Hin as [|y l Hin IH]; simpl; [rewrite Hx; lia|].
  destruct (P y); lia.
Qed.

Lemma count_ev_witness (P : Event -> bool) l :
  0 < count_ev P l -> exists x, x ∈ l /\ P x = true.
Proof.
  induction l as [|y l IH]; simpl; [lia|].
  destruct (P y) eqn:Hy; [exists y; split; [left|done]|].
  intros H. destruct IH as (x & Hin & Hx); [lia|].
  exists x. split; [by right|done].
Qed.

Lemma count_zero_forall (P : Event -> bool) l :
  count_ev P l = 0 -> Forall (fun e => P e = false) l.
Proof.
  induction l as [|y l IH]; simpl; [constructor|].
  destruct (P y) eqn:Hy; [lia|]. intros H. constructor; [done|]. apply IH. lia.
Qed.

Lemma no_pause_paused_between evs :
  count_ev is_backoff evs = 0 -> paused_between evs.
Proof.
  intros H pre post ->. rewrite count_ev_app in H. simpl in H. lia.
Qed.

(** The restart loop makes at least one attempt and pauses only between
    two attempts. *)
Lemma restart_loop_anatomy fuel env device remaining w :
  0 < remaining -> remaining <= max_restart_attempts ->
  exists boot,
    snd (restart_loop fuel env device remaining w) = add_events boot w /\
    Forall (fun e => bootstrap_event (settings env) device e = true) boot /\
    (fst (restart_loop fuel env device remaining w) = Ok true \/
     fst (restart_loop fuel env device remaining w) = Ok false \/
     fst (restart_loop fuel env device remaining w) = Diverge) /\
    0 < count_ev is_run_servers boot /\
    count_ev is_backoff boot + 1 = count_ev is_run_servers boot /\
    paused_between boot.
Proof.
  revert w. induction remaining as [|r IH]; intros w Hpos Hle; [lia|].
  cbn [restart_loop].
  set (host := servers env (max_restart_attempts - S r)).
  destruct (run_servers_anatomy fuel (settings env) device host w)
    as (evs & E & HF & Hrs & Hbo).
  pose proof (no_pause_paused_between _ Hbo) as Hpb.
  destruct (run_servers_outcome fuel (settings env) device host w) as [Ho|[Ho|Ho]];
    destruct (run_servers fuel (settings env) device host w) as [o w1] eqn:Er;
    simpl in E, Ho; subst o w1.
  - rewrite !(bind_Ok _ _ _ _ _ Er). exists evs. cbn.
    split; [done|]. split; [done|]. split; [auto|]. split; [lia|].
    split; [lia|done].
  - rewrite !(bind_Ok _ _ _ _ _ Er). cbv beta iota.
    destruct (decide (r = 0)) as [->|Hr].
    + cbn. exists evs. cbn.
    split; [done|]. split; [done|]. split; [auto|]. split; [lia|].
    split; [lia|done].
    + assert ((max_restart_attempts - S r + 1 <? max_restart_attempts)%nat = true)
        as -> by (apply Nat.ltb_lt; unfold max_restart_attempts in *; lia).
      rewrite !bind_emit, !add_events_app.
      destruct (IH (add_events (evs ++ [EvSleep 3]) w))
        as (boot & E' & HF' & Ho' & Hrs' & Hbo' & Hpb'); [lia|lia|].
      exists ((evs ++ [EvSleep 3]) ++ boot). rewrite E', add_events_app.
      split; [done|]. split.
      { apply Forall_app. split; [|done]. apply Forall_app. split; [done|].
        by repeat constructor. }
      split; [done|]. split; [rewrite !count_ev_app; lia|].
      split; [rewrite !count_ev_app; simpl; lia|].
      intros pre post Hcut. rewrite <- app_assoc in Hcut. cbn [app] in Hcut.
      apply (split_first is_backoff) in Hcut
        as [(-> & _ & ->)|(k & -> & Hcut)];
        [split; lia|..|by apply count_zero_forall|done].
      destruct (Hpb' _ _ Hcut) as [_ Hpost].
      split; [rewrite count_ev_app; lia|done].
  - rewrite !(bind_Diverge _ _ _ _ Er). exists evs. cbn.
    split; [done|]. split; [done|]. split; [auto|]. split; [lia|].
    split; [lia|done].
Qed.

Lemma get_mobile_use_context_eq env device_id w :
  get_mobile_use_context env device_id w =
    match get_screen_data env with
    | inl msg => (Raise (ScreenDataFailure msg), add_events [EvGetScreenData] w)
    | inr screen_data =>
        (Ok (context_of env device_id screen_data), add_events [EvGetScreenData] w)
    end.
Proof.
  unfold get_mobile_use_context. rewrite bind_emit. by destruct (get_screen_data env).
Qed.

(** Where a run can end, and what it has done up to there. *)
Lemma run_automation_anatomy fuel env goal test_name out output_config w :
  let r := run_automation fuel env goal test_name out output_config w in
  (truthy_opt_str (get_first_device_id env) = false /\
   r = (Ok NoResult, add_events [EvGetFirstDeviceId] w)) \/
  exists device boot,
    get_first_device_id env = Some device /\ truthy_str device = true /\
    Forall (fun e => bootstrap_event (settings env) device e = true) boot /\
    0 < count_ev is_run_servers boot /\
    count_ev is_backoff boot + 1 = count_ev is_run_servers boot /\
    paused_between boot /\
    (r = (Ok NoResult, add_events (EvGetFirstDeviceId :: boot) w) \/
     r = (Diverge, add_events (EvGetFirstDeviceId :: boot) w) \/
     (exists msg,
        get_screen_data env = inl msg /\
        r = (Raise (ScreenDataFailure msg), add_events (prelude boot) w)) \/
     (exists screen_data,
        get_screen_data env = inr screen_data /\
        r = run_traced env (context_of env device screen_data) goal test_name out
              output_config (add_events (prelude boot) w))).
Proof.
  intros r. subst r. unfold run_automation. rewrite bind_emit.
  destruct (get_first_device_id env) as [device|]; [|by left].
  destruct (truthy_str device) eqn:Hd; cbn [negb]; [|by left].
  right. exists device.
  destruct (restart_loop_anatomy fuel env device max_restart_attempts
              (add_events [EvGetFirstDeviceId] w))
    as (boot & E & HF & Ho & Hrs & Hbo & Hpb);
    [unfold max_restart_attempts; lia|lia|].
  exists boot. do 6 (split; [done|]).
  destruct (restart_loop _ _ _ _ _) as [o w1] eqn:ER. simpl in E, Ho. subst w1.
  rewrite add_events_app in ER. cbn [app] in ER.
  destruct Ho as [-> | [-> | ->]].
  - rewrite (bind_Ok _ _ _ _ _ ER). cbv beta iota.
    rewrite bind_emit, add_events_app.
    assert (get_mobile_use_context env device
              (add_events ((EvGetFirstDeviceId :: boot) ++ [EvInitLlmConfig]) w) =
            match get_screen_data env with
            | inl msg => (Raise (ScreenDataFailure msg), add_events (prelude boot) w)
            | inr screen_data =>
                (Ok (context_of env device screen_data), add_events (prelude boot) w)
            end) as Hctx.
    { rewrite get_mobile_use_context_eq, add_events_app. unfold prelude.
      destruct (get_screen_data env); by list_norm. }
    destruct (get_screen_data env) as [msg|sd]; right; right; [left|right].
    + exists msg. split; [done|]. by rewrite (bind_Raise _ _ _ _ _ Hctx).
    + exists sd. split; [done|]. by rewrite (bind_Ok _ _ _ _ _ Hctx).
  - rewrite (bind_Ok _ _ _ _ _ ER). by left.
  - rewrite (bind_Diverge _ _ _ _ ER). by right; left.
Qed.

Lemma consume_stream_trace chunks ls w :
  trace (snd (consume_stream chunks ls w)) =
    trace w ++ (EvLogAgentThoughts <$> thought_lists chunks).
Proof.
  revert ls w. induction chunks as [|c chunks IH]; intros ls w.
  - simpl. by rewrite app_nil_r.
  - destruct c as [t|ev|s]; [apply IH|apply IH|].
    rewrite consume_stream_values, IH. unfold thought_lists. simpl.
    by rewrite <- app_assoc.
Qed.

Lemma graph_body_trace env output_config w :
  trace (snd (graph_body env output_config w)) =
    trace w ++ stream_events env output_config.
Proof.
  unfold graph_body, stream_events.
  pose proof (consume_stream_fst (graph_chunks env) None w) as Hf.
  pose proof (consume_stream_trace (graph_chunks env) None w) as Ht.
  destruct (consume_stream (graph_chunks env) None w) as [o w1] eqn:E.
  simpl in Hf, Ht. subst o. rewrite (bind_Ok _ _ _ _ _ E).
  destruct (graph_failure env) as [msg|].
  { rewrite bind_raise. simpl. by rewrite Ht, app_nil_r. }
  rewrite bind_ret.
  destruct (last_snapshot (graph_chunks env)) as [st|];
    [|simpl; by rewrite Ht, app_nil_r].
  unfold bind at 1. rewrite stderr_events_spec.
  destruct (needs_structure output_config).
  - unfold call_outputter, try_except, bind, emit, raise, ret.
    destruct (outputter env); simpl; rewrite Ht.
    + by list_norm.
    + by list_norm.
  - rewrite bind_ret. simpl. rewrite Ht, app_nil_r. by list_norm.
Qed.

(** The traced part of a run, cut at the end of its [try] block. *)
Lemma run_traced_anatomy env context goal test_name out output_config w :
  let o := graph_outcome env output_config in
  exists w2,
    trace w2 = trace w ++ setup_events env test_name out ++
               EvGetGraph (engine_call env context goal test_name) ::
               stream_events env output_config /\
    dirs w2 = dirs (setup_world env test_name out w) /\
    results_sink w2 = results_sink w /\
    run_traced env context goal test_name out output_config w =
      conclude o
        (finalize_trace env test_name (temp_path env test_name)
           (output_path env test_name out) (time_time env) (success_of o) w2).
Proof.
  intros o. rewrite run_traced_eq. fold o.
  set (w1 := add_events [EvGetGraph (engine_call env context goal test_name)]
               (setup_world env test_name out w)).
  exists (snd (graph_body env output_config w1)).
  destruct (graph_body_world env output_config w1) as (Hd & Hr & _).
  repeat split.
  - rewrite graph_body_trace. subst w1. simpl. rewrite setup_world_trace.
    by list_norm.
  - by rewrite Hd.
  - rewrite Hr. subst w1. simpl. by rewrite setup_world_results.
Qed.

Lemma bootstrap_event_setup settings device e :
  bootstrap_event settings device e = true -> setup_event e = true.
Proof.
  destruct e; simpl; try done; rewrite ?andb_true_iff; try tauto.
  all: try by intros [_ ->].
Qed.

Lemma prelude_setup settings device boot :
  Forall (fun e => bootstrap_event settings device e = true) boot ->
  Forall (fun e => setup_event e = true) (prelude boot).
Proof.
  intros HF. unfold prelude. constructor; [done|].
  apply Forall_app. split; [|by repeat constructor].
  eapply Forall_impl; [exact HF|apply bootstrap_event_setup].
Qed.

Lemma not_past (phase : Event -> bool) evs :
  Forall (fun e => phase e = true) evs -> ~ past phase evs.
Proof.
  intros HF (e & Hin & He). rewrite Forall_forall in HF.
  specialize (HF _ Hin). congruence.
Qed.

(** A run that went past its setup has a device, a bootstrap that
    succeeded and an answer of the screen API, and continues with the
    traced part. *)
Lemma run_automation_traced fuel env goal test_name out output_config w :
  let r := run_automation fuel env goal test_name out output_config w in
  past setup_event (events_since w (snd r)) ->
  exists device boot screen_data,
    get_first_device_id env = Some device /\ truthy_str device = true /\
    Forall (fun e => bootstrap_event (settings env) device e = true) boot /\
    0 < count_ev is_run_servers boot /\
    count_ev is_backoff boot + 1 = count_ev is_run_servers boot /\
    paused_between boot /\
    get_screen_data env = inr screen_data /\
    r = run_traced env (context_of env device screen_data) goal test_name out
          output_config (add_events (prelude boot) w).
Proof.
  intros r Hpast.
  destruct (run_automation_anatomy fuel env goal test_name out output_config w)
    as [[_ E]|(device & boot & Hdev & Htr & HF & Hrs & Hbo & Hpb & Hend)];
    fold r in E || fold r in Hend.
  { exfalso. revert Hpast. rewrite E. cbn [snd]. rewrite events_since_add.
    apply not_past. by repeat constructor. }
  pose proof (prelude_setup _ _ _ HF) as HFp.
  assert (Forall (fun e => setup_event e = true) (EvGetFirstDeviceId :: boot)) as HFb.
  { constructor; [done|].
    eapply Forall_impl; [exact HF|apply bootstrap_event_setup]. }
  destruct Hend as [E|[E|[(msg & _ & E)|(sd & Hsd & E)]]].
  - exfalso. revert Hpast. rewrite E. cbn [snd]. rewrite events_since_add.
    by apply not_past.
  - exfalso. revert Hpast. rewrite E. cbn [snd]. rewrite events_since_add.
    by apply not_past.
  - exfalso. revert Hpast. rewrite E. cbn [snd]. rewrite events_since_add.
    by apply not_past.
  - by exists device, boot, sd.
Qed.

Lemma resolve_output_records l w :
  exists res,
    fst (resolve_output l w) = Ok res /\
    trace (snd (resolve_output l w)) = trace w ++ (EvRecordResult <$> recorded res) /\
    results_sink (snd (resolve_output l w)) = results_sink w ++ recorded res.
Proof.
  unfold resolve_output, thought_result.
  destruct (structured_output l) as [[|kv p]|]; cbn [truthy_list].
  2:{ exists (Structured (kv :: p)). by cbn. }
  all: destruct (last_state l) as [st|];
    [destruct (last (agents_thoughts st)) as [last_msg|]|];
    first [exists (Thought last_msg); by cbn
          |exists NoResult; cbn; by rewrite !app_nil_r].
Qed.

(** What the end of a run records: the result it returns, if any. *)
Lemma conclude_records o f :
  exists rs,
    trace (snd (conclude o f)) = trace (snd f) ++ (EvRecordResult <$> rs) /\
    results_sink (snd (conclude o f)) = results_sink (snd f) ++ rs /\
    rs = match fst (conclude o f) with Ok res => recorded res | _ => [] end.
Proof.
  unfold conclude.
  destruct (fst f) as [[]|e|]; [|exists []; cbn; by rewrite !app_nil_r..].
  destruct o as [[|l]|e|]; [exists []; cbn; by rewrite !app_nil_r|
                             |exists []; cbn; by rewrite !app_nil_r..].
  destruct (resolve_output_records l (snd f)) as (res & Hf & Ht & Hs).
  exists (recorded res). by rewrite Hf.
Qed.

(** The events of the traced part. *)
Lemma run_traced_events env context goal test_name out output_config w :
  let r := run_traced env context goal test_name out output_config w in
  exists fevs rs,
    trace (snd r) =
      trace w ++ setup_events env test_name out ++
      EvGetGraph (engine_call env context goal test_name) ::
      stream_events env output_config ++ fevs ++ (EvRecordResult <$> rs) /\
    Forall (fun e => final_event e = true) fevs /\
    rs = match fst r with Ok res => recorded res | _ => [] end /\
    results_sink (snd r) = results_sink w ++ rs.
Proof.
  intros r. subst r.
  destruct (run_traced_anatomy env context goal test_name out output_config w)
    as (w2 & Et & _ & Hr & E).
  rewrite E.
  set (o := graph_outcome env output_config).
  set (f := finalize_trace _ _ _ _ _ _ w2).
  destruct (finalize_trace_outcome env test_name (temp_path env test_name)
              (output_path env test_name out) (success_of o) w2)
    as (_ & Hsink & (fevs & Etf & HFf)).
  fold f in Etf, Hsink.
  destruct (conclude_records o f) as (rs & Ect & Hcs & Hrs).
  exists fevs, rs. split; [|split; [done|split; [done|]]].
  - rewrite Ect, Etf, Et. by list_norm.
  - by rewrite Hcs, Hsink, Hr.
Qed.

(** The events of a run, phase by phase. *)
Lemma run_automation_events fuel env goal test_name out output_config w :
  let r := run_automation fuel env goal test_name out output_config w in
  let evs := events_since w (snd r) in
  (truthy_opt_str (get_first_device_id env) = false /\
   evs = [EvGetFirstDeviceId]) \/
  exists device boot,
    get_first_device_id env = Some device /\ truthy_str device = true /\
    Forall (fun e => bootstrap_event (settings env) device e = true) boot /\
    0 < count_ev is_run_servers boot /\
    count_ev is_backoff boot + 1 = count_ev is_run_servers boot /\
    paused_between boot /\
    (evs = EvGetFirstDeviceId :: boot \/
     ((exists msg, get_screen_data env = inl msg) /\ evs = prelude boot) \/
     (exists screen_data fevs rs,
        get_screen_data env = inr screen_data /\
        evs = prelude boot ++ setup_events env test_name out ++
              EvGetGraph (engine_call env (context_of env device screen_data)
                            goal test_name) ::
              stream_events env output_config ++ fevs ++ (EvRecordResult <$> rs) /\
        Forall (fun e => final_event e = true) fevs /\
        rs = match fst r with Ok res => recorded res | _ => [] end /\
        results_sink (snd r) = results_sink w ++ rs)).
Proof.
  intros r evs. subst evs r.
  destruct (run_automation_anatomy fuel env goal test_name out output_config w)
    as [[Hno E]|(device & boot & Hdev & Htr & HF & Hrs & Hbo & Hpb & Hend)].
  { left. split; [done|]. rewrite E. cbn [snd]. by rewrite events_since_add. }
  right. exists device, boot. do 6 (split; [done|]).
  destruct Hend as [E|[E|[(msg & Hsd & E)|(sd & Hsd & E)]]]; rewrite E.
  - left. cbn [snd]. by rewrite events_since_add.
  - left. cbn [snd]. by rewrite events_since_add.
  - right. left. split; [by exists msg|]. cbn [snd]. by rewrite events_since_add.
  - right. right.
    destruct (run_traced_events env (context_of env device sd) goal test_name out
                output_config (add_events (prelude boot) w))
      as (fevs & rs & Et & HFf & Hrec & Hsink).
    exists sd, fevs, rs. split; [done|]. split; [|done].
    apply events_since_trace. rewrite Et. simpl. by list_norm.
Qed.

(** The events of a run: the lookup, the bootstrap, and what follows it. *)
Lemma run_automation_split fuel env goal test_name out output_config w :
  exists boot rest,
    events_since w
      (snd (run_automation fuel env goal test_name out output_config w)) =
      EvGetFirstDeviceId :: boot ++ rest /\
    (forall e, e ∈ boot ->
       exists device,
         get_first_device_id env = Some device /\ truthy_str device = true /\
         bootstrap_event (settings env) device e = true) /\
    count_ev is_backoff boot = count_ev is_run_servers boot - 1 /\
    paused_between boot /\
    Forall (fun e => after_bootstrap e = true) rest.
Proof.
  destruct (run_automation_events fuel env goal test_name out output_config w)
    as [[_ ->]|(device & boot & Hdev & Htr & HF & Hrs & Hbo & Hpb & Hend)].
  { exists [], []. split; [done|]. split; [set_solver|]. split; [done|].
    split; [by apply no_pause_paused_between|constructor]. }
  exists boot.
  assert (forall e, e ∈ boot ->
            exists device,
              get_first_device_id env = Some device /\ truthy_str device = true /\
              bootstrap_event (settings env) device e = true) as Hboot.
  { intros e Hin. exists device. rewrite Forall_forall in HF. auto. }
  destruct Hend as [->|[[_ ->]|(sd & fevs & revs & _ & -> & HFf & _)]].
  - exists []. rewrite app_nil_r. split; [done|]. split; [done|].
    split; [lia|]. split; [done|constructor].
  - exists [EvInitLlmConfig; EvGetScreenData]. split; [done|]. split; [done|].
    split; [lia|]. split; [done|by repeat constructor].
  - eexists. unfold prelude. split.
    { rewrite <- app_comm_cons, <- app_assoc. reflexivity. }
    split; [done|]. split; [lia|]. split; [done|].
    apply Forall_app_2; [by repeat constructor|].
    apply Forall_app_2;
      [eapply Forall_impl; [apply setup_events_traced|]; intros e; by destruct e|].
    constructor; [done|].
    apply Forall_app_2; [|apply Forall_app_2].
    + unfold stream_events. apply Forall_app_2.
      * apply Forall_fmap, Forall_forall. by intros.
      * destruct (graph_failure env), (last_snapshot (graph_chunks env));
          try by constructor.
        apply Forall_app_2.
        -- unfold stderr_events. destruct (find _ _) as [[]|];
             by repeat constructor.
        -- destruct (needs_structure output_config); by repeat constructor.
    + eapply Forall_impl; [exact HFf|]. intros e. by destruct e.
    + apply Forall_fmap, Forall_forall. by intros.
Qed.

(** A property of every event a run can add holds of all the events of
    the run. *)
Lemma run_automation_all (P : Event -> bool) fuel env goal test_name out
    output_config w :
  P EvGetFirstDeviceId = true ->
  (forall device e,
     get_first_device_id env = Some device -> truthy_str device = true ->
     bootstrap_event (settings env) device e = true -> P e = true) ->
  (forall e, after_bootstrap e = true -> P e = true) ->
  Forall (fun e => P e = true)
    (events_since w
       (snd (run_automation fuel env goal test_name out output_config w))).
Proof.
  intros H0 Hboot Hafter.
  destruct (run_automation_split fuel env goal test_name out output_config w)
    as (boot & rest & -> & HFb & _ & _ & HFr).
  constructor; [done|]. apply Forall_app_2.
  - apply Forall_forall. intros e Hin.
    destruct (HFb e Hin) as (device & Hdev & Htr & He). by apply (Hboot device).
  - eapply Forall_impl; [exact HFr|exact Hafter].
Qed.

(** ** The bootstrap of a run *)

(** X7.  Without a device ([get_first_device_id] returns nothing, or an
    empty id) the run returns no result right after the lookup: no server
    is started and nothing else happens.  With a device, [run_servers] is
    called for it at least once. *)
Theorem no_device_no_run fuel env goal test_name out output_config w :
  let r := run_automation fuel env goal test_name out output_config w in
  (truthy_opt_str (get_first_device_id env) = false ->
   r = (Ok NoResult, add_events [EvGetFirstDeviceId] w)) /\
  (truthy_opt_str (get_first_device_id env) = true ->
   exists device,
     get_first_device_id env = Some device /\
     EvRunServers device ∈ events_since w (snd r)).
Proof.
  intros r. subst r. split.
  - intros Hno.
    destruct (run_automation_anatomy fuel env goal test_name out output_config w)
      as [[_ E]|(device & boot & Hdev & Htr & _)]; [done|].
    rewrite Hdev in Hno. simpl in Hno. congruence.
  - intros Hyes.
    destruct (run_automation_events fuel env goal test_name out output_config w)
      as [[Hno _]|(device & boot & Hdev & Htr & HF & Hrs & _ & _ & Hend)];
      [congruence|].
    exists device. split; [done|].
    apply count_ev_witness in Hrs as (e & Hin & He).
    rewrite Forall_forall in HF. specialize (HF _ Hin).
    destruct e; try done. simpl in HF. apply bool_decide_eq_true in HF as ->.
    destruct Hend as [->|[[_ ->]|(sd & fevs & revs & _ & -> & _)]];
      unfold prelude; set_solver.
Qed.

Lemma no_device_no_run_witness :
  run_automation 5 unnamed_device_env "open settings" (Some "smoke") "traces"
    None empty_world = (Ok NoResult, add_events [EvGetFirstDeviceId] empty_world).
Proof.
  apply (proj1 (no_device_no_run 5 unnamed_device_env "open settings"
                  (Some "smoke") "traces" None empty_world)).
  reflexivity.
Defined.

(** X8.  The status poll has no time limit, and neither has the run: when
    the bridge of the first attempt answers STARTING forever, the run polls
    it for as long as it is given, one read and one sleep per unit of fuel,
    and never returns.  There is no second attempt, no pause, and the
    engine is never invoked. *)
Theorem stuck_bridge_blocks_run fuel env goal test_name out output_config w
    device bridge :
  get_first_device_id env = Some device -> truthy_str device = true ->
  manages_bridge (settings env) = true ->
  start_device_hardware_bridge (servers env 0) = Some bridge ->
  (forall i, status (bridge i) = STARTING) ->
  run_automation fuel env goal test_name out output_config w =
    (Diverge,
     add_events
       (EvGetFirstDeviceId :: EvRunServers device :: EvStartBridge device ::
        poll_rounds fuel) w).
Proof.
  intros Hdev Htr Hm Hb Hs. unfold run_automation.
  rewrite bind_emit, Hdev, Htr. cbn [negb].
  apply bind_Diverge. cbn [restart_loop max_restart_attempts Nat.sub].
  apply bind_Diverge. unfold run_servers. fold (manages_bridge (settings env)).
  rewrite Hm, !bind_emit, Hb.
  apply bind_Diverge. rewrite poll_starting_forever by done.
  by rewrite !add_events_app.
Qed.

Lemma stuck_bridge_blocks_run_witness :
  run_automation 3 stuck_env "open settings" None "traces" None empty_world =
    (Diverge,
     add_events
       [EvGetFirstDeviceId; EvRunServers "emulator-5554";
        EvStartBridge "emulator-5554"; EvGetStatus; EvSleep 1; EvGetStatus;
        EvSleep 1; EvGetStatus; EvSleep 1] empty_world).
Proof.
  apply (stuck_bridge_blocks_run 3 stuck_env "open settings" None "traces" None
           empty_world "emulator-5554" bridge_stuck);
    reflexivity.
Defined.

(** X9.  When the screen data query raises, its exception leaves the run
    as it is, right after the query: nothing is caught, no server is
    stopped after the failure, no directory is made, the engine is not
    invoked and nothing but the trace of events changes.  A run in such an
    environment that does not get to the query returns no result or never
    returns. *)
Theorem screen_data_failure_propagates fuel env goal test_name out
    output_config w msg :
  let r := run_automation fuel env goal test_name out output_config w in
  let evs := events_since w (snd r) in
  get_screen_data env = inl msg ->
  Forall (fun e => setup_event e = true) evs /\
  snd r = add_events evs w /\
  (EvGetScreenData ∈ evs ->
   fst r = Raise (ScreenDataFailure msg) /\
   exists pre, evs = pre ++ [EvInitLlmConfig; EvGetScreenData]) /\
  (EvGetScreenData ∉ evs -> fst r = Ok NoResult \/ fst r = Diverge).
Proof.
  intros r evs Hsd. subst evs r.
  destruct (run_automation_anatomy fuel env goal test_name out output_config w)
    as [[_ E]|(device & boot & Hdev & Htr & HF & _ & _ & _ & Hend)].
  { rewrite E. cbn [fst snd]. rewrite events_since_add.
    split; [by repeat constructor|]. split; [done|].
    split; [set_solver|by left]. }
  pose proof (prelude_setup _ _ _ HF) as HFp.
  assert (Forall (fun e => setup_event e = true) (EvGetFirstDeviceId :: boot)) as HFb.
  { constructor; [done|].
    eapply Forall_impl; [exact HF|apply bootstrap_event_setup]. }
  assert (EvGetScreenData ∉ EvGetFirstDeviceId :: boot) as Hnot.
  { intros [|Hin]%elem_of_cons; [done|].
    rewrite Forall_forall in HF. by specialize (HF _ Hin). }
  destruct Hend as [E|[E|[(msg' & Hsd' & E)|(sd & Hsd' & _)]]];
    [| | |congruence]; rewrite E; cbn [fst snd]; rewrite events_since_add.
  - split; [done|]. split; [done|]. split; [done|auto].
  - split; [done|]. split; [done|]. split; [done|auto].
  - rewrite Hsd in Hsd'. injection Hsd' as <-.
    split; [done|]. split; [done|]. split.
    + intros _. split; [done|]. by exists (EvGetFirstDeviceId :: boot).
    + intros Hn. exfalso. apply Hn. unfold prelude. set_solver.
Qed.

Lemma screen_data_failure_propagates_witness :
  fst (run_automation 5 no_screen_data_env "open settings" (Some "smoke") "traces"
         None empty_world) = Raise (ScreenDataFailure "connection refused").
Proof.
  refine (proj1 (proj1 (proj2 (proj2
            (screen_data_failure_propagates 5 no_screen_data_env "open settings"
               (Some "smoke") "traces" None empty_world "connection refused"
               eq_refl))) _)).
  vm_compute.
  repeat (first [apply list_elem_of_here | apply list_elem_of_further]).
Defined.

(** X10.  A run leaves the services it does not manage alone.  Every
    [stop_servers] request names exactly the services without a configured
    base URL; a screen API with a base URL is never started or terminated;
    a bridge with a base URL is never started or polled. *)
Theorem external_services_untouched fuel env goal test_name out output_config w :
  let evs := events_since w
               (snd (run_automation fuel env goal test_name out output_config w)) in
  (forall device_screen_api device_hardware_bridge,
     EvStopServers device_screen_api device_hardware_bridge ∈ evs ->
     device_screen_api =
       negb (truthy_opt_str (DEVICE_SCREEN_API_BASE_URL (settings env))) /\
     device_hardware_bridge =
       negb (truthy_opt_str (DEVICE_HARDWARE_BRIDGE_BASE_URL (settings env)))) /\
  (truthy_opt_str (DEVICE_SCREEN_API_BASE_URL (settings env)) = true ->
   (EvStartScreenApi ∉ evs) /\ (EvTerminateApi ∉ evs)) /\
  (truthy_opt_str (DEVICE_HARDWARE_BRIDGE_BASE_URL (settings env)) = true ->
   (forall device, EvStartBridge device ∉ evs) /\ (EvGetStatus ∉ evs)).
Proof.
  intros evs.
  assert (Forall (fun e => respects_settings (settings env) e = true) evs) as HF.
  { apply run_automation_all; [done| |].
    - intros device e _ _. destruct e; simpl; try done;
        rewrite ?andb_true_iff; tauto.
    - intros e. by destruct e. }
  rewrite Forall_forall in HF.
  fold (manages_screen_api (settings env)). fold (manages_bridge (settings env)).
  split; [|split].
  - intros a b Hin. specialize (HF _ Hin). simpl in HF.
    apply andb_true_iff in HF as [Ha Hb].
    by apply bool_decide_eq_true in Ha, Hb.
  - intros Hurl.
    split; intros Hin; specialize (HF _ Hin); simpl in HF;
      unfold manages_screen_api in HF; by rewrite Hurl in HF.
  - intros Hurl.
    split; [intros device|]; intros Hin; specialize (HF _ Hin); simpl in HF;
      unfold manages_bridge in HF; by rewrite Hurl in HF.
Qed.

Lemma external_services_untouched_witness :
  EvStopServers true false ∈
    events_since empty_world
      (snd (run_automation 5 flaky_health_env "is wifi on?" None "traces" None
              empty_world)) /\
  true = negb (truthy_opt_str (DEVICE_SCREEN_API_BASE_URL (settings flaky_health_env))) /\
  false = negb (truthy_opt_str (DEVICE_HARDWARE_BRIDGE_BASE_URL (settings flaky_health_env))).
Proof.
  assert (EvStopServers true false ∈
            events_since empty_world
              (snd (run_automation 5 flaky_health_env "is wifi on?" None "traces"
                      None empty_world))) as Hin.
  { vm_compute.
    repeat (first [apply list_elem_of_here | apply list_elem_of_further]). }
  split; [exact Hin|].
  exact (proj1 (external_services_untouched 5 flaky_health_env "is wifi on?" None
                  "traces" None empty_world) true false Hin).
Defined.



(** X12.  The pauses of the restart loop stand between attempts: a run
    that calls [run_servers] [n] times pauses [n - 1] times, every pause
    has an attempt before it and another one after it, and no run pauses
    more than twice. *)
Theorem pauses_between_attempts fuel env goal test_name out output_config w :
  let evs := events_since w
               (snd (run_automation fuel env goal test_name out output_config w)) in
  count_ev is_backoff evs = count_ev is_run_servers evs - 1 /\
  count_ev is_backoff evs <= 2 /\
  forall pre post,
    evs = pre ++ EvSleep 3 :: post ->
    0 < count_ev is_run_servers pre /\ 0 < count_ev is_run_servers post.
Proof.
  intros evs.
  pose proof (run_automation_run_servers_count fuel env goal test_name out
                output_config w) as Hmax.
  fold evs in Hmax. unfold max_restart_attempts in Hmax. subst evs.
  destruct (run_automation_split fuel env goal test_name out output_config w)
    as (boot & rest & E & _ & Hbo & Hpb & HFr).
  rewrite E in *. clear E.
  assert (count_ev is_backoff rest = 0) as Hb0.
  { apply count_ev_none. eapply Forall_impl; [exact HFr|]. intros e. by destruct e. }
  assert (count_ev is_run_servers rest = 0) as Hr0.
  { apply count_ev_none. eapply Forall_impl; [exact HFr|]. intros e. by destruct e. }
  cbn [count_ev is_backoff is_run_servers] in *.
  rewrite !count_ev_app in *. cbn [Nat.add] in *.
  split; [lia|]. split; [lia|].
  intros pre post Hcut. destruct pre as [|e pre]; [done|].
  injection Hcut as <- Hcut.
  assert (exists post', boot = pre ++ EvSleep 3 :: post' /\ post = post' ++ rest)
    as (post' & -> & ->).
  { clear - Hcut Hb0. apply count_zero_forall in Hb0.
    revert boot Hcut. induction pre as [|a pre IH]; intros boot Hcut.
    - destruct boot as [|b boot]; simpl in Hcut.
      + rewrite Hcut in Hb0. apply Forall_cons in Hb0 as [Hb0 _]. done.
      + injection Hcut as -> <-. by exists boot.
    - destruct boot as [|b boot]; simpl in Hcut.
      + exfalso. rewrite Hcut in Hb0. apply Forall_cons in Hb0 as [_ Hb0].
        apply Forall_app in Hb0 as [_ Hb0].
        apply Forall_cons in Hb0 as [Hb0 _]. done.
      + injection Hcut as -> Hcut. destruct (IH _ Hcut) as (post' & -> & ->).
        by exists post'. }
  destruct (Hpb pre post' eq_refl) as [Hpre Hpost].
  cbn [count_ev is_run_servers]. rewrite count_ev_app. split; lia.
Qed.

Lemma pauses_between_attempts_witness :
  let evs := events_since empty_world
               (snd (run_automation 5 successful_run "open settings" None "traces"
                       None empty_world)) in
  0 < count_ev is_run_servers (take 3 evs) /\
  0 < count_ev is_run_servers (drop 4 evs).
Proof.
  intros evs.
  apply (proj2 (proj2 (pauses_between_attempts 5 successful_run "open settings"
                         None "traces" None empty_world)) (take 3 evs) (drop 4 evs)).
  vm_compute. reflexivity.
Defined.

(** ** The engine and its stream *)

(** A run that invoked the engine did so once, after its setup. *)
Lemma run_automation_engine fuel env goal test_name out output_config w :
  let evs := events_since w
               (snd (run_automation fuel env goal test_name out output_config w)) in
  Forall (fun e => is_engine e = false) evs \/
  exists device screen_data pre post,
    get_first_device_id env = Some device /\
    get_screen_data env = inr screen_data /\
    evs = pre ++ EvGetGraph (engine_call env (context_of env device screen_data)
                               goal test_name) :: post /\
    Forall (fun e => is_engine e = false) pre /\
    Forall (fun e => is_engine e = false) post.
Proof.
  intros evs. subst evs.
  destruct (run_automation_events fuel env goal test_name out output_config w)
    as [[_ ->]|(device & boot & Hdev & _ & HF & _ & _ & _ & Hend)];
    [left; by repeat constructor|].
  pose proof (prelude_setup _ _ _ HF) as HFp.
  assert (Forall (fun e => is_engine e = false) (prelude boot)) as Hp
    by (eapply Forall_impl; [exact HFp|apply setup_event_not_engine]).
  destruct Hend as [->|[[_ ->]|(sd & fevs & rs & Hsd & -> & HFf & _)]].
  - left. constructor; [done|]. eapply Forall_impl; [exact HF|].
    intros e He. by apply setup_event_not_engine,
      (bootstrap_event_setup (settings env) device).
  - by left.
  - right. exists device, sd, (prelude boot ++ setup_events env test_name out),
      (stream_events env output_config ++ fevs ++ (EvRecordResult <$> rs)).
    split; [done|]. split; [done|]. split; [by rewrite <- app_assoc|]. split.
    + apply Forall_app_2; [done|].
      eapply Forall_impl; [apply setup_events_mkdir|]. intros e. by destruct e.
    + apply Forall_app_2; [|apply Forall_app_2].
      * unfold stream_events. apply Forall_app_2.
        -- apply Forall_fmap, Forall_forall. by intros.
        -- destruct (graph_failure env), (last_snapshot (graph_chunks env));
             try by constructor.
           apply Forall_app_2.
           ++ unfold stderr_events. destruct (find _ _) as [[]|];
                by repeat constructor.
           ++ destruct (needs_structure output_config); by repeat constructor.
      * eapply Forall_impl; [exact HFf|]. intros e. by destruct e.
      * apply Forall_fmap, Forall_forall. by intros.
Qed.

(** X13.  A run invokes the planning engine at most once, and always the
    same way: the context is the one [get_mobile_use_context] built for the
    device that was found, with the trace id set to the test name exactly
    when a test name was given (and is not empty); the input is the fresh
    state for the goal, with no message and no thought; the recursion limit
    is RECURSION_LIMIT, which is also the number of remaining steps of the
    input. *)
Theorem engine_invocation fuel env goal test_name out output_config w :
  let evs := events_since w
               (snd (run_automation fuel env goal test_name out output_config w)) in
  count_ev is_engine evs <= 1 /\
  forall call, EvGetGraph call ∈ evs ->
    call_input call = initial_state env goal /\
    call_recursion_limit call = RECURSION_LIMIT env /\
    remaining_steps (call_input call) = call_recursion_limit call /\
    exists device_id context,
      get_first_device_id env = Some device_id /\
      (forall w', fst (get_mobile_use_context env device_id w') = Ok context) /\
      call_context call =
        {| device := device context;
           execution_setup :=
             if truthy_opt_str test_name
             then Some {| trace_id := fstr test_name |} else None |}.
Proof.
  intros evs. subst evs.
  destruct (run_automation_engine fuel env goal test_name out output_config w)
    as [HF|(device & sd & pre & post & Hdev & Hsd & -> & Hpre & Hpost)].
  { split; [rewrite count_ev_none by done; lia|].
    intros call Hin. rewrite Forall_forall in HF. by specialize (HF _ Hin). }
  split.
  { rewrite count_ev_app. cbn [count_ev is_engine].
    rewrite !count_ev_none by done. lia. }
  intros call Hin. rewrite elem_of_app, elem_of_cons in Hin.
  rewrite Forall_forall in Hpre, Hpost.
  destruct Hin as [Hin|[Hin|Hin]];
    [by specialize (Hpre _ Hin)| |by specialize (Hpost _ Hin)].
  injection Hin as ->. split; [done|]. split; [done|]. split; [done|].
  exists device, (context_of env device sd). split; [done|]. split.
  - intros w'. by rewrite get_mobile_use_context_eq, Hsd.
  - unfold engine_call. cbn [call_context].
    by destruct (truthy_opt_str test_name).
Qed.

Lemma engine_invocation_witness :
  exists call,
    EvGetGraph call ∈
      events_since empty_world
        (snd (run_automation 5 successful_run "open settings" (Some "smoke")
                "traces" None empty_world)) /\
    execution_setup (call_context call) = Some {| trace_id := "smoke" |} /\
    agents_thoughts (call_input call) = [].
Proof.
  pose (call := engine_call successful_run
                  (context_of successful_run "emulator-5554" pixel)
                  "open settings" (Some "smoke")).
  assert (EvGetGraph call ∈
            events_since empty_world
              (snd (run_automation 5 successful_run "open settings" (Some "smoke")
                      "traces" None empty_world))) as Hin.
  { vm_compute.
    repeat (first [apply list_elem_of_here | apply list_elem_of_further]). }
  exists call. split; [exact Hin|].
  destruct (proj2 (engine_invocation 5 successful_run "open settings"
                     (Some "smoke") "traces" None empty_world) call Hin)
    as (Hinput & _ & _ & device_id & context & _ & _ & Hctx).
  split; [by rewrite Hctx|by rewrite Hinput].
Defined.

Lemma setup_event_not_stream e : setup_event e = true -> stream_event e = false.
Proof. by destruct e. Qed.

(** The stream events of a run are those of its [try] block. *)
Lemma run_automation_stream_cut fuel env goal test_name out output_config w :
  let evs := events_since w
               (snd (run_automation fuel env goal test_name out output_config w)) in
  (~ engine_invoked evs /\ Forall (fun e => stream_event e = false) evs) \/
  (engine_invoked evs /\
   exists pre post,
     evs = pre ++ stream_events env output_config ++ post /\
     Forall (fun e => stream_event e = false) pre /\
     Forall (fun e => stream_event e = false) post).
Proof.
  intros evs. subst evs.
  destruct (run_automation_events fuel env goal test_name out output_config w)
    as [[_ ->]|(device & boot & Hdev & _ & HF & _ & _ & _ & Hend)].
  { left. split; [|by repeat constructor]. intros [call Hin]. set_solver. }
  pose proof (prelude_setup _ _ _ HF) as HFp.
  assert (Forall (fun e => setup_event e = true) (EvGetFirstDeviceId :: boot)) as HFb.
  { constructor; [done|].
    eapply Forall_impl; [exact HF|apply bootstrap_event_setup]. }
  assert (forall l, Forall (fun e => setup_event e = true) l ->
            ~ engine_invoked l /\ Forall (fun e => stream_event e = false) l) as Hsetup.
  { intros l Hl. split.
    - intros [call Hin]. rewrite Forall_forall in Hl. by specialize (Hl _ Hin).
    - eapply Forall_impl; [exact Hl|apply setup_event_not_stream]. }
  destruct Hend as [->|[[_ ->]|(sd & fevs & rs & Hsd & -> & HFf & _)]];
    [left; by apply Hsetup..|].
  right.
  split; [exists (engine_call env (context_of env device sd) goal test_name);
          set_solver|].
  eexists (prelude boot ++ setup_events env test_name out ++ [EvGetGraph _]),
    (fevs ++ (EvRecordResult <$> rs)).
  split; [by list_norm|]. split.
  - apply Forall_app_2; [by apply Hsetup|]. apply Forall_app_2; [|by repeat constructor].
    eapply Forall_impl; [apply setup_events_mkdir|]. intros e. by destruct e.
  - apply Forall_app_2.
    + eapply Forall_impl; [exact HFf|]. intros e. by destruct e.
    + apply Forall_fmap, Forall_forall. by intros.
Qed.

Lemma omap_none {A B} (f : A -> option B) l :
  Forall (fun x => f x = None) l -> omap f l = [].
Proof. induction 1 as [|x l Hx _ IH]; simpl; [done|]. by rewrite Hx. Qed.

Lemma find_split {A} (P : A -> bool) l x :
  find P l = Some x ->
  exists pre post, l = pre ++ x :: post /\ Forall (fun y => P y = false) pre.
Proof.
  induction l as [|y l IH]; simpl; [done|].
  destruct (P y) eqn:Hy.
  - intros [= ->]. by exists [], l.
  - intros Hf. destruct (IH Hf) as (pre & post & -> & Hpre).
    exists (y :: pre), post. split; [done|by constructor].
Qed.

(** X14.  The recorder is called once for every snapshot of the stream,
    in stream order, each time with the whole thought list of that
    snapshot, also when the stream raises after them.  Tokens and custom
    events reach the recorder never, and a run that does not get to the
    engine records no thought. *)
Theorem recorder_called_per_snapshot fuel env goal test_name out output_config w :
  let evs := events_since w
               (snd (run_automation fuel env goal test_name out output_config w)) in
  (engine_invoked evs ->
   omap logged evs = agents_thoughts <$> omap snapshot_of (graph_chunks env)) /\
  (~ engine_invoked evs -> omap logged evs = []).
Proof.
  intros evs. subst evs.
  assert (forall l, Forall (fun e => stream_event e = false) l -> omap logged l = [])
    as Hnone.
  { intros l Hl. apply omap_none. eapply Forall_impl; [exact Hl|].
    intros e. by destruct e. }
  destruct (run_automation_stream_cut fuel env goal test_name out output_config w)
    as [[Hno HF]|(Hyes & pre & post & E & Hpre & Hpost)]; rewrite ?E in *.
  { split; [done|]. intros _. by apply Hnone. }
  split; [intros _|done].
  rewrite !omap_app, (Hnone pre), (Hnone post) by done.
  rewrite app_nil_r. cbn [app].
  unfold stream_events. rewrite omap_app.
  fold (thought_lists (graph_chunks env)).
  assert (omap logged (EvLogAgentThoughts <$> thought_lists (graph_chunks env)) =
          thought_lists (graph_chunks env)) as ->.
  { induction (thought_lists (graph_chunks env)) as [|l ls IH]; [done|].
    cbn. by rewrite IH. }
  rewrite omap_none; [by rewrite app_nil_r|].
  destruct (graph_failure env), (last_snapshot (graph_chunks env));
    try by constructor.
  apply Forall_app_2.
  - unfold stderr_events. destruct (find _ _) as [[]|]; by repeat constructor.
  - destruct (needs_structure output_config); by repeat constructor.
Qed.

Lemma recorder_called_per_snapshot_witness :
  omap logged
    (events_since empty_world
       (snd (run_automation 5 successful_run "open settings" None "traces" None
               empty_world))) =
  [["tap Settings"]; ["tap Settings"; "scroll down"]].
Proof.
  apply (proj1 (recorder_called_per_snapshot 5 successful_run "open settings"
                  None "traces" None empty_world)).
  eexists. vm_compute.
  repeat (first [apply list_elem_of_here | apply list_elem_of_further]).
Defined.

Lemma count_stream_events (Q : Event -> bool) fuel env goal test_name out
    output_config w :
  (forall e, stream_event e = false -> Q e = false) ->
  let evs := events_since w
               (snd (run_automation fuel env goal test_name out output_config w)) in
  (~ engine_invoked evs /\ Forall (fun e => Q e = false) evs) \/
  (engine_invoked evs /\
   count_ev Q evs = count_ev Q (stream_events env output_config) /\
   forall e, Q e = true -> e ∈ evs -> e ∈ stream_events env output_config).
Proof.
  intros HQ evs. subst evs.
  destruct (run_automation_stream_cut fuel env goal test_name out output_config w)
    as [[Hno HF]|(Hyes & pre & post & E & Hpre & Hpost)]; rewrite ?E in *.
  { left. split; [done|]. eapply Forall_impl; [exact HF|exact HQ]. }
  right. split; [done|].
  assert (Forall (fun e => Q e = false) pre) as Hp1
    by (eapply Forall_impl; [exact Hpre|exact HQ]).
  assert (Forall (fun e => Q e = false) post) as Hp2
    by (eapply Forall_impl; [exact Hpost|exact HQ]).
  split.
  - rewrite !count_ev_app, (count_ev_none _ pre), (count_ev_none _ post) by done. lia.
  - intros e He Hin. rewrite !elem_of_app in Hin.
    rewrite Forall_forall in Hp1, Hp2.
    destruct Hin as [Hin|[Hin|Hin]]; [|done|].
    + specialize (Hp1 _ Hin). congruence.
    + specialize (Hp2 _ Hin). congruence.
Qed.

(** X15.  The answer goes to stderr at most once per run, and only after
    a stream that ended normally with a snapshot: what is printed is the
    content of the most recent AI message of the last snapshot.  A stream
    that raises prints nothing. *)
Theorem stderr_answer fuel env goal test_name out output_config w :
  let evs := events_since w
               (snd (run_automation fuel env goal test_name out output_config w)) in
  count_ev is_stderr evs <= 1 /\
  (forall content, EvPrintStderr content ∈ evs ->
     graph_failure env = None /\
     exists graph_result pre post,
       last_snapshot (graph_chunks env) = Some graph_result /\
       messages graph_result = pre ++ AIMessage content :: post /\
       Forall (fun m => is_AIMessage m = false) post) /\
  (forall graph_result pre content post,
     engine_invoked evs -> graph_failure env = None ->
     last_snapshot (graph_chunks env) = Some graph_result ->
     messages graph_result = pre ++ AIMessage content :: post ->
     Forall (fun m => is_AIMessage m = false) post ->
     EvPrintStderr content ∈ evs).
Proof.
  intros evs. subst evs.
  assert (forall st,
            count_ev is_stderr (stderr_events st) <= 1 /\
            forall content, EvPrintStderr content ∈ stderr_events st ->
              exists pre post,
                messages st = pre ++ AIMessage content :: post /\
                Forall (fun m => is_AIMessage m = false) post) as Hst.
  { intros st. unfold stderr_events.
    destruct (find is_AIMessage (rev (messages st))) as [[c|c]|] eqn:E;
      cbn; (split; [lia|]); [|set_solver..].
    intros content [= ->]%list_elem_of_singleton.
    apply find_split in E as (pre & post & E & Hpre).
    exists (rev post), (rev pre). split; [|by apply Forall_rev].
    rewrite <- (rev_involutive (messages st)), E, rev_app_distr. cbn [rev].
    by rewrite <- app_assoc. }
  assert (count_ev is_stderr
            (EvLogAgentThoughts <$> thought_lists (graph_chunks env)) = 0) as Hlog.
  { apply count_ev_none, Forall_fmap, Forall_forall. by intros. }
  destruct (count_stream_events is_stderr fuel env goal test_name out output_config w)
    as [[Hno HF]|(Hyes & Hcount & Hin)]; [intros e; by destruct e| |].
  { split; [rewrite count_ev_none by done; lia|]. split; [|done].
    intros content Hc. rewrite Forall_forall in HF. by specialize (HF _ Hc). }
  rewrite Hcount. unfold stream_events in *. rewrite count_ev_app, Hlog.
  split; [|split].
  - destruct (graph_failure env), (last_snapshot (graph_chunks env)) as [st|];
      cbn; try lia.
    rewrite count_ev_app. destruct (Hst st) as [Hle _].
    destruct (needs_structure output_config); cbn; lia.
  - intros content Hc. apply Hin in Hc; [|done].
    rewrite elem_of_app in Hc. destruct Hc as [Hc|Hc].
    { apply list_elem_of_fmap in Hc as (l & [=] & _). }
    destruct (graph_failure env), (last_snapshot (graph_chunks env)) as [st|];
      try set_solver.
    split; [done|]. exists st.
    rewrite elem_of_app in Hc. destruct Hc as [Hc|Hc].
    + destruct (Hst st) as [_ Hsplit].
      destruct (Hsplit _ Hc) as (pre & post & ? & ?). by exists pre, post.
    + destruct (needs_structure output_config); set_solver.
  - intros st pre content post _ Hgf Hsnap Hm Hpost.
    assert (stderr_events st = [EvPrintStderr content]) as Est.
    { pose proof (print_ai_response_latest st pre content post w Hm Hpost) as Hp.
      rewrite stderr_events_spec in Hp. injection Hp as Hp.
      by apply app_inv_head in Hp. }
    destruct (run_automation_stream_cut fuel env goal test_name out output_config w)
      as [[Hno _]|(_ & pre' & post' & -> & _)]; [done|].
    unfold stream_events. rewrite Hgf, Hsnap, Est. set_solver.
Qed.

Lemma stderr_answer_witness :
  EvPrintStderr "wifi is on" ∈
    events_since empty_world
      (snd (run_automation 5 flaky_health_env "is wifi on?" None "traces" None
              empty_world)).
Proof.
  apply (proj2 (proj2 (stderr_answer 5 flaky_health_env "is wifi on?" None "traces"
                         None empty_world))
           conversation [AIMessage "opening settings"; OtherMessage "tapped"]
           "wifi is on" [OtherMessage "screenshot taken"]).
  - eexists. vm_compute.
    repeat (first [apply list_elem_of_here | apply list_elem_of_further]).
  - reflexivity.
  - reflexivity.
  - reflexivity.
  - repeat constructor.
Defined.

(** ** The outputter and the result *)

(** How a run that returns got its result. *)
Lemma run_automation_result fuel env goal test_name out output_config w res :
  fst (run_automation fuel env goal test_name out output_config w) = Ok res ->
  res = NoResult \/
  exists st w3,
    graph_failure env = None /\ last_snapshot (graph_chunks env) = Some st /\
    fst (resolve_output
           {| success := true; last_state := Some st;
              structured_output := produced_output env output_config |} w3) = Ok res.
Proof.
  destruct (run_automation_anatomy fuel env goal test_name out output_config w)
    as [[_ ->]|(device & boot & _ & _ & _ & _ & _ & _ & Hend)];
    [intros [= <-]; by left|].
  destruct Hend as [->|[->|[(msg & _ & ->)|(sd & _ & ->)]]];
    [intros [= <-]; by left|done|done|].
  destruct (run_traced_anatomy env (context_of env device sd) goal test_name out
              output_config (add_events (prelude boot) w)) as (w2 & _ & _ & _ & ->).
  unfold conclude, graph_outcome.
  destruct (fst (finalize_trace _ _ _ _ _ _ w2)) as [[]|e|]; [|done..].
  destruct (graph_failure env) as [msg|]; [done|].
  destruct (last_snapshot (graph_chunks env)) as [st|]; [|intros [= <-]; by left].
  intros Hres. right. by eexists st, _.
Qed.

Lemma count_outputter_stream env output_config :
  count_ev is_outputter (stream_events env output_config) =
    if needs_structure output_config then
      match graph_failure env, last_snapshot (graph_chunks env) with
      | None, Some _ => 1
      | _, _ => 0
      end
    else 0.
Proof.
  unfold stream_events. rewrite count_ev_app.
  rewrite (count_ev_none _ (_ <$> _))
    by (apply Forall_fmap, Forall_forall; by intros).
  destruct (graph_failure env), (last_snapshot (graph_chunks env)) as [st|];
    try by destruct (needs_structure output_config).
  rewrite count_ev_app. unfold stderr_events.
  destruct (find _ _) as [[]|]; by destruct (needs_structure output_config).
Qed.

Lemma outputter_called_only fuel env goal test_name out output_config w :
  EvOutputter ∈
    events_since w
      (snd (run_automation fuel env goal test_name out output_config w)) ->
  needs_structure output_config = true /\ graph_failure env = None /\
  last_snapshot (graph_chunks env) <> None.
Proof.
  intros Hin.
  destruct (count_stream_events is_outputter fuel env goal test_name out
              output_config w) as [[_ HF]|(_ & E & _)]; [intros e; by destruct e| |].
  - rewrite Forall_forall in HF. by specialize (HF _ Hin).
  - pose proof (count_ev_pos is_outputter _ EvOutputter eq_refl Hin) as Hpos.
    rewrite E, count_outputter_stream in Hpos.
    destruct (needs_structure output_config), (graph_failure env),
      (last_snapshot (graph_chunks env)); try lia. done.
Qed.

Lemma structured_result_origin fuel env goal test_name out output_config w payload :
  fst (run_automation fuel env goal test_name out output_config w) =
    Ok (Structured payload) ->
  needs_structure output_config = true /\ outputter env = inr payload /\
  payload <> [].
Proof.
  intros Hres.
  apply run_automation_result in Hres as [[=]|(st & w3 & _ & _ & Hres)].
  unfold resolve_output, thought_result, produced_output in Hres.
  cbn [structured_output last_state] in Hres.
  destruct (needs_structure output_config);
    [destruct (outputter env) as [m|[|kv p]]|]; cbn in Hres;
    try (destruct (last (agents_thoughts st)); by cbn in Hres).
  by injection Hres as <-.
Qed.

(** X16.  The outputter is called at most once per run, and only when a
    structured format is needed, after a stream that ended normally with
    a snapshot; it is then called exactly once.  A structured result is
    what the outputter returned, and is never empty; without a
    configuration that needs a structured format no run returns one. *)
Theorem outputter_on_demand fuel env goal test_name out output_config w :
  let r := run_automation fuel env goal test_name out output_config w in
  let evs := events_since w (snd r) in
  count_ev is_outputter evs <= 1 /\
  (EvOutputter ∈ evs ->
   needs_structure output_config = true /\ graph_failure env = None /\
   last_snapshot (graph_chunks env) <> None) /\
  (engine_invoked evs -> needs_structure output_config = true ->
   graph_failure env = None -> last_snapshot (graph_chunks env) <> None ->
   count_ev is_outputter evs = 1) /\
  (forall payload, fst r = Ok (Structured payload) ->
     needs_structure output_config = true /\ outputter env = inr payload /\
     payload <> []).
Proof.
  intros r evs. subst r evs.
  split; [|split; [|split]].
  - destruct (count_stream_events is_outputter fuel env goal test_name out
                output_config w) as [[_ HF]|(_ & -> & _)]; [intros e; by destruct e| |].
    + rewrite count_ev_none by done. lia.
    + rewrite count_outputter_stream.
      destruct (needs_structure output_config), (graph_failure env),
        (last_snapshot (graph_chunks env)); lia.
  - apply outputter_called_only.
  - intros Hyes Hneed Hgf Hsnap.
    destruct (count_stream_events is_outputter fuel env goal test_name out
                output_config w) as [[Hno _]|(_ & -> & _)];
      [intros e; by destruct e|done|].
    rewrite count_outputter_stream, Hneed, Hgf.
    by destruct (last_snapshot (graph_chunks env)).
  - intros payload. apply structured_result_origin.
Qed.

Lemma outputter_on_demand_witness :
  count_ev is_outputter
    (events_since empty_world
       (snd (run_automation 5 successful_run "open settings" None "traces"
               wants_structure empty_world))) = 1.
Proof.
  apply (proj1 (proj2 (proj2 (outputter_on_demand 5 successful_run "open settings"
                                None "traces" wants_structure empty_world)))).
  - eexists. vm_compute.
    repeat (first [apply list_elem_of_here | apply list_elem_of_further]).
  - reflexivity.
  - reflexivity.
  - discriminate.
Defined.

(** X17.  Whatever happens in a run, the results sink keeps what it held
    and gains exactly what the run returns: one entry when the run returns
    a structured payload or a thought, and nothing when it returns nothing,
    raises or never returns. *)
Theorem results_sink_gets_the_result fuel env goal test_name out output_config w :
  let r := run_automation fuel env goal test_name out output_config w in
  results_sink (snd r) =
    results_sink w ++ match fst r with Ok res => recorded res | _ => [] end.
Proof.
  intros r. subst r.
  destruct (run_automation_anatomy fuel env goal test_name out output_config w)
    as [[_ ->]|(device & boot & _ & _ & _ & _ & _ & _ & Hend)];
    [cbn; by rewrite app_nil_r|].
  destruct Hend as [->|[->|[(msg & _ & ->)|(sd & _ & ->)]]];
    [cbn; by rewrite app_nil_r..|].
  destruct (run_traced_events env (context_of env device sd) goal test_name out
              output_config (add_events (prelude boot) w))
    as (fevs & rs & _ & _ & -> & Hsink).
  exact Hsink.
Qed.

(** ** The directories of a run *)


Lemma finalize_trace_media_failure env test_name temp out start_time success w
    step msg :
  truthy_num start_time = true ->
  first_failure env media_steps = Some (step, msg) ->
  exists tried,
    finalize_trace env test_name (Some temp) (Some out) start_time success w =
      (Raise (MediaFailure step msg), add_events (tried ++ [EvMedia step temp]) w) /\
    Forall (fun e => is_media e = true) tried.
Proof.
  intros Hst. unfold finalize_trace, media_step, media_steps, first_failure.
  rewrite Hst. unfold bind, emit, raise, ret.
  destruct (media env CreateGif); [intros [= <- <-]; by exists []|].
  destruct (media env CreateStepsJson);
    [intros [= <- <-]; exists [EvMedia CreateGif temp]; cbn;
     rewrite !add_events_app; by repeat constructor|].
  destruct (media env RemoveImages);
    [intros [= <- <-];
     exists [EvMedia CreateGif temp; EvMedia CreateStepsJson temp]; cbn;
     rewrite !add_events_app; by repeat constructor|].
  destruct (media env RemoveStepsJson); [|done].
  intros [= <- <-].
  exists [EvMedia CreateGif temp; EvMedia CreateStepsJson temp;
          EvMedia RemoveImages temp]; cbn.
  rewrite !add_events_app. by repeat constructor.
Qed.

(** X19.  The finalization is not shielded.  In a run with a test name
    that got to the engine, when one of the media helpers raises, its
    exception is what the run ends with, whether the stream had succeeded
    or raised: no result is returned or recorded, the helpers after it and
    the rename are skipped, so the temp directory stays and no named
    directory appears, and the closing sleep is skipped too. *)
Theorem finalization_failure_masks_result fuel env goal test_name out
    output_config w step msg :
  let r := run_automation fuel env goal test_name out output_config w in
  let evs := events_since w (snd r) in
  let temp := traces_temp_dir env (fstr test_name) in
  truthy_opt_str test_name = true -> time_time env <> 0%Z ->
  engine_invoked evs ->
  first_failure env media_steps = Some (step, msg) ->
  fst r = Raise (MediaFailure step msg) /\
  results_sink (snd r) = results_sink w /\
  last evs = Some (EvMedia step temp) /\
  (forall src dst, EvRename src dst ∉ evs) /\
  count_ev is_closing_sleep evs = 0 /\
  dirs (snd r) = {[temp]} ∪ ({[resolve env out]} ∪ dirs w).
Proof.
  intros r evs temp Htn Htime Hengine Hfail. subst evs temp.
  destruct (run_automation_phases fuel env goal test_name out output_config w
              (engine_invoked_past_setup _ Hengine))
    as (w2 & pre & call & sevs & Et & HFe & HFs & Hd & Hr & E).
  fold r in E. rewrite E. clear E Hengine r.
  unfold temp_path, output_path. rewrite Htn.
  destruct (finalize_trace_media_failure env test_name
              (traces_temp_dir env (fstr test_name)) (resolve env out)
              (time_time env) (success_of (graph_outcome env output_config)) w2
              step msg (truthy_num_ne _ Htime) Hfail) as (tried & -> & HFt).
  unfold conclude. cbn [fst snd].
  pose proof (setup_events_mkdir env test_name out) as HFm.
  rewrite (events_since_trace _ _
             (pre ++ setup_events env test_name out ++ EvGetGraph call :: sevs ++
              tried ++ [EvMedia step (traces_temp_dir env (fstr test_name))]))
    by (cbn; rewrite Et; by list_norm).
  split; [done|]. split; [done|]. split; [|split; [|split]].
  - replace (pre ++ setup_events env test_name out ++ EvGetGraph call :: sevs ++
             tried ++ [EvMedia step (traces_temp_dir env (fstr test_name))])
      with ((pre ++ setup_events env test_name out ++ EvGetGraph call :: sevs ++
             tried) ++ [EvMedia step (traces_temp_dir env (fstr test_name))])
      by (by list_norm).
    by rewrite last_snoc.
  - intros src dst Hin.
    rewrite !elem_of_app, elem_of_cons, !elem_of_app in Hin.
    destruct Hin as [Hin|[Hin|[Hin|[Hin|[Hin|Hin]]]]].
    + by apply (Forall_bool_elem _ _ _ HFe) in Hin.
    + by apply (Forall_bool_elem _ _ _ HFm) in Hin.
    + done.
    + by apply (Forall_bool_elem _ _ _ HFs) in Hin.
    + by apply (Forall_bool_elem _ _ _ HFt) in Hin.
    + set_solver.
  - rewrite !count_ev_app. cbn [count_ev is_closing_sleep].
    rewrite !count_ev_app. cbn [count_ev is_closing_sleep].
    rewrite (count_ev_none _ pre), (count_ev_none _ (setup_events _ _ _)),
      (count_ev_none _ sevs), (count_ev_none _ tried); [done|..]; count_none.
  - cbn [dirs add_events]. by rewrite Hd, setup_world_dirs, Htn.
Qed.

Lemma finalization_failure_masks_result_witness :
  fst (run_automation 5 disk_full_env "is wifi on?" (Some "smoke") "traces" None
         empty_world) = Raise (MediaFailure RemoveImages "disk full").
Proof.
  refine (proj1 (finalization_failure_masks_result 5 disk_full_env "is wifi on?"
                   (Some "smoke") "traces" None empty_world RemoveImages "disk full"
                   eq_refl _ _ eq_refl)).
  - discriminate.
  - eexists. vm_compute.
    repeat (first [apply list_elem_of_here | apply list_elem_of_further]).
Defined.

(** X20.  The finalization is guarded by the start time as well (line
    293): in a run with a test name whose clock reads zero at the start,
    the trace is not compiled and not renamed.  The temp directory made at
    the setup stays, the closing sleep still takes place, and the result of
    the run is not affected. *)
Theorem zero_start_time_skips_finalization fuel env goal test_name out
    output_config w :
  let r := run_automation fuel env goal test_name out output_config w in
  let evs := events_since w (snd r) in
  let temp := traces_temp_dir env (fstr test_name) in
  truthy_opt_str test_name = true -> time_time env = 0%Z ->
  engine_invoked evs ->
  count_ev is_compile evs = 0 /\
  count_ev is_closing_sleep evs = 1 /\
  dirs (snd r) = {[temp]} ∪ ({[resolve env out]} ∪ dirs w) /\
  fst r <> Diverge /\
  (forall e, fst r = Raise e -> exists m, e = StreamingFailure m).
Proof.
  intros r evs temp Htn Htime Hengine. subst evs temp.
  destruct (run_automation_phases fuel env goal test_name out output_config w
              (engine_invoked_past_setup _ Hengine))
    as (w2 & pre & call & sevs & Et & HFe & HFs & Hd & Hr & E).
  fold r in E. rewrite E. clear E Hengine r.
  rewrite finalize_trace_skipped
    by (right; right; by rewrite Htime).
  set (o := graph_outcome env output_config).
  destruct (conclude_world o (Ok tt, add_events [EvAsyncSleep 1] w2))
    as (Hcd & (revs & Ect & HFr)).
  pose proof (setup_events_mkdir env test_name out) as HFm.
  rewrite (events_since_trace _ _
             (pre ++ setup_events env test_name out ++ EvGetGraph call :: sevs ++
              [EvAsyncSleep 1] ++ revs))
    by (rewrite Ect; cbn; rewrite Et; by list_norm).
  split; [|split; [|split; [|split]]].
  - rewrite !count_ev_app. cbn [count_ev is_compile]. rewrite !count_ev_app.
    cbn [count_ev is_compile].
    rewrite (count_ev_none _ pre), (count_ev_none _ (setup_events _ _ _)),
      (count_ev_none _ sevs), (count_ev_none _ revs); [done|..]; count_none.
  - rewrite !count_ev_app. cbn [count_ev is_closing_sleep]. rewrite !count_ev_app.
    cbn [count_ev is_closing_sleep].
    rewrite (count_ev_none _ pre), (count_ev_none _ (setup_events _ _ _)),
      (count_ev_none _ sevs), (count_ev_none _ revs); [done|..]; count_none.
  - rewrite Hcd. cbn [snd dirs add_events]. by rewrite Hd, setup_world_dirs, Htn.
  - unfold conclude, o, graph_outcome. cbn [fst snd].
    destruct (graph_failure env), (last_snapshot (graph_chunks env)) as [st|];
      try done.
    match goal with
    | |- fst (resolve_output ?l ?w3) <> _ =>
        destruct (resolve_output_records l w3) as (res & -> & _)
    end. done.
  - intros e. unfold conclude, o, graph_outcome. cbn [fst snd].
    destruct (graph_failure env) as [m|], (last_snapshot (graph_chunks env)) as [st|];
      try done; try (intros [= <-]; by exists m).
    match goal with
    | |- fst (resolve_output ?l ?w3) = _ -> _ =>
        destruct (resolve_output_records l w3) as (res & -> & _)
    end. done.
Qed.

Lemma zero_start_time_skips_finalization_witness :
  let r := run_automation 5 epoch_env "is wifi on?" (Some "smoke") "traces" None
             empty_world in
  count_ev is_compile (events_since empty_world (snd r)) = 0 /\
  "/app/mobile_use/../traces/smoke" ∈ dirs (snd r).
Proof.
  intros r.
  destruct (zero_start_time_skips_finalization 5 epoch_env "is wifi on?"
              (Some "smoke") "traces" None empty_world eq_refl eq_refl)
    as (Hnone & _ & Hdirs & _).
  - eexists. vm_compute.
    repeat (first [apply list_elem_of_here | apply list_elem_of_further]).
  - split; [exact Hnone|]. fold r in Hdirs. rewrite Hdirs.
    apply elem_of_union_l, elem_of_singleton. reflexivity.
Defined.

(** ** The order of the phases *)

(** X21.  A run that gets to the engine goes through its phases in one
    fixed order: the device lookup; the bootstrap (attempts, pauses and
    what [run_servers] does); the initialization of the LLM configuration
    and the screen data query, once each; with a test name, the making of
    the output root and of the temp directory; the invocation of the
    engine; the stream (recorder calls, the answer on stderr, the
    outputter); the finalization; and last the recording of the result, if
    there is one. *)
Theorem phases_in_order fuel env goal test_name out output_config w :
  let r := run_automation fuel env goal test_name out output_config w in
  let evs := events_since w (snd r) in
  engine_invoked evs ->
  exists boot call stream final,
    evs =
      EvGetFirstDeviceId :: boot ++ [EvInitLlmConfig; EvGetScreenData] ++
      (if truthy_opt_str test_name
       then [EvMkdir (resolve env out);
             EvMkdir (traces_temp_dir env (fstr test_name))]
       else []) ++
      EvGetGraph call :: stream ++ final ++
      (EvRecordResult <$> match fst r with Ok res => recorded res | _ => [] end) /\
    Forall (fun e => is_run_servers e || is_backoff e || service_event e = true) boot /\
    Forall (fun e => stream_event e = true) stream /\
    Forall (fun e => final_event e = true) final.
Proof.
  intros r evs Hengine. subst evs r.
  destruct (run_automation_events fuel env goal test_name out output_config w)
    as [[_ E]|(device & boot & _ & _ & HF & _ & _ & _ & Hend)].
  { exfalso. rewrite E in Hengine. destruct Hengine as [call Hin]. set_solver. }
  assert (forall l, Forall (fun e => setup_event e = true) l -> ~ engine_invoked l)
    as Hsetup.
  { intros l Hl [call Hin]. rewrite Forall_forall in Hl. by specialize (Hl _ Hin). }
  destruct Hend as [E|[[_ E]|(sd & fevs & rs & _ & E & HFf & -> & _)]].
  - exfalso. rewrite E in Hengine. revert Hengine. apply Hsetup.
    constructor; [done|].
    eapply Forall_impl; [exact HF|apply bootstrap_event_setup].
  - exfalso. rewrite E in Hengine. revert Hengine.
    by apply Hsetup, (prelude_setup (settings env) device).
  - eexists boot, _, (stream_events env output_config), fevs.
    split; [rewrite E; unfold prelude, setup_events; by list_norm|].
    split; [|split; [|done]].
    + eapply Forall_impl; [exact HF|]. intros e He.
      destruct e; try done; simpl in *.
      apply orb_true_iff in He as [->|He]; [done|].
      apply andb_true_iff in He as [-> _]. by rewrite orb_true_r.
    + unfold stream_events. apply Forall_app_2.
      * apply Forall_fmap, Forall_forall. by intros.
      * destruct (graph_failure env), (last_snapshot (graph_chunks env));
          try by constructor.
        apply Forall_app_2.
        -- unfold stderr_events. destruct (find _ _) as [[]|];
             by repeat constructor.
        -- destruct (needs_structure output_config); by repeat constructor.
Qed.

Lemma phases_in_order_witness :
  exists boot call stream final,
    events_since empty_world
      (snd (run_automation 5 successful_run "open settings" (Some "smoke")
              "traces" None empty_world)) =
      EvGetFirstDeviceId :: boot ++ [EvInitLlmConfig; EvGetScreenData] ++
      [EvMkdir "traces"; EvMkdir "/app/mobile_use/../traces/smoke"] ++
      EvGetGraph call :: stream ++ final ++ [EvRecordResult (Thought "scroll down")].
Proof.
  destruct (phases_in_order 5 successful_run "open settings" (Some "smoke")
              "traces" None empty_world)
    as (boot & call & stream & final & E & _).
  - eexists. vm_compute.
    repeat (first [apply list_elem_of_here | apply list_elem_of_further]).
  - exists boot, call, stream, final. exact E.
Defined.

(** ** [main] *)

(** X22.  [main] asks for a structured output only when it is given an
    output description that is not empty.  Without one it passes no output
    configuration on, and the run it starts never calls the outputter and
    never records a structured payload. *)
Theorem main_without_description fuel env needs_format goal test_name traces_path
    output_description w :
  let evs := events_since w
               (snd (main fuel env needs_format goal test_name traces_path
                       output_description w)) in
  truthy_opt_str output_description = false ->
  evs = events_since w
          (snd (run_automation fuel env goal test_name traces_path None w)) /\
  (EvOutputter ∉ evs) /\
  forall payload, EvRecordResult (Structured payload) ∉ evs.
Proof.
  intros evs Hno. subst evs. unfold main. rewrite Hno.
  assert (forall m : M RunResult, snd (bind m (fun _ => ret tt) w) = snd (m w)) as ->.
  { intros m. unfold bind. by destruct (m w) as [[| |] ?]. }
  split; [done|]. split.
  - intros Hin.
    by destruct (outputter_called_only fuel env goal test_name traces_path None w
                   Hin).
  - intros payload Hin.
    destruct (run_automation_events fuel env goal test_name traces_path None w)
      as [[_ E]|(device & boot & _ & _ & HF & _ & _ & _ & Hend)].
    { rewrite E in Hin. set_solver. }
    assert (forall l, Forall (fun e => setup_event e = true) l ->
              EvRecordResult (Structured payload) ∉ l) as Hsetup.
    { intros l Hl Hl'. rewrite Forall_forall in Hl. by specialize (Hl _ Hl'). }
    destruct Hend as [E|[[_ E]|(sd & fevs & rs & _ & E & HFf & Hrs & _)]];
      rewrite E in Hin.
    + revert Hin. apply Hsetup. constructor; [done|].
      eapply Forall_impl; [exact HF|apply bootstrap_event_setup].
    + revert Hin. by apply Hsetup, (prelude_setup (settings env) device).
    + rewrite !elem_of_app, elem_of_cons, !elem_of_app in Hin.
      destruct Hin as [Hin|[Hin|[Hin|[Hin|[Hin|Hin]]]]].
      * revert Hin. by apply Hsetup, (prelude_setup (settings env) device).
      * by apply (Forall_bool_elem _ _ _ (setup_events_mkdir env test_name traces_path))
          in Hin.
      * done.
      * assert (Forall (fun e => stream_event e = true) (stream_events env None))
          as HFs.
        { unfold stream_events. apply Forall_app_2.
          - apply Forall_fmap, Forall_forall. by intros.
          - destruct (graph_failure env), (last_snapshot (graph_chunks env));
              try by constructor.
            rewrite app_nil_r. unfold stderr_events.
            destruct (find _ _) as [[]|]; by repeat constructor. }
        by apply (Forall_bool_elem _ _ _ HFs) in Hin.
      * by apply (Forall_bool_elem _ _ _ HFf) in Hin.
      * apply list_elem_of_fmap in Hin as (res & [= <-] & Hin). rewrite Hrs in Hin.
        destruct (fst (run_automation fuel env goal test_name traces_path None w))
          as [res|e|] eqn:Hres; [|set_solver..].
        destruct res as [p|t|]; cbn in Hin; [|set_solver..].
        apply list_elem_of_singleton in Hin as [= <-].
        by destruct (structured_result_origin fuel env goal test_name traces_path
                       None w _ Hres).
Qed.

Lemma main_without_description_witness :
  EvOutputter ∉
    events_since empty_world
      (snd (main 5 successful_run true "open settings" None "traces" (Some "")
              empty_world)).
Proof.
  apply (proj1 (proj2 (main_without_description 5 successful_run true
                         "open settings" None "traces" (Some "") empty_world
                         eq_refl))).
Defined.
